(** * Verification of [data/clean_csv.py]

    The script is a straight-line pandas program:

<<
    df = pd.read_csv('data/superstore_orders.csv')
    df['Order Date'] = pd.to_datetime(df['Order Date'], format='%m/%d/%Y')
    df['Ship Date']  = pd.to_datetime(df['Ship Date'],  format='%m/%d/%Y')
    df.columns = [col.strip() for col in df.columns]
    df = df.applymap(lambda x: x.strip() if isinstance(x, str) else x)
    df = df.drop_duplicates()
    df = df.fillna({'Sales': 0, 'Quantity': 0, 'Discount': 0, 'Profit': 0})
    df.to_csv('data/superstore_orders_cleaned.csv', index=False)
    print(...)
>>

    It is embedded as a program in a state-and-exception monad over a world
    made of a file system and the standard output.  Every statement of the
    script is one definition below, carrying the name of the pandas
    operation it calls.

    Scope of the model.
    - pandas is taken as it is in the versions that have [applymap]
      (before 3.0): [pd.to_datetime] builds [datetime64[ns]] values.
    - A CSV file is taken after tokenisation: a header and a list of
      records, each a list of field texts (quoting and line splitting are
      not modelled).  Records are expected to have one field per header
      name and header names to be non-empty and distinct; what [read_csv]
      does with ragged lines or repeated names is outside the model.
    - Text is a [string] that holds the UTF-8 encoding of the Python
      text.  Whitespace is the whitespace of [str.isspace], whose
      characters take one, two or three bytes.  Digits are the ASCII
      digits; the decimal digits of other scripts, which Python's [\d] and
      [int] also take, are outside the model.
    - A float64 value is modelled by the exact decimal it was read from,
      kept in canonical form (no rounding, no infinities, no negative
      zero).  The type inference of [read_csv] is modelled for fields
      that are int64 integers, such decimals, booleans, missing-value
      markers and other text; integers from 2^63 on, the spellings of
      infinity and decimals that a double does not hold exactly are read
      by pandas in ways that are outside the model.
    - [pd.to_datetime] is modelled on columns of text and of missing
      values; a column of numbers is refused here, whereas pandas casts a
      float64 column to [datetime64[ns]].
    - Within one column all cells share a dtype, so value equality of
      cells is structural equality.
    - Writing the output file and printing always succeed. *)

From Stdlib Require Import ZArith Ascii String List Lia.
From stdpp Require Import base tactics option list strings gmap pretty.

Local Open Scope string_scope.
Local Open Scope Z_scope.

(** ** Characters and text *)

(** Python's [str.isspace] on the ASCII range: TAB, LF, VT, FF, CR, the
    four separators FS, GS, RS, US, and the space. *)
Definition is_space (c : ascii) : bool :=
  let n := N_of_ascii c in
  ((9 <=? n) && (n <=? 13) || (28 <=? n) && (n <=? 32))%N.

(** C's [isspace] as used by the tokenizer of [read_csv] on numeric fields. *)
Definition isspace_ascii (c : ascii) : bool :=
  let n := N_of_ascii c in
  ((9 <=? n) && (n <=? 13) || (n =? 32))%N.

Definition is_digit (c : ascii) : bool :=
  let n := N_of_ascii c in ((48 <=? n) && (n <=? 57))%N.

Definition digit_val (c : ascii) : Z := Z.of_N (N_of_ascii c) - 48.

Definition in_range (lo hi : ascii) (c : ascii) : bool :=
  ((N_of_ascii lo <=? N_of_ascii c) && (N_of_ascii c <=? N_of_ascii hi))%N.

Definition is_char (a c : ascii) : bool := (N_of_ascii a =? N_of_ascii c)%N.

(** Removal of the leading, and of the trailing, characters satisfying [p]. *)
Fixpoint lstrip_with (p : ascii → bool) (s : string) : string :=
  match s with
  | String c r => if p c then lstrip_with p r else s
  | EmptyString => EmptyString
  end.

Fixpoint rstrip_with (p : ascii → bool) (s : string) : string :=
  match s with
  | String c r =>
      match rstrip_with p r with
      | EmptyString => if p c then EmptyString else String c EmptyString
      | r' => String c r'
      end
  | EmptyString => EmptyString
  end.

Definition strip_with (p : ascii → bool) (s : string) : string :=
  rstrip_with p (lstrip_with p s).

(** Python text is taken in its UTF-8 encoding, so a whitespace character
    of [str.isspace] is one, two or three bytes long: the ASCII whitespace
    of [is_space], and the characters below. *)

(** The whitespace characters of [str.isspace] that take two bytes in
    UTF-8: U+0085 (C2 85) and U+00A0 (C2 A0). *)
Definition is_space2 (a b : ascii) : bool :=
  let x := N_of_ascii a in
  let y := N_of_ascii b in
  ((x =? 194) && ((y =? 133) || (y =? 160)))%N.

(** Those that take three bytes: U+1680 (E1 9A 80), U+2000 to U+200A
    (E2 80 80 to E2 80 8A), U+2028, U+2029 and U+202F (E2 80 A8, A9 and AF),
    U+205F (E2 81 9F) and U+3000 (E3 80 80). *)
Definition is_space3 (a b c : ascii) : bool :=
  let x := N_of_ascii a in
  let y := N_of_ascii b in
  let z := N_of_ascii c in
  (((x =? 225) && (y =? 154) && (z =? 128))
   || ((x =? 226) && (y =? 128)
       && (((128 <=? z) && (z <=? 138)) || (z =? 168) || (z =? 169) || (z =? 175)))
   || ((x =? 226) && (y =? 129) && (z =? 159))
   || ((x =? 227) && (y =? 128) && (z =? 128)))%N.

(** [str.lstrip()]: the whitespace characters at the head are removed. *)
Fixpoint lstrip (s : string) : string :=
  match s with
  | String a r =>
      if is_space a then lstrip r
      else match r with
           | String b r' =>
               if is_space2 a b then lstrip r'
               else match r' with
                    | String c r'' => if is_space3 a b c then lstrip r'' else s
                    | EmptyString => s
                    end
           | EmptyString => s
           end
  | EmptyString => EmptyString
  end.

(** A text of whitespace characters only. *)
Definition blank (s : string) : bool :=
  match lstrip s with EmptyString => true | _ => false end.

(** [str.rstrip()]: the text is cut where what follows is whitespace only. *)
Fixpoint rstrip (s : string) : string :=
  match s with
  | String a r => if blank s then EmptyString else String a (rstrip r)
  | EmptyString => EmptyString
  end.

(** [str.strip()] without argument. *)
Definition strip (s : string) : string := rstrip (lstrip s).


Fixpoint string_forallb (p : ascii → bool) (s : string) : bool :=
  match s with
  | String c r => p c && string_forallb p r
  | EmptyString => true
  end.

Fixpoint string_existsb (p : ascii → bool) (s : string) : bool :=
  match s with
  | String c r => p c || string_existsb p r
  | EmptyString => false
  end.

(** Value of a non-empty run of decimal digits. *)
Fixpoint digits_acc (acc : Z) (s : string) : option Z :=
  match s with
  | String c r => if is_digit c then digits_acc (10 * acc + digit_val c) r else None
  | EmptyString => Some acc
  end.

Definition digits_value (s : string) : option Z :=
  match s with
  | EmptyString => None
  | _ => digits_acc 0 s
  end.

(** Python's [int(text)] on what the date pattern can capture: a run of
    digits, possibly after whitespace. *)
Definition py_int (s : string) : option Z := digits_value (strip s).

Definition digit_char (n : Z) : ascii := pretty_N_char (Z.to_N n).

Definition pad2 (n : Z) : string :=
  String (digit_char (n / 10 mod 10)) (String (digit_char (n mod 10)) "").

Definition pad4 (n : Z) : string :=
  String (digit_char (n / 1000 mod 10)) (String (digit_char (n / 100 mod 10)) (pad2 n)).

(** ** Exceptions and results *)

Inductive value_error :=
  | NoMatch            (* time data doesn't match format *)
  | UnconvertedData    (* unconverted data remains *)
  | DateOutOfRange     (* day is out of range for month, year 0 *)
  | OutOfBoundsDatetime. (* outside the range of a nanosecond timestamp *)

Inductive exn :=
  | FileNotFoundError (path : string)
  | KeyError (key : string)
  | TypeError
  | ValueError (why : value_error).

Inductive result (A : Type) :=
  | Ok (a : A)
  | Raise (e : exn).
Arguments Ok {A} a.
Arguments Raise {A} e.

Definition bind {A B} (m : result A) (f : A → result B) : result B :=
  match m with
  | Ok a => f a
  | Raise e => Raise e
  end.

Notation "'let*' x := m 'in' k" := (bind m (fun x => k))
  (at level 10, x name, m at level 100, k at level 200).

(** Runs [f] over a list from left to right and stops at the first
    exception. *)
Fixpoint traverse {A B} (f : A → result B) (l : list A) : result (list B) :=
  match l with
  | [] => Ok []
  | x :: l' => let* y := f x in let* ys := traverse f l' in Ok (y :: ys)
  end.

(** ** Calendar dates and the pattern [%m/%d/%Y] *)

Record date := Date { year : Z; month : Z; day : Z }.

Definition is_leap (y : Z) : bool :=
  (y mod 4 =? 0) && (negb (y mod 100 =? 0) || (y mod 400 =? 0)).

Definition days_in_month (y m : Z) : Z :=
  if m =? 2 then (if is_leap y then 29 else 28)
  else if (m =? 4) || (m =? 6) || (m =? 9) || (m =? 11) then 30
  else 31.

(** [datetime.date(y, m, d)] accepts the triple. *)
Definition date_ok (d : date) : bool :=
  (1 <=? year d) && (year d <=? 9999) &&
  (1 <=? month d) && (month d <=? 12) &&
  (1 <=? day d) && (day d <=? days_in_month (year d) (month d)).

(** Lexicographic comparison of two dates. *)
Definition date_ltb (a b : date) : bool :=
  (year a <? year b) ||
  ((year a =? year b) &&
   ((month a <? month b) || ((month a =? month b) && (day a <? day b)))).

(** A [datetime64[ns]] holds a signed 64-bit count of nanoseconds since
    1970: the first instant is 1677-09-21 00:12:43.145224193 and the last
    is 2262-04-11 23:47:16.854775807.  A midnight is in bounds when its
    day is after the former's and not after the latter's. *)
Definition ns_min_day : date := Date 1677 9 21.
Definition ns_max_day : date := Date 2262 4 11.

Definition in_ns_bounds (d : date) : bool :=
  date_ltb ns_min_day d && negb (date_ltb ns_max_day d).

(** A backtracking matcher: every way of matching a prefix of the text,
    most preferred first, each with what it captured and what is left. *)
Definition re (A : Type) : Type := string → list (A * string).

Definition re_chr (p : ascii → bool) : re string := λ s,
  match s with
  | String c r => if p c then [(String c "", r)] else []
  | EmptyString => []
  end.

Definition re_seq (p q : re string) : re string := λ s,
  '(a, r) ← p s; '(b, r') ← q r; [(a +:+ b, r')].

Definition re_alt {A} (p q : re A) : re A := λ s, (p s ++ q s)%list.

(** [%m] is [(1[0-2]|0[1-9]|[1-9])]. *)
Definition re_m : re string :=
  re_alt (re_seq (re_chr (is_char "1")) (re_chr (in_range "0" "2")))
 (re_alt (re_seq (re_chr (is_char "0")) (re_chr (in_range "1" "9")))
         (re_chr (in_range "1" "9"))).

(** [%d] is [(3[0-1]|[1-2]\d|0[1-9]|[1-9]| [1-9])]. *)
Definition re_d : re string :=
  re_alt (re_seq (re_chr (is_char "3")) (re_chr (in_range "0" "1")))
 (re_alt (re_seq (re_chr (in_range "1" "2")) (re_chr is_digit))
 (re_alt (re_seq (re_chr (is_char "0")) (re_chr (in_range "1" "9")))
 (re_alt (re_chr (in_range "1" "9"))
         (re_seq (re_chr (is_char " ")) (re_chr (in_range "1" "9")))))).

(** [%Y] is [(\d\d\d\d)]. *)
Definition re_Y : re string :=
  re_seq (re_chr is_digit)
    (re_seq (re_chr is_digit) (re_seq (re_chr is_digit) (re_chr is_digit))).

(** The whole pattern, with its three groups in the order m, d, Y. *)
Definition re_mdY : re (string * string * string) := λ s,
  '(m, r1) ← re_m s;
  '(_, r2) ← re_chr (is_char "/") r1;
  '(d, r3) ← re_d r2;
  '(_, r4) ← re_chr (is_char "/") r3;
  '(y, r5) ← re_Y r4;
  [((m, d, y), r5)].

(** One text under [format='%m/%d/%Y'], [exact=True]: the first match of
    the pattern at the start of the text, which must use all of it; the
    groups converted with [int]; the triple checked as a calendar date and
    against the nanosecond range. *)
Definition strptime (s : string) : result date :=
  match re_mdY s with
  | [] => Raise (ValueError NoMatch)
  | ((m, d, y), rest) :: _ =>
      match rest with
      | String _ _ => Raise (ValueError UnconvertedData)
      | EmptyString =>
          match py_int y, py_int m, py_int d with
          | Some y', Some m', Some d' =>
              let dt := Date y' m' d' in
              if negb (date_ok dt) then Raise (ValueError DateOutOfRange)
              else if negb (in_ns_bounds dt) then Raise (ValueError OutOfBoundsDatetime)
              else Ok dt
          | _, _, _ => Raise (ValueError NoMatch)
          end
      end
  end.

(** [strftime('%Y-%m-%d')], the form in which [to_csv] writes a column of
    midnights. *)
Definition isoformat (d : date) : string :=
  pad4 (year d) +:+ "-" +:+ pad2 (month d) +:+ "-" +:+ pad2 (day d).


(** ** Numbers as [read_csv] reads them and [to_csv] writes them *)

(** A float64 value [mant * 10 ^ expo]. *)
Record float64 := Float64 { mant : Z; expo : Z }.

(** Canonical form: no trailing zero in the mantissa, and zero is [0e0]. *)
Fixpoint drop_zeros (fuel : nat) (m e : Z) : float64 :=
  match fuel with
  | O => Float64 m e
  | S k => if (m mod 10 =? 0) then drop_zeros k (m / 10) (e + 1) else Float64 m e
  end.

Definition normalize (x : float64) : float64 :=
  if mant x =? 0 then Float64 0 0
  else drop_zeros (Z.to_nat (Z.log2_up (Z.abs (mant x)))) (mant x) (expo x).

Definition float_of_Z (n : Z) : float64 := normalize (Float64 n 0).

(** The longest prefix of digits, and the rest. *)
Fixpoint span_digits (s : string) : string * string :=
  match s with
  | String c r =>
      if is_digit c then let '(d, r') := span_digits r in (String c d, r')
      else (EmptyString, s)
  | EmptyString => (EmptyString, EmptyString)
  end.

(** An optional sign: [true] for a minus. *)
Definition take_sign (s : string) : bool * string :=
  match s with
  | String c r =>
      if is_char "-" c then (true, r)
      else if is_char "+" c then (false, r)
      else (false, s)
  | EmptyString => (false, s)
  end.

Definition apply_sign (neg : bool) (n : Z) : Z := if neg then - n else n.

Definition int64_min : Z := - 2 ^ 63.
Definition int64_max : Z := 2 ^ 63 - 1.

(** The tokenizer's [str_to_int64]: blanks, an optional sign, at least one
    digit, blanks, nothing else, and no overflow. *)
Definition parse_int64 (f : string) : option Z :=
  let '(neg, r) := take_sign (strip_with isspace_ascii f) in
  n ← digits_value r;
  let z := apply_sign neg n in
  if (int64_min <=? z) && (z <=? int64_max) then Some z else None.

(** The exponent part of a float: empty, or [e] or [E], an optional sign
    and at least one digit. *)
Definition parse_exponent (s : string) : option Z :=
  match s with
  | EmptyString => Some 0
  | String c r =>
      if is_char "e" c || is_char "E" c then
        let '(neg, r') := take_sign r in
        apply_sign neg <$> digits_value r'
      else None
  end.

(** The tokenizer's [xstrtod]: blanks, an optional sign, digits with an
    optional point, at least one digit among them, an optional exponent,
    blanks, nothing else. *)
Definition parse_float (f : string) : option float64 :=
  let '(neg, r) := take_sign (strip_with isspace_ascii f) in
  let '(ip, r1) := span_digits r in
  let '(fp, r2) :=
    match r1 with
    | String c r' => if is_char "." c then span_digits r' else (EmptyString, r1)
    | EmptyString => (EmptyString, r1)
    end in
  m ← digits_value (ip +:+ fp);
  e ← parse_exponent r2;
  Some (normalize (Float64 (apply_sign neg m) (e - Z.of_nat (String.length fp)))).

Fixpoint zeros (n : nat) : string :=
  match n with
  | O => EmptyString
  | S k => String "0" (zeros k)
  end.

Fixpoint string_take (n : nat) (s : string) : string :=
  match n, s with
  | S k, String c r => String c (string_take k r)
  | _, _ => EmptyString
  end.

Fixpoint string_drop (n : nat) (s : string) : string :=
  match n, s with
  | S k, String _ r => string_drop k r
  | _, _ => s
  end.

(** The exponent of the scientific form: a sign and at least two digits. *)
Definition repr_exponent (e : Z) : string :=
  (if e <? 0 then "-" else "+") +:+
  (if Z.abs e <? 10 then "0" else "") +:+ pretty (Z.abs e).

(** [repr] of a float, which is also how [to_csv] writes it: the shortest
    digits, in positional form when the decimal point falls within
    [-4 < decpt <= 16] and in scientific form otherwise. *)
Definition repr_float (x : float64) : string :=
  let x := normalize x in
  if mant x =? 0 then "0.0" else
  let ds := pretty (Z.abs (mant x)) in
  let n := Z.of_nat (String.length ds) in
  let decpt := n + expo x in
  (if mant x <? 0 then "-" else "") +:+
  (if (-4 <? decpt) && (decpt <=? 16) then
     if decpt <=? 0 then "0." +:+ zeros (Z.to_nat (- decpt)) +:+ ds
     else if n <=? decpt then ds +:+ zeros (Z.to_nat (decpt - n)) +:+ ".0"
     else string_take (Z.to_nat decpt) ds +:+ "." +:+ string_drop (Z.to_nat decpt) ds
   else
     string_take 1 ds +:+
     (if 1 <? n then "." +:+ string_drop 1 ds else "") +:+
     "e" +:+ repr_exponent (decpt - 1)).

(** ** Cells, rows and frames *)

(** A cell of a frame.  [Missing] stands for both [NaN] and [NaT]. *)
Inductive cell :=
  | Str (s : string)
  | Int (n : Z)
  | Float (x : float64)
  | Bool (b : bool)
  | Missing
  | Timestamp (d : date).

Abbreviation row := (list cell).

(** An in-memory table: the column labels and the rows, each row holding
    one cell per column. *)
Record DataFrame := Frame { columns : list string; rows : list row }.

Global Instance date_eq_dec : EqDecision date.
Proof. solve_decision. Defined.
Global Instance float64_eq_dec : EqDecision float64.
Proof. solve_decision. Defined.
Global Instance cell_eq_dec : EqDecision cell.
Proof. solve_decision. Defined.

Definition isna (c : cell) : bool :=
  match c with Missing => true | _ => false end.

Definition date_eqb (a b : date) : bool :=
  (year a =? year b) && (month a =? month b) && (day a =? day b).

Definition float_eqb (a b : float64) : bool :=
  (mant a =? mant b) && (expo a =? expo b).

(** Equality of two cells as the hash table of [duplicated] sees it: two
    missing values are equal. *)
Definition cell_eqb (a b : cell) : bool :=
  match a, b with
  | Str s, Str t => String.eqb s t
  | Int n, Int m => n =? m
  | Float x, Float y => float_eqb x y
  | Bool p, Bool q => Bool.eqb p q
  | Missing, Missing => true
  | Timestamp d, Timestamp e => date_eqb d e
  | _, _ => false
  end.

Fixpoint row_eqb (r1 r2 : row) : bool :=
  match r1, r2 with
  | [], [] => true
  | a :: r1', b :: r2' => cell_eqb a b && row_eqb r1' r2'
  | _, _ => false
  end.

(** How [to_csv] writes one cell ([na_rep] is the empty text). *)
Definition render_cell (c : cell) : string :=
  match c with
  | Str s => s
  | Int n => pretty n
  | Float x => repr_float x
  | Bool b => if b then "True" else "False"
  | Missing => ""
  | Timestamp d => isoformat d
  end.

(** ** [pd.read_csv] *)

(** A CSV file after tokenisation. *)
Record csv_file := CsvFile { header : list string; records : list (list string) }.

(** The texts that [read_csv] takes for a missing value by default. *)
Definition na_values : list string :=
  [""; "#N/A"; "#N/A N/A"; "#NA"; "-1.#IND"; "-1.#QNAN"; "-NaN"; "-nan";
   "1.#IND"; "1.#QNAN"; "<NA>"; "N/A"; "NA"; "NULL"; "NaN"; "None"; "n/a";
   "nan"; "null"].

Definition is_na (f : string) : bool := existsb (String.eqb f) na_values.

Definition to_upper (c : ascii) : ascii :=
  if in_range "a" "z" c then ascii_of_N (N_of_ascii c - 32) else c.

Fixpoint upper (s : string) : string :=
  match s with
  | String c r => String (to_upper c) (upper r)
  | EmptyString => EmptyString
  end.

(** The tokenizer's [to_boolean]: TRUE or FALSE in any letter case. *)
Definition parse_bool (f : string) : option bool :=
  if String.eqb (upper f) "TRUE" then Some true
  else if String.eqb (upper f) "FALSE" then Some false
  else None.

(** Converts every field that is not a missing value with [conv]; [None]
    when one of them does not convert. *)
Definition try_column (conv : string → option cell) (fields : list string)
  : option (list cell) :=
  mapM (λ f, if is_na f then Some Missing else conv f) fields.

Definition upcast_int (c : cell) : cell :=
  match c with
  | Int n => Float (float_of_Z n)
  | _ => c
  end.

(** Type inference for one column, in the order int64, float64, bool,
    object.  Integers next to missing values become floats, booleans next
    to missing values stay in an object column, and anything else is kept
    as text. *)
Definition infer_column (fields : list string) : list cell :=
  match try_column (λ f, Int <$> parse_int64 f) fields with
  | Some cells => if existsb is_na fields then map upcast_int cells else cells
  | None =>
      match try_column (λ f, Float <$> parse_float f) fields with
      | Some cells => cells
      | None =>
          match try_column (λ f, Bool <$> parse_bool f) fields with
          | Some cells => cells
          | None => map (λ f, if is_na f then Missing else Str f) fields
          end
      end
  end.

Definition column_fields (j : nat) (recs : list (list string)) : list string :=
  map (λ rec, default "" (rec !! j)) recs.

(** The frame read from a file: the header gives the labels, every column
    is typed on its own, and row [i] collects the [i]-th cell of each. *)
Definition parse_csv (f : csv_file) : DataFrame :=
  let cols := imap (λ j _, infer_column (column_fields j (records f))) (header f) in
  Frame (header f)
        (imap (λ i _, map (λ col, default Missing (col !! i)) cols) (records f)).

(** ** Operations on frames *)

(** Position of a label among the column labels. *)
Fixpoint get_loc (name : string) (cols : list string) : option nat :=
  match cols with
  | [] => None
  | c :: cs => if String.eqb c name then Some O else S <$> get_loc name cs
  end.

Definition column (j : nat) (rs : list row) : list cell :=
  map (λ r, default Missing (r !! j)) rs.

(** [df[name]]. *)
Definition getitem (df : DataFrame) (name : string) : result (list cell) :=
  match get_loc name (columns df) with
  | Some j => Ok (column j (rows df))
  | None => Raise (KeyError name)
  end.

(** [df[name] = series]: replaces the column, or appends a new one. *)
Definition setitem (df : DataFrame) (name : string) (series : list cell) : DataFrame :=
  match get_loc name (columns df) with
  | Some j => Frame (columns df) (zip_with (λ r c, <[j:=c]> r) (rows df) series)
  | None => Frame (columns df ++ [name])%list (zip_with (λ r c, (r ++ [c])%list) (rows df) series)
  end.

(** The texts that [to_datetime] takes for a missing time. *)
Definition nat_strings : list string := ["NaT"; "nat"; "NAT"; "nan"; "NaN"; "NAN"].

Definition is_nat_string (s : string) : bool :=
  String.eqb s "" || existsb (String.eqb s) nat_strings.

(** One element under [format='%m/%d/%Y']: missing values and their
    markers give a missing time; a number is turned into text with [str],
    which never matches the pattern, except that the integer [-2^63] is
    the missing time itself. *)
Definition to_datetime_cell (c : cell) : result cell :=
  match c with
  | Str s => if is_nat_string s then Ok Missing
             else let* d := strptime s in Ok (Timestamp d)
  | Int n => if n =? int64_min then Ok Missing else Raise (ValueError NoMatch)
  | Float _ => Raise (ValueError NoMatch)
  | Bool _ => Raise (ValueError NoMatch)
  | Missing => Ok Missing
  | Timestamp d => Ok (Timestamp d)
  end.

Definition is_bool_dtype (series : list cell) : bool :=
  match series with
  | [] => false
  | _ => forallb (λ c, match c with Bool _ => true | _ => false end) series
  end.

(** [pd.to_datetime(series, format='%m/%d/%Y')]: a boolean column is
    refused as a whole; otherwise the elements are converted in order and
    the first one that fails raises. *)
Definition to_datetime (series : list cell) : result (list cell) :=
  if is_bool_dtype series then Raise TypeError
  else traverse to_datetime_cell series.

(** [[col.strip() for col in df.columns]]. *)
Definition strip_columns (df : DataFrame) : DataFrame :=
  Frame (map strip (columns df)) (rows df).

(** [lambda x: x.strip() if isinstance(x, str) else x]. *)
Definition strip_cell (c : cell) : cell :=
  match c with
  | Str s => Str (strip s)
  | _ => c
  end.

(** [df.applymap(f)]. *)
Definition applymap (f : cell → cell) (df : DataFrame) : DataFrame :=
  Frame (columns df) (map (map f) (rows df)).

(** [df.duplicated()]: one flag per row, set when an equal row has been
    seen before it. *)
Fixpoint duplicated_from (seen : list row) (rs : list row) : list bool :=
  match rs with
  | [] => []
  | r :: rs' =>
      let dup := existsb (row_eqb r) seen in
      dup :: duplicated_from (if dup then seen else r :: seen) rs'
  end.

Definition duplicated (rs : list row) : list bool := duplicated_from [] rs.

(** Boolean indexing: the elements whose flag is set. *)
Fixpoint select {A} (mask : list bool) (l : list A) : list A :=
  match mask, l with
  | b :: mask', x :: l' => if b then x :: select mask' l' else select mask' l'
  | _, _ => []
  end.

(** [df.drop_duplicates()] is [df[~df.duplicated()]]. *)
Definition drop_duplicates (df : DataFrame) : DataFrame :=
  Frame (columns df) (select (map negb (duplicated (rows df))) (rows df)).

Fixpoint dict_get (name : string) (d : list (string * Z)) : option Z :=
  match d with
  | [] => None
  | (k, v) :: d' => if String.eqb k name then Some v else dict_get name d'
  end.

Definition is_float_dtype (series : list cell) : bool :=
  forallb (λ c, match c with Float _ | Missing => true | _ => false end) series.

(** The fill value as the column holds it: a float in a float column, the
    integer itself in an object column. *)
Definition fill_value (series : list cell) (v : Z) : cell :=
  if is_float_dtype series then Float (float_of_Z v) else Int v.

(** The fill value of each column, if its label is a key of [values]. *)
Definition fills_of (df : DataFrame) (values : list (string * Z)) : list (option cell) :=
  imap (λ j name, fill_value (column j (rows df)) <$> dict_get name values)
       (columns df).

(** The missing cells of a row take the fill value of their column. *)
Definition fill_row (fills : list (option cell)) (r : row) : row :=
  imap (λ j c, if isna c then default c (mjoin (fills !! j)) else c) r.

(** [df.fillna(values)] with a dictionary from labels to numbers: in each
    column whose label is a key, the missing cells take the value. *)
Definition fillna (df : DataFrame) (values : list (string * Z)) : DataFrame :=
  Frame (columns df) (map (fill_row (fills_of df values)) (rows df)).

(** What [to_csv(path, index=False)] writes: the labels, then each row. *)
Definition frame_to_csv (df : DataFrame) : csv_file :=
  CsvFile (columns df) (map (map render_cell) (rows df)).

(** ** The script *)

Definition input_path : string := "data/superstore_orders.csv".
Definition output_path : string := "data/superstore_orders_cleaned.csv".
Definition message : string :=
  "✅ Clean CSV saved as: data/superstore_orders_cleaned.csv".

Definition fill_values : list (string * Z) :=
  [("Sales", 0); ("Quantity", 0); ("Discount", 0); ("Profit", 0)].

(** [df[name] = pd.to_datetime(df[name], format='%m/%d/%Y')]. *)
Definition fix_date (name : string) (df : DataFrame) : result DataFrame :=
  let* series := getitem df name in
  let* parsed := to_datetime series in
  Ok (setitem df name parsed).

(** Steps 1 to 4, on the table in memory. *)
Definition transform (df : DataFrame) : result DataFrame :=
  let* df := fix_date "Order Date" df in
  let* df := fix_date "Ship Date" df in
  let df := strip_columns df in
  let df := applymap strip_cell df in
  let df := drop_duplicates df in
  Ok (fillna df fill_values).

(** The world the script runs in. *)
Record world := World { files : gmap string csv_file; stdout : list string }.

Definition prog (A : Type) : Type := world → result A * world.

Definition ret {A} (a : A) : prog A := λ w, (Ok a, w).

Definition lift {A} (m : result A) : prog A := λ w, (m, w).

Definition seq_prog {A B} (m : prog A) (k : A → prog B) : prog B := λ w,
  match m w with
  | (Ok a, w') => k a w'
  | (Raise e, w') => (Raise e, w')
  end.

Notation "'do' x <- m ; k" := (seq_prog m (fun x => k))
  (at level 10, x name, m at level 100, k at level 200).

Definition read_csv (path : string) : prog DataFrame := λ w,
  match files w !! path with
  | Some f => (Ok (parse_csv f), w)
  | None => (Raise (FileNotFoundError path), w)
  end.

Definition to_csv (df : DataFrame) (path : string) : prog unit := λ w,
  (Ok tt, World (<[path := frame_to_csv df]> (files w)) (stdout w)).

Definition print (line : string) : prog unit := λ w,
  (Ok tt, World (files w) (stdout w ++ [line])%list).

Definition main : prog unit :=
  do df <- read_csv input_path;
  do df <- lift (transform df);
  do _ <- to_csv df output_path;
  print message.

(** * Vocabulary of the statements *)

(** ** Whitespace *)

(** Number of bytes of the whitespace character at the head of the text,
    zero when the text does not begin with one. *)
Definition space_len (s : string) : nat :=
  match s with
  | String a r =>
      if is_space a then 1
      else match r with
           | String b r' =>
               if is_space2 a b then 2
               else match r' with
                    | String c _ => if is_space3 a b c then 3 else 0
                    | EmptyString => 0
                    end
           | EmptyString => 0
           end
  | EmptyString => 0
  end%nat.

(** The text is one whitespace character. *)
Definition space_char (w : string) : bool :=
  match w with
  | EmptyString => false
  | _ => (space_len w =? String.length w)%nat
  end.

(** The text is made of whitespace characters. *)
Inductive spaces : string → Prop :=
  | spaces_nil : spaces ""
  | spaces_cons w s : space_char w = true → spaces s → spaces (w +:+ s).

(** The text neither begins nor ends with a whitespace character: wherever
    one occurs in it, there is text before it and text after it. *)
Definition trimmed (t : string) : Prop :=
  ∀ x w y, t = x +:+ w +:+ y → space_char w = true → x ≠ "" ∧ y ≠ "".

(** The first byte of a whitespace character is an ASCII whitespace or one
    of C2, E1, E2 and E3; its other bytes are between 80 and BF. *)
Definition is_lead (c : ascii) : bool :=
  let n := N_of_ascii c in
  (is_space c || (n =? 194) || (n =? 225) || (n =? 226) || (n =? 227))%N.

Definition is_cont (c : ascii) : bool :=
  let n := N_of_ascii c in ((128 <=? n) && (n <=? 191))%N.

(** An ASCII character that is no whitespace. *)
Definition is_plain (c : ascii) : bool :=
  (N_of_ascii c <? 128)%N && negb (is_space c).

(** An ASCII character. *)
Definition is_ascii (c : ascii) : bool := (N_of_ascii c <? 128)%N.

(** The UTF-8 encoding of a code point below U+10000. *)
Definition utf8 (cp : N) : string :=
  (if cp <? 128 then String (ascii_of_N cp) ""
   else if cp <? 2048 then
     String (ascii_of_N (192 + cp / 64)) (String (ascii_of_N (128 + cp mod 64)) "")
   else
     String (ascii_of_N (224 + cp / 4096))
       (String (ascii_of_N (128 + (cp / 64) mod 64))
          (String (ascii_of_N (128 + cp mod 64)) "")))%N.

(** The code points that [str.isspace] takes for whitespace: U+0009 to
    U+000D, U+001C to U+0020, U+0085, U+00A0, U+1680, U+2000 to U+200A,
    U+2028, U+2029, U+202F, U+205F and U+3000. *)
Definition py_whitespace : list N :=
  [9; 10; 11; 12; 13; 28; 29; 30; 31; 32; 133; 160; 5760;
   8192; 8193; 8194; 8195; 8196; 8197; 8198; 8199; 8200; 8201; 8202;
   8232; 8233; 8239; 8287; 12288]%N.

(** The no-break space U+00A0 and the em space U+2003, in UTF-8. *)
Definition nbsp : string := String (ascii_of_N 194) (String (ascii_of_N 160) "").
Definition em_space : string :=
  String (ascii_of_N 226) (String (ascii_of_N 128) (String (ascii_of_N 131) "")).

(** ** Texts and the date pattern *)

(** The last character of a text. *)
Fixpoint string_last (s : string) : option ascii :=
  match s with
  | EmptyString => None
  | String c EmptyString => Some c
  | String _ r => string_last r
  end.

(** The text does not begin with a character satisfying [p]. *)
Definition clean_head (p : ascii → bool) (s : string) : Prop :=
  match s with String c _ => p c = false | EmptyString => True end.

Definition not_slash (c : ascii) : bool := negb (is_char "/" c).

(** What a matcher [p] yields is a split of the text whose first part
    satisfies [L]. *)
Definition yields (p : re string) (L : string → Prop) : Prop :=
  ∀ s g r, (g, r) ∈ p s → s = g +:+ r ∧ L g.

(** A group of digits: one or two digits, none of them a slash. *)
Definition digit_group (g : string) : Prop :=
  ∃ c t, g = String c t ∧ is_digit c = true ∧ string_forallb not_slash g = true
         ∧ string_forallb is_digit g = true.

(** A day group: not empty, and without a slash. *)
Definition day_group (g : string) : Prop :=
  g ≠ "" ∧ string_forallb not_slash g = true.

Definition year_group (g : string) : Prop :=
  String.length g = 4%nat ∧ string_forallb is_digit g = true.


(** A text of exactly [n] digits. *)
Definition digits_n (n : nat) (s : string) : bool :=
  (String.length s =? n)%nat && string_forallb is_digit s.

(** The text [s] is a calendar date written [MM/DD/YYYY]: two digits, a
    slash, two digits, a slash and four digits, which name the calendar
    date [dt]. *)
Definition calendar_mdY (s : string) (mm dd yyyy : string) (dt : date) : Prop :=
  s = mm +:+ "/" +:+ dd +:+ "/" +:+ yyyy
  ∧ digits_n 2 mm = true ∧ digits_n 2 dd = true ∧ digits_n 4 yyyy = true
  ∧ digits_value mm = Some (month dt) ∧ digits_value dd = Some (day dt)
  ∧ digits_value yyyy = Some (year dt)
  ∧ date_ok dt = true.

(** The same, for a date that a nanosecond timestamp can hold: from
    1677-09-22 to 2262-04-11. *)
Definition written_mdY (s : string) (mm dd yyyy : string) (dt : date) : Prop :=
  calendar_mdY s mm dd yyyy dt ∧ in_ns_bounds dt = true.

(** A cell matches the pattern when it is a text that [strptime] accepts. *)
Definition matches_pattern (c : cell) : Prop :=
  ∃ s dt, c = Str s ∧ strptime s = Ok dt.

(** The exceptions of [pd.to_datetime]: a [ValueError] for an element
    that cannot be parsed, a [TypeError] for a boolean column. *)
Definition parse_failure (e : exn) : Prop := e = TypeError ∨ ∃ v, e = ValueError v.

(** A date cell as the script leaves it: missing, or a time that came out
    of [strptime]. *)
Definition date_cell_ok (c : cell) : Prop :=
  c = Missing ∨ ∃ d, c = Timestamp d ∧ date_ok d = true ∧ in_ns_bounds d = true.

(** ** Reading a field *)

(** What [read_csv] may make of the field [fld]: a missing value when the
    text stands for one; otherwise the text itself, or the number or the
    boolean it parses to, an integer being held as a float in a column
    that has missing values. *)
Definition read_as (fld : string) (c : cell) : Prop :=
  if is_na fld then c = Missing
  else match c with
       | Str s => s = fld
       | Int n => parse_int64 fld = Some n
       | Float x => parse_float fld = Some x
                    ∨ ∃ n, parse_int64 fld = Some n ∧ x = float_of_Z n
       | Bool b => parse_bool fld = Some b
       | Missing | Timestamp _ => False
       end.

(** ** Rows *)

(** [drop_duplicates] on the rows alone. *)
Definition distinct_from (seen rs : list row) : list row :=
  select (map negb (duplicated_from seen rs)) rs.




(** The effect of [df[name] = pd.to_datetime(df[name], ...)] on one row,
    [j] being the position of the column. *)
Definition fix_row (j : nat) (r : row) : result row :=
  let* c := to_datetime_cell (default Missing (r !! j)) in Ok (<[j:=c]> r).

(** Numeric zero, as an integer or as a float. *)
Definition is_zero (c : cell) : Prop := c = Int 0 ∨ c = Float (Float64 0 0).

Definition fill_keys : list string := ["Sales"; "Quantity"; "Discount"; "Profit"].


(** What the script makes of the cell [c] found at position [k] of a row:
    in the two date columns the converted date; in a column whose trimmed
    label is a fill key, zero for a missing cell; otherwise the cell,
    trimmed when it is text. *)
Definition cleaned_cell (cols : list string) (k : nat) (c c' : cell) : Prop :=
  if decide (get_loc "Order Date" cols = Some k ∨ get_loc "Ship Date" cols = Some k)
  then to_datetime_cell c = Ok c'
  else match cols !! k with
       | Some name =>
           if bool_decide (strip name ∈ fill_keys) && isna c
           then is_zero c' else c' = strip_cell c
       | None => c' = strip_cell c
       end.

Definition cleaned_row (cols : list string) (r r' : row) : Prop :=
  length r' = length r
  ∧ ∀ k c, r !! k = Some c → ∃ c', r' !! k = Some c' ∧ cleaned_cell cols k c c'.

(** ** Writing the dates back in the input pattern *)







(** ** Files *)

(** The file has a header line, and every record has one field for each
    label of the header. *)
Definition rectangular (f : csv_file) : Prop :=
  header f ≠ [] ∧ Forall (λ rec, length rec = length (header f)) (records f).

Definition no_order_date_input : csv_file :=
  CsvFile ["order date"; "Ship Date"; "Sales"] [["01/02/2022"; "01/05/2022"; "10"]].

Definition no_ship_date_input : csv_file :=
  CsvFile ["Order Date"; "Sales"] [["01/02/2022"; "10"]; [""; "7"]].

(** ** The run after the file is read *)

(** Lines 7 to 27 of the script, on the table that [read_csv] returned. *)
Definition clean_and_save (df : DataFrame) : prog unit :=
  do df <- lift (transform df);
  do _ <- to_csv df output_path;
  print message.

(** ** Readings of the specification that the script does not meet *)

(** The reading "every cell that matches MM/DD/YYYY is parsed as the
    calendar date it names". *)
Definition every_calendar_date_converted : Prop :=
  ∀ s mm dd yyyy dt,
    calendar_mdY s mm dd yyyy dt → to_datetime_cell (Str s) = Ok (Timestamp dt).


(** The reading "any date cell that does not match makes the script
    fail". *)
Definition every_unmatched_date_cell_fails : Prop :=
  ∀ w f j r c,
    files w !! input_path = Some f →
    get_loc "Order Date" (header f) = Some j ∨ get_loc "Ship Date" (header f) = Some j →
    r ∈ rows (parse_csv f) → r !! j = Some c → ¬ matches_pattern c →
    ∃ e, main w = (Raise e, w).


(** ** Tables, files and worlds used as examples *)

Definition scenario_header : list string :=
  ["Order Date"; "Ship Date"; "Sales"; "Quantity"; "Discount"; "Profit"].

Definition scenario_record : list string :=
  ["01/02/2022"; "01/05/2022"; ""; "3"; "0.1"; "12.5"].

Definition scenario_input : csv_file :=
  CsvFile scenario_header [scenario_record; scenario_record].

Definition scenario_world : world :=
  World {[ input_path := scenario_input ]} [].

Definition old_date_input : csv_file :=
  CsvFile scenario_header
          [["01/01/1500"; "01/05/1500"; "10"; "3"; "0.1"; "12.5"]].

Definition old_date_world : world := World {[ input_path := old_date_input ]} [].

Definition march_frame : DataFrame :=
  Frame ["Order Date"; "Ship Date"; "Region"]
        [[Str "03/15/2023"; Str "03/17/2023"; Str "West"]].

Definition gaps_frame : DataFrame :=
  Frame ["Order Date"; "Ship Date"; "Sales"; "Region"]
        [[Str "01/02/2022"; Missing; Missing; Missing]].

Definition padded_frame : DataFrame :=
  Frame ["Order Date"; "Ship Date"; " Region "]
        [[Str "01/02/2022"; Str "01/05/2022"; Str " West "]].





Definition blank_date_input : csv_file :=
  CsvFile scenario_header
          [["01/02/2022"; "01/05/2022"; "10"; "3"; "0.1"; "12.5"];
           [""; "01/07/2022"; "20"; "1"; "0.2"; "4.5"]].

Definition blank_date_world : world := World {[ input_path := blank_date_input ]} [].









Definition iso_date_frame : DataFrame :=
  Frame scenario_header
        [[Str "01/02/2022"; Str "2022-01-05"; Int 10; Int 3;
          Float (Float64 1 (-1)); Float (Float64 125 (-1))]].

Definition nbsp_frame : DataFrame :=
  Frame ["Order Date"; "Ship Date"; nbsp +:+ "Region"]
        [[Str "01/02/2022"; Str "01/05/2022"; Str (nbsp +:+ "West" +:+ em_space)]].

Definition three_rows_frame : DataFrame :=
  Frame ["Order Date"; "Ship Date"; "Region"]
        [[Str "01/02/2022"; Str "01/05/2022"; Str "West"];
         [Str "01/02/2022"; Str "01/05/2022"; Str " West "];
         [Str "01/03/2022"; Str "01/06/2022"; Str "East"]].

Definition respelled_frame : DataFrame :=
  Frame ["Order Date"; "Ship Date"; "Region"]
        [[Str "1/2/2022"; Str "01/05/2022"; Str "West"];
         [Str "01/02/2022"; Str "01/05/2022"; Str "West"]].

Definition blank_sales_frame : DataFrame :=
  Frame ["Order Date"; "Ship Date"; " Sales"]
        [[Str "01/02/2022"; Str "01/05/2022"; Str "  "];
         [Str "01/03/2022"; Str "01/06/2022"; Missing];
         [Str "01/04/2022"; Str "01/07/2022"; Str " 12,5"]].

(** * Properties *)

Local Arguments String.append !_ _ / : simpl nomatch.

(** ** Characters *)

Lemma is_char_eq a c : is_char a c = true ↔ a = c.
Proof.
  unfold is_char. rewrite N.eqb_eq. split; [|by intros ->].
  intros H. rewrite <- (ascii_N_embedding a), <- (ascii_N_embedding c).
  by rewrite H.
Qed.

Lemma digit_not_space c : is_digit c = true → is_space c = false.
Proof.
  unfold is_digit, is_space. intros H.
  apply andb_true_iff in H as [H1 H2].
  apply N.leb_le in H1. apply N.leb_le in H2.
  apply orb_false_iff. split; apply andb_false_iff.
  - right. apply N.leb_gt. lia.
  - right. apply N.leb_gt. lia.
Qed.

Lemma in_range_digit lo hi c :
  is_digit lo = true → is_digit hi = true →
  in_range lo hi c = true → is_digit c = true.
Proof.
  unfold is_digit, in_range. intros Hlo Hhi H.
  apply andb_true_iff in Hlo as [?%N.leb_le ?%N.leb_le].
  apply andb_true_iff in Hhi as [?%N.leb_le ?%N.leb_le].
  apply andb_true_iff in H as [?%N.leb_le ?%N.leb_le].
  apply andb_true_iff. split; apply N.leb_le; lia.
Qed.

Lemma digit_val_range c : is_digit c = true → 0 ≤ digit_val c ≤ 9.
Proof.
  unfold is_digit, digit_val. intros H.
  apply andb_true_iff in H as [?%N.leb_le ?%N.leb_le]. lia.
Qed.

Lemma digit_char_val c : is_digit c = true → digit_char (digit_val c) = c.
Proof.
  destruct c as [[] [] [] [] [] [] [] []]; intros H;
    first [discriminate H | reflexivity].
Qed.

(** ** Concatenation of texts *)

Lemma str_app_assoc (a b c : string) : (a +:+ b) +:+ c = a +:+ (b +:+ c).
Proof. induction a as [|x a IH]; simpl; [done|]. by rewrite IH. Qed.

Lemma str_app_nil_r (a : string) : a +:+ "" = a.
Proof. induction a as [|x a IH]; simpl; [done|]. by rewrite IH. Qed.

Lemma str_app_length (a b : string) :
  String.length (a +:+ b) = (String.length a + String.length b)%nat.
Proof. induction a as [|x a IH]; simpl; [done|]. by rewrite IH. Qed.

Lemma str_app_inj_length (a b c d : string) :
  String.length a = String.length c → a +:+ b = c +:+ d → a = c ∧ b = d.
Proof.
  revert c. induction a as [|x a IH]; intros [|y c] Hl H; simpl in *;
    try discriminate; [done|].
  injection H as -> H. injection Hl as Hl.
  destruct (IH c Hl H) as [-> ->]. done.
Qed.

Lemma forallb_str_app p (a b : string) :
  string_forallb p (a +:+ b) = string_forallb p a && string_forallb p b.
Proof.
  induction a as [|x a IH]; simpl; [done|]. by rewrite IH, andb_assoc.
Qed.

(** ** Trimming *)

Section strip.
Variable p : ascii → bool.

Lemma lstrip_clean_head s : clean_head p (lstrip_with p s).
Proof.
  induction s as [|c r IH]; simpl; [done|].
  destruct (p c) eqn:E; [done|]. simpl. done.
Qed.

Lemma lstrip_fixed s : clean_head p s → lstrip_with p s = s.
Proof. destruct s as [|c r]; simpl; [done|]. by intros ->. Qed.

Lemma rstrip_clean_head s : clean_head p s → clean_head p (rstrip_with p s).
Proof.
  destruct s as [|c r]; simpl; [done|]. intros H.
  destruct (rstrip_with p r); [rewrite H|]; done.
Qed.

Lemma rstrip_idemp s : rstrip_with p (rstrip_with p s) = rstrip_with p s.
Proof.
  induction s as [|c r IH]; simpl; [done|].
  destruct (rstrip_with p r) as [|c' r'] eqn:E.
  - destruct (p c) eqn:Ec; simpl; [done|]. by rewrite Ec.
  - simpl in *. by rewrite IH.
Qed.

Lemma strip_with_idemp s : strip_with p (strip_with p s) = strip_with p s.
Proof.
  unfold strip_with.
  rewrite (lstrip_fixed (rstrip_with p _)).
  - apply rstrip_idemp.
  - apply rstrip_clean_head, lstrip_clean_head.
Qed.

Lemma lstrip_app_spaces ws s :
  string_forallb p ws = true → lstrip_with p (ws +:+ s) = lstrip_with p s.
Proof.
  induction ws as [|c r IH]; simpl; [done|].
  intros [Hc Hr]%andb_true_iff. rewrite Hc. auto.
Qed.

Lemma rstrip_spaces ws : string_forallb p ws = true → rstrip_with p ws = "".
Proof.
  induction ws as [|c r IH]; simpl; [done|].
  intros [Hc Hr]%andb_true_iff. rewrite IH, Hc; done.
Qed.

Lemma rstrip_app s t :
  rstrip_with p t ≠ "" → rstrip_with p (s +:+ t) = s +:+ rstrip_with p t.
Proof.
  intros Ht. induction s as [|c r IH]; simpl; [done|].
  rewrite IH. destruct (r +:+ rstrip_with p t) eqn:E; [|done].
  destruct r; simpl in E; [done | discriminate].
Qed.

Lemma rstrip_app_spaces s ws :
  string_forallb p ws = true → rstrip_with p (s +:+ ws) = rstrip_with p s.
Proof.
  intros Hws. induction s as [|c r IH]; simpl.
  - by apply rstrip_spaces.
  - by rewrite IH.
Qed.
End strip.

(** *** The whitespace of [str.strip] *)

Lemma string_take_drop n s : string_take n s +:+ string_drop n s = s.
Proof.
  revert s. induction n as [|n IH]; intros [|c s]; simpl; try done.
  by rewrite IH.
Qed.

Lemma string_drop_length n s :
  String.length (string_drop n s) = (String.length s - n)%nat.
Proof.
  revert s. induction n as [|n IH]; intros [|c s]; simpl; try done; lia.
Qed.

Lemma string_take_length n s :
  (n ≤ String.length s)%nat → String.length (string_take n s) = n.
Proof.
  revert s. induction n as [|n IH]; intros [|c s]; simpl; try done; try lia.
  intros H. rewrite IH; lia.
Qed.

Lemma string_drop_app n s w :
  (n ≤ String.length s)%nat → string_drop n (s +:+ w) = string_drop n s +:+ w.
Proof.
  revert s. induction n as [|n IH]; intros [|c s]; simpl; try done; try lia.
  intros H. apply IH. lia.
Qed.

Lemma string_take_app n s w :
  (n ≤ String.length s)%nat → string_take n (s +:+ w) = string_take n s.
Proof.
  revert s. induction n as [|n IH]; intros [|c s]; simpl; try done; try lia.
  intros H. rewrite IH; [done|lia].
Qed.

Lemma space_len_le s : (space_len s ≤ String.length s)%nat.
Proof.
  destruct s as [|a [|b [|c r]]]; simpl; repeat case_match; lia.
Qed.

Lemma lstrip_step s :
  lstrip s = match space_len s with O => s | n => lstrip (string_drop n s) end.
Proof.
  destruct s as [|a [|b [|c r]]]; simpl; try done.
  - by destruct (is_space a).
  - destruct (is_space a); [done|]. by destruct (is_space2 a b).
  - destruct (is_space a); [done|]. destruct (is_space2 a b); [done|].
    by destruct (is_space3 a b c).
Qed.

Lemma lstrip_no_space s : space_len s = 0%nat → lstrip s = s.
Proof. intros H. by rewrite lstrip_step, H. Qed.

Lemma lstrip_drop s :
  space_len s ≠ 0%nat → lstrip s = lstrip (string_drop (space_len s) s).
Proof. intros H. rewrite lstrip_step at 1. by destruct (space_len s). Qed.

(** Induction along the whitespace characters at the head of a text. *)
Lemma space_ind (P : string → Prop) :
  (∀ s, space_len s = 0%nat → P s) →
  (∀ s, space_len s ≠ 0%nat → P (string_drop (space_len s) s) → P s) →
  ∀ s, P s.
Proof.
  intros H0 Hs s. remember (String.length s) as n eqn:Hn. revert s Hn.
  induction n as [n IH] using lt_wf_ind. intros s ->.
  destruct (decide (space_len s = 0%nat)) as [E|E]; [by apply H0|].
  apply Hs; [done|].
  apply (IH (String.length (string_drop (space_len s) s))); [|done].
  rewrite string_drop_length. pose proof (space_len_le s). lia.
Qed.

Lemma space_len_app s w :
  space_len s ≠ 0%nat → space_len (s +:+ w) = space_len s.
Proof.
  destruct s as [|a [|b [|c r]]]; simpl; try done.
  - destruct (is_space a); [done|]. done.
  - destruct (is_space a); [done|]. destruct (is_space2 a b); [done|]. done.
Qed.

Lemma lstrip_head s : space_len (lstrip s) = 0%nat.
Proof.
  induction s as [s H|s H IH] using space_ind.
  - by rewrite lstrip_no_space.
  - by rewrite lstrip_drop.
Qed.

Lemma blank_true s : blank s = true ↔ lstrip s = "".
Proof. unfold blank. by destruct (lstrip s). Qed.

Lemma blank_false s : blank s = false ↔ lstrip s ≠ "".
Proof. unfold blank. by destruct (lstrip s). Qed.

(** Whitespace before a text is removed with the whitespace of the text. *)
Lemma lstrip_app_blank x w : lstrip x = "" → lstrip (x +:+ w) = lstrip w.
Proof.
  induction x as [x H|x H IH] using space_ind; intros Hx.
  - rewrite lstrip_no_space in Hx by done. by subst.
  - rewrite lstrip_drop in Hx by done.
    rewrite lstrip_drop by (by rewrite space_len_app).
    rewrite space_len_app by done.
    rewrite string_drop_app by apply space_len_le. by apply IH.
Qed.

Lemma space_char_len w :
  space_char w = true ↔ w ≠ "" ∧ space_len w = String.length w.
Proof.
  destruct w as [|a w]; [by split; [|intros [? _]]|].
  unfold space_char. rewrite Nat.eqb_eq. split; [by intros ?|by intros [_ ?]].
Qed.

Lemma space_char_blank w : space_char w = true → lstrip w = "".
Proof.
  intros [Hne Hl]%space_char_len.
  rewrite lstrip_drop by (destruct w; [done|simpl in *; lia]).
  rewrite Hl. assert (string_drop (String.length w) w = "") as ->; [|done].
  clear. induction w; simpl; done.
Qed.

Lemma space_len_take s :
  space_len s ≠ 0%nat → space_char (string_take (space_len s) s) = true.
Proof.
  intros H. apply space_char_len.
  pose proof (space_len_le s) as Hle.
  assert (space_len (string_take (space_len s) s) = space_len s) as E.
  { destruct s as [|a [|b [|c r]]]; simpl in *; try done.
    - destruct (is_space a) eqn:Ea; simpl; [by rewrite Ea|done].
    - destruct (is_space a) eqn:Ea; simpl; [by rewrite Ea|].
      destruct (is_space2 a b) eqn:Eb; simpl; [by rewrite Ea, Eb|done].
    - destruct (is_space a) eqn:Ea; simpl; [by rewrite Ea|].
      destruct (is_space2 a b) eqn:Eb; simpl; [by rewrite Ea, Eb|].
      destruct (is_space3 a b c) eqn:Ec; simpl; [by rewrite Ea, Eb, Ec|done]. }
  split.
  - intros E'. rewrite E' in E. simpl in E. congruence.
  - rewrite E. by rewrite string_take_length.
Qed.

Lemma spaces_blank s : spaces s ↔ lstrip s = "".
Proof.
  split.
  - induction 1 as [|w s Hw _ IH]; [done|].
    rewrite lstrip_app_blank; [done|]. by apply space_char_blank.
  - induction s as [s H|s H IH] using space_ind; intros Hs.
    + rewrite lstrip_no_space in Hs by done. subst. constructor.
    + rewrite lstrip_drop in Hs by done.
      rewrite <- (string_take_drop (space_len s) s).
      constructor; [by apply space_len_take|by apply IH].
Qed.

Lemma lstrip_split s : ∃ pre, s = pre +:+ lstrip s ∧ spaces pre.
Proof.
  induction s as [s H|s H (pre & IH & Hpre)] using space_ind.
  - exists "". rewrite lstrip_no_space by done. split; [done|constructor].
  - exists (string_take (space_len s) s +:+ pre). split.
    + rewrite lstrip_drop by done. rewrite str_app_assoc, <- IH.
      by rewrite string_take_drop.
    + constructor; [by apply space_len_take|done].
Qed.

(** *** The end of the text *)

Lemma rstrip_blank s : lstrip s = "" → rstrip s = "".
Proof.
  destruct s as [|a r]; [done|]. intros H%blank_true.
  cbn [rstrip]. by rewrite H.
Qed.

Lemma rstrip_cons a r :
  rstrip (String a r) = if blank (String a r) then "" else String a (rstrip r).
Proof. done. Qed.

Lemma rstrip_split s : ∃ post, s = rstrip s +:+ post ∧ spaces post.
Proof.
  induction s as [|a r (post & IH & Hpost)]; [exists ""; split; [done|constructor]|].
  rewrite rstrip_cons. destruct (blank (String a r)) eqn:E.
  - exists (String a r). split; [done|]. by apply spaces_blank, blank_true.
  - exists post. split; [|done]. simpl. by rewrite <- IH.
Qed.

Lemma rstrip_rstrip s : rstrip (rstrip s) = rstrip s.
Proof.
  induction s as [|a r IH]; [done|].
  rewrite rstrip_cons. destruct (blank (String a r)) eqn:E; [done|].
  rewrite rstrip_cons, IH.
  destruct (blank (String a (rstrip r))) eqn:E'; [|done].
  exfalso. apply blank_false in E. apply E.
  destruct (rstrip_split r) as (post & Hr & Hpost%spaces_blank).
  rewrite Hr at 1.
  change (String a (rstrip r +:+ post)) with (String a (rstrip r) +:+ post).
  rewrite lstrip_app_blank; [done|]. by apply blank_true.
Qed.

(** What is left of a text that has no whitespace at its head has none. *)
Lemma rstrip_head s : space_len s = 0%nat → space_len (rstrip s) = 0%nat.
Proof.
  intros H. destruct (rstrip_split s) as (post & Hs & _).
  destruct (decide (space_len (rstrip s) = 0%nat)) as [|Hn]; [done|].
  rewrite Hs, space_len_app in H by done. done.
Qed.

Lemma strip_idemp s : strip (strip s) = strip s.
Proof.
  unfold strip.
  rewrite (lstrip_no_space (rstrip (lstrip s))) by apply rstrip_head, lstrip_head.
  apply rstrip_rstrip.
Qed.

(** The cut is the first place where whitespace only follows. *)
Lemma rstrip_prefix x z : lstrip z = "" → ∃ x', x = rstrip (x +:+ z) +:+ x'.
Proof.
  intros Hz. induction x as [|a x [x' IH]].
  - exists "". simpl. by rewrite rstrip_blank.
  - change (String a x +:+ z) with (String a (x +:+ z)). rewrite rstrip_cons.
    destruct (blank _); [by exists (String a x)|].
    exists x'. simpl. by rewrite <- IH.
Qed.

(** *** Characters that are no whitespace *)

Ltac bool_to_N :=
  repeat match goal with
  | H : _ && _ = true |- _ => apply andb_true_iff in H as [? ?]
  | H : _ || _ = true |- _ => apply orb_true_iff in H as [?|?]
  | H : (_ =? _)%N = true |- _ => apply N.eqb_eq in H
  | H : (_ <=? _)%N = true |- _ => apply N.leb_le in H
  | H : (_ <? _)%N = true |- _ => apply N.ltb_lt in H
  | H : negb _ = true |- _ => apply negb_true_iff in H
  | H : _ && _ = false |- _ => apply andb_false_iff in H as [?|?]
  | H : _ || _ = false |- _ => apply orb_false_iff in H as [? ?]
  | H : (_ =? _)%N = false |- _ => apply N.eqb_neq in H
  | H : (_ <=? _)%N = false |- _ => apply N.leb_gt in H
  | H : (_ <? _)%N = false |- _ => apply N.ltb_ge in H
  end.

Lemma space2_bytes a b : is_space2 a b = true → is_lead a = true ∧ is_cont b = true.
Proof.
  unfold is_space2, is_lead, is_cont. cbv zeta. intros H. bool_to_N.
  all: split; [rewrite !orb_true_iff, !N.eqb_eq; tauto|].
  all: apply andb_true_iff; split; apply N.leb_le; lia.
Qed.

Lemma space3_bytes a b c :
  is_space3 a b c = true → is_lead a = true ∧ is_cont b = true ∧ is_cont c = true.
Proof.
  unfold is_space3, is_lead, is_cont. cbv zeta. intros H. bool_to_N.
  all: split; [rewrite !orb_true_iff, !N.eqb_eq; tauto|].
  all: split; apply andb_true_iff; split; apply N.leb_le; lia.
Qed.

Lemma lead_not_cont c : is_lead c = true → is_cont c = false.
Proof.
  unfold is_lead, is_cont, is_space. cbv zeta. intros H.
  destruct ((128 <=? N_of_ascii c)%N && (N_of_ascii c <=? 191)%N) eqn:E;
    [exfalso|done].
  bool_to_N; lia.
Qed.

Lemma space_len_lead a r : space_len (String a r) ≠ 0%nat → is_lead a = true.
Proof.
  simpl. destruct (is_space a) eqn:Ea.
  { intros _. unfold is_lead. by rewrite Ea. }
  destruct r as [|b r]; [done|].
  destruct (is_space2 a b) eqn:Eb; [intros _; by apply space2_bytes in Eb as [? _]|].
  destruct r as [|c r]; [done|].
  destruct (is_space3 a b c) eqn:Ec; [intros _; by apply space3_bytes in Ec as [? _]|].
  done.
Qed.

(** A whitespace character does not run from one text into whitespace that
    follows it. *)
Lemma space_len_straddle t post :
  t ≠ "" → lstrip post = "" →
  (space_len (t +:+ post) ≤ String.length t)%nat.
Proof.
  intros Ht Hpost.
  destruct post as [|p post].
  { rewrite str_app_nil_r. apply space_len_le. }
  assert (is_cont p = false) as Hp.
  { apply lead_not_cont, (space_len_lead p post).
    intros E. rewrite lstrip_no_space in Hpost by done. done. }
  destruct t as [|a [|b [|c t]]]; [done| | |].
  - simpl. destruct (is_space a); [lia|].
    destruct (is_space2 a p) eqn:E2.
    { apply space2_bytes in E2 as [_ ?]. congruence. }
    destruct post as [|q post]; [lia|].
    destruct (is_space3 a p q) eqn:E3; [|lia].
    apply space3_bytes in E3 as (_ & ? & _). congruence.
  - simpl. destruct (is_space a); [lia|]. destruct (is_space2 a b); [lia|].
    destruct (is_space3 a b p) eqn:E3; [|lia].
    apply space3_bytes in E3 as (_ & _ & ?). congruence.
  - pose proof (space_len_le (String a (String b (String c ""))))%string as H.
    transitivity 3%nat; [|simpl; lia].
    simpl. repeat case_match; lia.
Qed.

Lemma spaces_app a b : spaces a → spaces b → spaces (a +:+ b).
Proof.
  intros Ha%spaces_blank Hb%spaces_blank. apply spaces_blank.
  by rewrite lstrip_app_blank.
Qed.

(** A text that does not end with a whitespace character is not emptied by
    whitespace after it. *)
Lemma not_blank_app y post :
  y ≠ "" → (∀ x w, y = x +:+ w → space_char w = false) →
  lstrip post = "" → lstrip (y +:+ post) ≠ "".
Proof.
  intros Hy Hend Hpost. revert Hy Hend.
  remember (String.length y) as n eqn:Hn. revert y Hn.
  induction n as [n IH] using lt_wf_ind. intros y -> Hy Hend.
  pose proof (space_len_straddle y post Hy Hpost) as Hle.
  destruct (decide (space_len (y +:+ post) = 0%nat)) as [E|E].
  { rewrite lstrip_no_space by done. by destruct y. }
  rewrite lstrip_drop by done.
  rewrite string_drop_app by done.
  assert (space_char (string_take (space_len (y +:+ post)) y) = true) as Hw.
  { rewrite <- (string_take_app _ y post) by done. by apply space_len_take. }
  destruct (decide (string_drop (space_len (y +:+ post)) y = "")) as [Ed|Ed].
  - exfalso.
    pose proof (Hend "" (string_take (space_len (y +:+ post)) y)) as H.
    rewrite Hw in H. simpl in H.
    rewrite <- (string_take_drop (space_len (y +:+ post)) y) in H at 1.
    rewrite Ed, str_app_nil_r in H. by specialize (H eq_refl).
  - apply (IH (String.length (string_drop (space_len (y +:+ post)) y)));
      [|done|done|].
    + rewrite string_drop_length. destruct y; [done|simpl in *; lia].
    + intros x w Hxw. apply (Hend (string_take (space_len (y +:+ post)) y +:+ x)).
      by rewrite str_app_assoc, <- Hxw, string_take_drop.
Qed.

Lemma rstrip_keep y post :
  (∀ x w, y = x +:+ w → space_char w = false) →
  lstrip post = "" → rstrip (y +:+ post) = y.
Proof.
  intros Hend Hpost. induction y as [|a y IH].
  - simpl. by apply rstrip_blank.
  - change (String a y +:+ post) with (String a (y +:+ post)).
    rewrite rstrip_cons.
    assert (blank (String a (y +:+ post)) = false) as ->.
    { apply blank_false.
      by apply (not_blank_app (String a y) post). }
    f_equal. apply IH. intros x w ->. by apply (Hend (String a x)).
Qed.

Lemma trimmed_head t : trimmed t → space_len t = 0%nat.
Proof.
  intros Ht. destruct (decide (space_len t = 0%nat)) as [|E]; [done|].
  destruct (Ht "" (string_take (space_len t) t) (string_drop (space_len t) t))
    as [? _]; [|by apply space_len_take|done].
  simpl. by rewrite string_take_drop.
Qed.

Lemma trimmed_end t : trimmed t → ∀ x w, t = x +:+ w → space_char w = false.
Proof.
  intros Ht x w ->. destruct (space_char w) eqn:E; [|done].
  destruct (Ht x w "") as [_ ?]; [by rewrite str_app_nil_r|done|done].
Qed.

(** What [strip] returns neither begins nor ends with a whitespace
    character. *)
Lemma strip_trimmed s : trimmed (strip s).
Proof.
  unfold strip. intros x w y Hxwy Hw. split.
  - intros ->. simpl in Hxwy.
    pose proof (rstrip_head _ (lstrip_head s)) as H.
    rewrite Hxwy, space_len_app in H.
    + apply space_char_len in Hw as [Hne Hl]. rewrite Hl in H. by destruct w.
    + apply space_char_len in Hw as [Hne Hl]. rewrite Hl. by destruct w.
  - intros ->. rewrite str_app_nil_r in Hxwy.
    destruct (rstrip_split (lstrip s)) as (post & Hs & Hpost%spaces_blank).
    destruct (rstrip_prefix x (w +:+ post)) as [x' Hx'].
    { rewrite lstrip_app_blank; [done|]. by apply space_char_blank. }
    rewrite <- str_app_assoc, <- Hxwy, <- Hs, Hxwy in Hx'.
    apply (f_equal String.length) in Hx'. rewrite !str_app_length in Hx'.
    apply space_char_len in Hw as [Hne _]. destruct w; [done|simpl in *; lia].
Qed.

Lemma trimmed_strip t : trimmed t → strip t = t.
Proof.
  intros Ht. unfold strip. rewrite lstrip_no_space by by apply trimmed_head.
  rewrite <- (str_app_nil_r t) at 1. apply rstrip_keep; [|done].
  by apply trimmed_end.
Qed.

(** [strip] takes the whitespace away at both ends and nothing else. *)
Lemma strip_spec s t :
  strip s = t ↔
  ∃ pre post, s = pre +:+ t +:+ post ∧ spaces pre ∧ spaces post ∧ trimmed t.
Proof.
  split.
  - intros <-. unfold strip.
    destruct (lstrip_split s) as (pre & Hs & Hpre).
    destruct (rstrip_split (lstrip s)) as (post & Hl & Hpost).
    exists pre, post. split_and!; try done.
    + by rewrite <- Hl.
    + apply strip_trimmed.
  - intros (pre & post & -> & Hpre%spaces_blank & Hpost%spaces_blank & Ht).
    unfold strip. rewrite lstrip_app_blank by done.
    destruct (decide (t = "")) as [->|Hne].
    { simpl. by rewrite Hpost. }
    rewrite lstrip_no_space.
    + apply rstrip_keep; [|done]. by apply trimmed_end.
    + pose proof (space_len_straddle t post Hne Hpost) as Hle.
      destruct (decide (space_len (t +:+ post) = 0%nat)) as [|E]; [done|].
      exfalso.
      destruct (Ht "" (string_take (space_len (t +:+ post)) t)
                  (string_drop (space_len (t +:+ post)) t)) as [? _]; [| |done].
      * simpl. by rewrite string_take_drop.
      * rewrite <- (string_take_app _ t post) by done. by apply space_len_take.
Qed.

(** *** ASCII text *)

Lemma plain_not_lead c : is_plain c = true → is_lead c = false.
Proof.
  unfold is_plain, is_lead. cbv zeta. intros H. bool_to_N.
  match goal with H : is_space c = false |- _ => rewrite H end. simpl.
  repeat (apply orb_false_iff; split); apply N.eqb_neq; lia.
Qed.

Lemma digit_plain c : is_digit c = true → is_plain c = true.
Proof.
  unfold is_digit, is_plain, is_space. cbv zeta. intros H. bool_to_N.
  apply andb_true_iff. split; [apply N.ltb_lt; lia|].
  apply negb_true_iff, orb_false_iff.
  split; apply andb_false_iff; right; apply N.leb_gt; lia.
Qed.

Lemma lstrip_plain c r : is_plain c = true → lstrip (String c r) = String c r.
Proof.
  intros H. apply lstrip_no_space.
  destruct (decide (space_len (String c r) = 0%nat)) as [|E]; [done|].
  apply space_len_lead in E. apply plain_not_lead in H. congruence.
Qed.

Lemma space_not_plain c : is_space c = true → is_plain c = false.
Proof. unfold is_plain. intros ->. by rewrite andb_false_r. Qed.

(** A text of whitespace characters has no byte of another ASCII
    character. *)
Lemma blank_no_plain s :
  lstrip s = "" → string_forallb (λ c, negb (is_plain c)) s = true.
Proof.
  induction s as [s H|s H IH] using space_ind; intros Hs.
  - rewrite lstrip_no_space in Hs by done. by subst.
  - rewrite lstrip_drop in Hs by done. specialize (IH Hs).
    rewrite <- (string_take_drop (space_len s) s), forallb_str_app, IH, andb_true_r.
    clear IH Hs.
    assert (∀ c, is_lead c = true ∨ is_cont c = true → negb (is_plain c) = true)
      as Hb.
    { intros c Hc. apply negb_true_iff.
      destruct (is_plain c) eqn:E; [exfalso|done].
      destruct Hc as [Hc|Hc]; [apply plain_not_lead in E; congruence|].
      unfold is_plain, is_cont in *. cbv zeta in *. bool_to_N. lia. }
    destruct s as [|a [|b [|c r]]]; simpl in *; try done.
    + destruct (is_space a) eqn:Ea; [|done]. simpl.
      by rewrite space_not_plain.
    + destruct (is_space a) eqn:Ea; simpl; [by rewrite space_not_plain|].
      destruct (is_space2 a b) eqn:Eb; [|done]. simpl.
      apply space2_bytes in Eb as [? ?]. rewrite !Hb by auto. done.
    + destruct (is_space a) eqn:Ea; simpl; [by rewrite space_not_plain|].
      destruct (is_space2 a b) eqn:Eb; simpl.
      { apply space2_bytes in Eb as [? ?]. rewrite !Hb by auto. done. }
      destruct (is_space3 a b c) eqn:Ec; [|done]. simpl.
      apply space3_bytes in Ec as (? & ? & ?). rewrite !Hb by auto. done.
Qed.

Lemma last_plain_forallb s c :
  string_last s = Some c → is_plain c = true →
  string_forallb (λ c, negb (is_plain c)) s = false.
Proof.
  intros Hl Hc. induction s as [|a [|b s] IH]; [done| |].
  - simpl in *. injection Hl as ->. by rewrite Hc.
  - change (string_forallb _ (String a (String b s)))
      with (negb (is_plain a) && string_forallb (λ c, negb (is_plain c)) (String b s)).
    rewrite IH by done. apply andb_false_r.
Qed.

Lemma last_plain_not_blank s c :
  string_last s = Some c → is_plain c = true → lstrip s ≠ "".
Proof.
  intros Hl Hc Hs%blank_no_plain. by rewrite (last_plain_forallb s c) in Hs.
Qed.

Lemma string_last_app s c t : string_last (s +:+ String c t) = string_last (String c t).
Proof.
  induction s as [|a s IH]; [done|].
  change (String a s +:+ String c t) with (String a (s +:+ String c t)).
  cbn [string_last]. rewrite IH. by destruct s.
Qed.

(** A text that ends with an ASCII character that is no whitespace keeps
    its end, also when whitespace follows. *)
Lemma rstrip_plain s c post :
  string_last s = Some c → is_plain c = true → lstrip post = "" →
  rstrip (s +:+ post) = s.
Proof.
  intros Hl Hc Hpost. induction s as [|a s IH]; [done|].
  change (String a s +:+ post) with (String a (s +:+ post)). rewrite rstrip_cons.
  assert (blank (String a (s +:+ post)) = false) as ->.
  { apply blank_false. intros H.
    change (String a (s +:+ post)) with (String a s +:+ post) in H.
    apply blank_no_plain in H. rewrite forallb_str_app in H.
    apply andb_true_iff in H as [H _].
    by rewrite (last_plain_forallb _ c) in H. }
  f_equal. destruct s as [|b s].
  - simpl. by apply rstrip_blank.
  - by apply IH.
Qed.



Lemma forallb_digit_last s :
  string_forallb is_digit s = true → s ≠ "" →
  ∃ c, string_last s = Some c ∧ is_digit c = true.
Proof.
  induction s as [|a [|b s] IH]; [done| |]; simpl.
  - intros [? _]%andb_true_iff _. eauto.
  - intros [_ H]%andb_true_iff _. by apply IH.
Qed.

(** A text that begins and ends with ASCII characters that are no
    whitespace is left as it is. *)
Lemma strip_plain c r e :
  is_plain c = true → string_last (String c r) = Some e → is_plain e = true →
  strip (String c r) = String c r.
Proof.
  intros Hc Hl He. unfold strip. rewrite lstrip_plain by done.
  rewrite <- (str_app_nil_r (String c r)) at 1.
  by apply (rstrip_plain _ e).
Qed.


Lemma strip_digits s : string_forallb is_digit s = true → strip s = s.
Proof.
  intros H. destruct s as [|c s]; [done|].
  destruct (forallb_digit_last _ H) as (d & Hl & Hd); [done|].
  simpl in H. apply andb_true_iff in H as [Hc _].
  apply (strip_plain c s d); [by apply digit_plain|done|by apply digit_plain].
Qed.



(** ** The matcher of [%m/%d/%Y] *)

Lemma digit_not_slash c : is_digit c = true → not_slash c = true.
Proof.
  destruct c as [[] [] [] [] [] [] [] []]; intros H;
    first [discriminate H | reflexivity].
Qed.

Lemma elem_of_re_chr p a r s :
  (a, r) ∈ re_chr p s ↔ ∃ c, s = String c r ∧ a = String c "" ∧ p c = true.
Proof.
  unfold re_chr. destruct s as [|c s'].
  - split; [by intros ?%elem_of_nil | by intros (? & ? & _)].
  - destruct (p c) eqn:E.
    + rewrite list_elem_of_singleton. split.
      * intros [= -> ->]. eauto.
      * intros (c' & [= -> ->] & -> & _). done.
    + split; [by intros ?%elem_of_nil|].
      intros (c' & [= -> ->] & _ & ?). congruence.
Qed.

Lemma elem_of_re_seq p q t r s :
  (t, r) ∈ re_seq p q s ↔
  ∃ a b r1, (a, r1) ∈ p s ∧ (b, r) ∈ q r1 ∧ t = a +:+ b.
Proof.
  unfold re_seq. rewrite list_elem_of_bind. split.
  - intros ([a r1] & H & Hp). apply list_elem_of_bind in H as ([b r'] & H & Hq).
    apply list_elem_of_singleton in H as [= -> ->]. eauto 10.
  - intros (a & b & r1 & Hp & Hq & ->). exists (a, r1). split; [|done].
    apply list_elem_of_bind. exists (b, r). split; [|done].
    by apply list_elem_of_singleton.
Qed.

Lemma elem_of_re_alt {A} (p q : re A) x s :
  x ∈ re_alt p q s ↔ x ∈ p s ∨ x ∈ q s.
Proof. unfold re_alt. apply elem_of_app. Qed.

Lemma yields_chr p : yields (re_chr p) (λ g, ∃ c, g = String c "" ∧ p c = true).
Proof. intros s g r (c & -> & -> & H)%elem_of_re_chr. eauto. Qed.

Lemma yields_seq p q L1 L2 :
  yields p L1 → yields q L2 →
  yields (re_seq p q) (λ g, ∃ a b, g = a +:+ b ∧ L1 a ∧ L2 b).
Proof.
  intros Hp Hq s g r (a & b & r1 & H1 & H2 & ->)%elem_of_re_seq.
  apply Hp in H1 as [-> ?]. apply Hq in H2 as [-> ?].
  split; [|by eauto]. by rewrite str_app_assoc.
Qed.

Lemma yields_alt p q L1 L2 :
  yields p L1 → yields q L2 → yields (re_alt p q) (λ g, L1 g ∨ L2 g).
Proof.
  intros Hp Hq s g r [H|H]%elem_of_re_alt.
  - apply Hp in H as [-> ?]. auto.
  - apply Hq in H as [-> ?]. auto.
Qed.

Lemma yields_weaken p (L1 L2 : string → Prop) :
  yields p L1 → (∀ g, L1 g → L2 g) → yields p L2.
Proof. intros Hp HL s g r H. apply Hp in H as [-> ?]. auto. Qed.

Lemma range_digit_1 lo hi c :
  is_digit lo = true → is_digit hi = true → in_range lo hi c = true →
  is_digit c = true ∧ not_slash c = true.
Proof.
  intros ?? H. assert (is_digit c = true) by eauto using in_range_digit.
  auto using digit_not_slash.
Qed.

Ltac chr_facts :=
  repeat match goal with
  | H : is_char _ _ = true |- _ => apply is_char_eq in H; subst
  | H : in_range _ _ _ = true |- _ =>
      apply range_digit_1 in H as [? ?]; [|reflexivity|reflexivity]
  | H : is_digit ?c = true |- _ =>
      lazymatch goal with
      | _ : not_slash c = true |- _ => fail
      | _ => pose proof (digit_not_slash c H)
      end
  end.

Lemma yields_m : yields re_m digit_group.
Proof.
  unfold re_m.
  eapply yields_weaken;
    [repeat first [apply yields_alt | apply yields_seq | apply yields_chr]|].
  intros g H. unfold digit_group. cbv beta in H.
  repeat match goal with
  | H : _ ∨ _ |- _ => destruct H
  | H : ∃ _, _ |- _ => destruct H
  | H : _ ∧ _ |- _ => destruct H
  end; subst; chr_facts; simpl; do 2 eexists;
    (split; [reflexivity|]); simpl;
    repeat match goal with H : _ = true |- _ => rewrite H end; done.
Qed.

Lemma yields_d : yields re_d day_group.
Proof.
  unfold re_d.
  eapply yields_weaken;
    [repeat first [apply yields_alt | apply yields_seq | apply yields_chr]|].
  intros g H. unfold day_group. cbv beta in H.
  repeat match goal with
  | H : _ ∨ _ |- _ => destruct H
  | H : ∃ _, _ |- _ => destruct H
  | H : _ ∧ _ |- _ => destruct H
  end; subst; chr_facts; simpl;
    repeat match goal with H : _ = true |- _ => rewrite H end; done.
Qed.

Lemma yields_Y : yields re_Y year_group.
Proof.
  unfold re_Y.
  eapply yields_weaken;
    [repeat first [apply yields_seq | apply yields_chr]|].
  intros g H. unfold year_group. cbv beta in H.
  repeat match goal with
  | H : ∃ _, _ |- _ => destruct H
  | H : _ ∧ _ |- _ => destruct H
  end; subst; simpl;
    repeat match goal with H : _ = true |- _ => rewrite H end; done.
Qed.

Lemma elem_of_re_mdY m d y r s :
  ((m, d, y), r) ∈ re_mdY s ↔
  ∃ r1 r2 r3 r4 a b,
    (m, r1) ∈ re_m s ∧ (a, r2) ∈ re_chr (is_char "/") r1 ∧
    (d, r3) ∈ re_d r2 ∧ (b, r4) ∈ re_chr (is_char "/") r3 ∧
    (y, r) ∈ re_Y r4.
Proof.
  unfold re_mdY. split.
  - intros H.
    apply list_elem_of_bind in H as ([m' r1] & H & H1).
    apply list_elem_of_bind in H as ([a r2] & H & H2).
    apply list_elem_of_bind in H as ([d' r3] & H & H3).
    apply list_elem_of_bind in H as ([b r4] & H & H4).
    apply list_elem_of_bind in H as ([y' r5] & H & H5).
    apply list_elem_of_singleton in H as [= -> -> -> ->].
    eauto 12.
  - intros (r1 & r2 & r3 & r4 & a & b & H1 & H2 & H3 & H4 & H5).
    apply list_elem_of_bind. exists (m, r1). split; [|done].
    apply list_elem_of_bind. exists (a, r2). split; [|done].
    apply list_elem_of_bind. exists (d, r3). split; [|done].
    apply list_elem_of_bind. exists (b, r4). split; [|done].
    apply list_elem_of_bind. exists (y, r). split; [|done].
    by apply list_elem_of_singleton.
Qed.

(** Every match splits the text into month, slash, day, slash, year and
    what is left. *)
Lemma re_mdY_split m d y r s :
  ((m, d, y), r) ∈ re_mdY s →
  s = m +:+ "/" +:+ d +:+ "/" +:+ y +:+ r
  ∧ digit_group m ∧ day_group d ∧ year_group y.
Proof.
  intros (r1 & r2 & r3 & r4 & a & b & H1 & H2 & H3 & H4 & H5)%elem_of_re_mdY.
  apply yields_m in H1 as [-> ?]. apply yields_d in H3 as [-> ?].
  apply yields_Y in H5 as [-> ?].
  apply elem_of_re_chr in H2 as (c & -> & -> & <-%is_char_eq).
  apply elem_of_re_chr in H4 as (c' & -> & -> & <-%is_char_eq).
  done.
Qed.

Lemma split_at_slash a b x y :
  string_forallb not_slash a = true → string_forallb not_slash b = true →
  a +:+ String "/" x = b +:+ String "/" y → a = b ∧ x = y.
Proof.
  revert b. induction a as [|c a IH]; intros [|c' b] Ha Hb H; simpl in *.
  - by injection H as ->.
  - injection H as <- _. discriminate Hb.
  - injection H as -> _. discriminate Ha.
  - injection H as -> H.
    apply andb_true_iff in Ha as [_ Ha]. apply andb_true_iff in Hb as [_ Hb].
    destruct (IH b Ha Hb H) as [-> ->]. done.
Qed.

(** The pattern is unambiguous: a text has at most one match. *)
Lemma re_mdY_unique s x y : x ∈ re_mdY s → y ∈ re_mdY s → x = y.
Proof.
  destruct x as [[[m d] yr] r], y as [[[m' d'] yr'] r'].
  intros (E & (? & ? & _ & _ & Hm & _) & [_ Hd] & [Hy _])%re_mdY_split
         (E' & (? & ? & _ & _ & Hm' & _) & [_ Hd'] & [Hy' _])%re_mdY_split.
  rewrite E in E'. simpl in E'.
  apply split_at_slash in E' as [-> E']; [|done..].
  apply split_at_slash in E' as [-> E']; [|done..].
  apply str_app_inj_length in E' as [-> ->]; [done|congruence].
Qed.

Lemma re_mdY_first s x : x ∈ re_mdY s → ∃ tl, re_mdY s = x :: tl.
Proof.
  intros Hx. destruct (re_mdY s) as [|y tl] eqn:E.
  - by apply elem_of_nil in Hx.
  - assert (y = x) as ->; [|eauto].
    eapply re_mdY_unique; [|by rewrite E]. rewrite E. by left.
Qed.





(** ** [strptime] *)

Lemma strptime_Ok s dt :
  strptime s = Ok dt ↔
  ∃ m d y, ((m, d, y), "") ∈ re_mdY s
    ∧ py_int y = Some (year dt) ∧ py_int m = Some (month dt)
    ∧ py_int d = Some (day dt)
    ∧ date_ok dt = true ∧ in_ns_bounds dt = true.
Proof.
  unfold strptime. split.
  - destruct (re_mdY s) as [|[[[m d] y] rest] tl] eqn:E; [done|].
    destruct rest; [|done].
    destruct (py_int y) as [y'|] eqn:Ey; [|done].
    destruct (py_int m) as [m'|] eqn:Em; [|done].
    destruct (py_int d) as [d'|] eqn:Ed; [|done].
    destruct (date_ok _) eqn:Eok; [|done].
    destruct (in_ns_bounds _) eqn:Ebd; [|done].
    simpl. intros [= <-]. exists m, d, y. simpl.
    split; [by left|done].
  - intros (m & d & y & Hin & Hy & Hm & Hd & Hok & Hbd).
    apply re_mdY_first in Hin as [tl ->].
    rewrite Hy, Hm, Hd. destruct dt as [y' m' d']. simpl in *.
    by rewrite Hok, Hbd.
Qed.




(** ** Dates written with two, two and four digits *)

Lemma in_range_val lo hi c :
  in_range lo hi c = true ↔ digit_val lo ≤ digit_val c ≤ digit_val hi.
Proof.
  unfold in_range, digit_val. rewrite andb_true_iff, !N.leb_le. lia.
Qed.

Lemma is_char_val a c : is_char a c = true ↔ digit_val a = digit_val c.
Proof. unfold is_char, digit_val. rewrite N.eqb_eq. lia. Qed.

Lemma re_m_two_digits a b r :
  is_digit a = true → is_digit b = true →
  1 ≤ 10 * digit_val a + digit_val b ≤ 12 →
  (String a (String b ""), r) ∈ re_m (String a (String b r)).
Proof.
  intros Ha%digit_val_range Hb%digit_val_range H. unfold re_m.
  assert (digit_val a = 1 ∨ digit_val a = 0) as [E|E] by lia.
  - apply elem_of_re_alt. left. apply elem_of_re_seq.
    exists (String a ""), (String b ""), (String b r). split_and!; [| |done].
    + apply elem_of_re_chr. eexists. split_and!; [done..|].
      apply is_char_val. by rewrite E.
    + apply elem_of_re_chr. eexists. split_and!; [done..|].
      apply in_range_val. change (digit_val "0") with 0.
      change (digit_val "2") with 2. lia.
  - apply elem_of_re_alt. right. apply elem_of_re_alt. left. apply elem_of_re_seq.
    exists (String a ""), (String b ""), (String b r). split_and!; [| |done].
    + apply elem_of_re_chr. eexists. split_and!; [done..|].
      apply is_char_val. by rewrite E.
    + apply elem_of_re_chr. eexists. split_and!; [done..|].
      apply in_range_val. change (digit_val "1") with 1.
      change (digit_val "9") with 9. lia.
Qed.

Lemma re_d_two_digits a b r :
  is_digit a = true → is_digit b = true →
  1 ≤ 10 * digit_val a + digit_val b ≤ 31 →
  (String a (String b ""), r) ∈ re_d (String a (String b r)).
Proof.
  intros Ha Hb H. pose proof (digit_val_range a Ha). pose proof (digit_val_range b Hb).
  unfold re_d.
  assert (digit_val a = 3 ∨ 1 ≤ digit_val a ≤ 2 ∨ digit_val a = 0)
    as [E|[E|E]] by lia.
  - apply elem_of_re_alt. left. apply elem_of_re_seq.
    exists (String a ""), (String b ""), (String b r). split_and!; [| |done].
    + apply elem_of_re_chr. eexists. split_and!; [done..|].
      apply is_char_val. by rewrite E.
    + apply elem_of_re_chr. eexists. split_and!; [done..|].
      apply in_range_val. change (digit_val "0") with 0.
      change (digit_val "1") with 1. lia.
  - apply elem_of_re_alt. right. apply elem_of_re_alt. left. apply elem_of_re_seq.
    exists (String a ""), (String b ""), (String b r). split_and!; [| |done].
    + apply elem_of_re_chr. eexists. split_and!; [done..|].
      apply in_range_val. change (digit_val "1") with 1.
      change (digit_val "2") with 2. lia.
    + apply elem_of_re_chr. eexists. split_and!; done.
  - apply elem_of_re_alt. right. apply elem_of_re_alt. right.
    apply elem_of_re_alt. left. apply elem_of_re_seq.
    exists (String a ""), (String b ""), (String b r). split_and!; [| |done].
    + apply elem_of_re_chr. eexists. split_and!; [done..|].
      apply is_char_val. by rewrite E.
    + apply elem_of_re_chr. eexists. split_and!; [done..|].
      apply in_range_val. change (digit_val "1") with 1.
      change (digit_val "9") with 9. lia.
Qed.

Lemma re_Y_four_digits a b c d r :
  is_digit a = true → is_digit b = true → is_digit c = true → is_digit d = true →
  (String a (String b (String c (String d ""))), r)
    ∈ re_Y (String a (String b (String c (String d r)))).
Proof.
  intros Ha Hb Hc Hd. unfold re_Y.
  apply elem_of_re_seq. eexists (String a ""), _, _. split_and!; [| |reflexivity].
  { apply elem_of_re_chr. eexists. done. }
  apply elem_of_re_seq. eexists (String b ""), _, _. split_and!; [| |reflexivity].
  { apply elem_of_re_chr. eexists. done. }
  apply elem_of_re_seq. eexists (String c ""), _, _. split_and!; [| |reflexivity].
  { apply elem_of_re_chr. eexists. done. }
  apply elem_of_re_chr. eexists. done.
Qed.

Lemma py_int_digits s : string_forallb is_digit s = true → py_int s = digits_value s.
Proof. intros H. unfold py_int. by rewrite strip_digits. Qed.

Lemma digits_2_inv s :
  digits_n 2 s = true →
  ∃ a b, s = String a (String b "") ∧ is_digit a = true ∧ is_digit b = true
         ∧ digits_value s = Some (10 * digit_val a + digit_val b).
Proof.
  unfold digits_n. intros [Hl Hd]%andb_true_iff. apply Nat.eqb_eq in Hl.
  destruct s as [|a [|b [|c s]]]; try discriminate Hl.
  simpl in Hd. apply andb_true_iff in Hd as [Ha Hd].
  apply andb_true_iff in Hd as [Hb _].
  exists a, b. split_and!; try done. simpl. rewrite Ha, Hb. first [done | f_equal; lia].
Qed.

Lemma digits_4_inv s :
  digits_n 4 s = true →
  ∃ a b c d, s = String a (String b (String c (String d "")))
    ∧ is_digit a = true ∧ is_digit b = true ∧ is_digit c = true ∧ is_digit d = true
    ∧ digits_value s
      = Some (1000 * digit_val a + 100 * digit_val b + 10 * digit_val c + digit_val d).
Proof.
  unfold digits_n. intros [Hl Hd]%andb_true_iff. apply Nat.eqb_eq in Hl.
  destruct s as [|a [|b [|c [|d [|e s]]]]]; try discriminate Hl.
  simpl in Hd. apply andb_true_iff in Hd as [Ha Hd].
  apply andb_true_iff in Hd as [Hb Hd]. apply andb_true_iff in Hd as [Hc Hd].
  apply andb_true_iff in Hd as [Hd _].
  exists a, b, c, d. split_and!; try done. simpl. rewrite Ha, Hb, Hc, Hd. first [done | f_equal; lia].
Qed.

Lemma pad2_digits a b :
  is_digit a = true → is_digit b = true →
  pad2 (10 * digit_val a + digit_val b) = String a (String b "").
Proof.
  intros Ha Hb. pose proof (digit_val_range a Ha). pose proof (digit_val_range b Hb).
  unfold pad2.
  assert ((10 * digit_val a + digit_val b) / 10 = digit_val a) as ->
    by (symmetry; apply Z.div_unique with (digit_val b); lia).
  assert ((10 * digit_val a + digit_val b) mod 10 = digit_val b) as ->
    by (symmetry; apply Z.mod_unique with (digit_val a); lia).
  rewrite Z.mod_small by lia.
  by rewrite !digit_char_val.
Qed.

Lemma pad4_digits a b c d :
  is_digit a = true → is_digit b = true → is_digit c = true → is_digit d = true →
  pad4 (1000 * digit_val a + 100 * digit_val b + 10 * digit_val c + digit_val d)
  = String a (String b (String c (String d ""))).
Proof.
  intros Ha Hb Hc Hd.
  pose proof (digit_val_range a Ha). pose proof (digit_val_range b Hb).
  pose proof (digit_val_range c Hc). pose proof (digit_val_range d Hd).
  set (n := 1000 * _ + _ + _ + _). unfold pad4, pad2.
  assert (n / 1000 mod 10 = digit_val a) as ->.
  { assert (n / 1000 = digit_val a) as ->.
    { symmetry. apply Z.div_unique with (100 * digit_val b + 10 * digit_val c + digit_val d); lia. }
    apply Z.mod_small. lia. }
  assert (n / 100 mod 10 = digit_val b) as ->.
  { assert (n / 100 = 10 * digit_val a + digit_val b) as ->.
    { symmetry. apply Z.div_unique with (10 * digit_val c + digit_val d); lia. }
    symmetry. apply Z.mod_unique with (digit_val a); lia. }
  assert (n / 10 mod 10 = digit_val c) as ->.
  { assert (n / 10 = 100 * digit_val a + 10 * digit_val b + digit_val c) as ->.
    { symmetry. apply Z.div_unique with (digit_val d); lia. }
    symmetry. apply Z.mod_unique with (10 * digit_val a + digit_val b); lia. }
  assert (n mod 10 = digit_val d) as ->.
  { symmetry. apply Z.mod_unique with (100 * digit_val a + 10 * digit_val b + digit_val c); lia. }
  by rewrite !digit_char_val.
Qed.

Lemma days_in_month_le y m : days_in_month y m ≤ 31.
Proof. unfold days_in_month. repeat case_match; lia. Qed.

Lemma date_ok_bounds dt :
  date_ok dt = true →
  1 ≤ year dt ≤ 9999 ∧ 1 ≤ month dt ≤ 12 ∧ 1 ≤ day dt ≤ 31.
Proof.
  unfold date_ok. rewrite !andb_true_iff, !Z.leb_le.
  pose proof (days_in_month_le (year dt) (month dt)). lia.
Qed.

Lemma strptime_written s mm dd yyyy dt :
  written_mdY s mm dd yyyy dt →
  strptime s = Ok dt ∧ isoformat dt = yyyy +:+ "-" +:+ mm +:+ "-" +:+ dd.
Proof.
  intros [(-> & Hm & Hd & Hy & Vm & Vd & Vy & Hok) Hbd].
  pose proof (date_ok_bounds dt Hok) as (By & Bm & Bd).
  apply digits_2_inv in Hm as (m1 & m2 & -> & Hm1 & Hm2 & Em).
  apply digits_2_inv in Hd as (d1 & d2 & -> & Hd1 & Hd2 & Ed).
  apply digits_4_inv in Hy as (y1 & y2 & y3 & y4 & -> & Hy1 & Hy2 & Hy3 & Hy4 & Ey).
  rewrite Em in Vm. rewrite Ed in Vd. rewrite Ey in Vy.
  injection Vm as Vm. injection Vd as Vd. injection Vy as Vy.
  split.
  - apply strptime_Ok.
    exists (String m1 (String m2 "")), (String d1 (String d2 "")),
           (String y1 (String y2 (String y3 (String y4 "")))).
    split_and!; try done.
    + apply elem_of_re_mdY. simpl.
      eexists _, _, _, _, "/", "/". split_and!.
      * apply re_m_two_digits; [done..|lia].
      * apply elem_of_re_chr. eexists. done.
      * apply re_d_two_digits; [done..|lia].
      * apply elem_of_re_chr. eexists. done.
      * by apply re_Y_four_digits.
    + rewrite py_int_digits, Ey, Vy; [done|]. simpl. by rewrite Hy1, Hy2, Hy3, Hy4.
    + rewrite py_int_digits, Em, Vm; [done|]. simpl. by rewrite Hm1, Hm2.
    + rewrite py_int_digits, Ed, Vd; [done|]. simpl. by rewrite Hd1, Hd2.
  - unfold isoformat. rewrite <- Vy, <- Vm, <- Vd.
    rewrite pad4_digits, !pad2_digits by done. done.
Qed.

Lemma digit_char_is_digit k : is_digit (digit_char k) = true.
Proof.
  unfold digit_char, pretty_N_char. repeat case_match; reflexivity.
Qed.

Lemma digit_val_char k : 0 ≤ k ≤ 9 → digit_val (digit_char k) = k.
Proof.
  intros H.
  assert (k = 0 ∨ k = 1 ∨ k = 2 ∨ k = 3 ∨ k = 4 ∨ k = 5 ∨ k = 6 ∨ k = 7
          ∨ k = 8 ∨ k = 9) as Hc by lia.
  repeat destruct Hc as [-> | Hc]; try reflexivity. subst. reflexivity.
Qed.

Lemma pad2_written n :
  0 ≤ n < 100 → digits_n 2 (pad2 n) = true ∧ digits_value (pad2 n) = Some n.
Proof.
  intros H. unfold digits_n, pad2. simpl.
  rewrite !digit_char_is_digit. split; [done|]. f_equal.
  rewrite !digit_val_char
    by (match goal with |- 0 ≤ ?a `mod` 10 ≤ 9 =>
          pose proof (Z.mod_pos_bound a 10); lia end).
  Z.to_euclidean_division_equations; lia.
Qed.

Lemma pad4_written n :
  0 ≤ n < 10000 → digits_n 4 (pad4 n) = true ∧ digits_value (pad4 n) = Some n.
Proof.
  intros H. unfold digits_n, pad4, pad2. simpl.
  rewrite !digit_char_is_digit. split; [done|]. f_equal.
  rewrite !digit_val_char
    by (match goal with |- 0 ≤ ?a `mod` 10 ≤ 9 =>
          pose proof (Z.mod_pos_bound a 10); lia end).
  Z.to_euclidean_division_equations; lia.
Qed.



Lemma strptime_valid s dt :
  strptime s = Ok dt → date_ok dt = true ∧ in_ns_bounds dt = true.
Proof. intros (m & d & y & _ & _ & _ & _ & ? & ?)%strptime_Ok. done. Qed.

(** ** Equality of cells and rows *)

Lemma date_eqb_eq a b : date_eqb a b = true ↔ a = b.
Proof.
  destruct a, b. unfold date_eqb. simpl.
  rewrite !andb_true_iff, !Z.eqb_eq. split; [intros [[-> ->] ->]; done|].
  by intros [= -> -> ->].
Qed.

Lemma float_eqb_eq a b : float_eqb a b = true ↔ a = b.
Proof.
  destruct a, b. unfold float_eqb. simpl.
  rewrite !andb_true_iff, !Z.eqb_eq. split; [intros [-> ->]; done|].
  by intros [= -> ->].
Qed.

Lemma cell_eqb_eq a b : cell_eqb a b = true ↔ a = b.
Proof.
  destruct a, b; simpl; try (split; [discriminate|discriminate]); try done.
  - rewrite String.eqb_eq. split; [by intros ->|by intros [= ->]].
  - rewrite Z.eqb_eq. split; [by intros ->|by intros [= ->]].
  - rewrite float_eqb_eq. split; [by intros ->|by intros [= ->]].
  - rewrite Bool.eqb_true_iff. split; [by intros ->|by intros [= ->]].
  - rewrite date_eqb_eq. split; [by intros ->|by intros [= ->]].
Qed.

Lemma row_eqb_eq r1 r2 : row_eqb r1 r2 = true ↔ r1 = r2.
Proof.
  revert r2. induction r1 as [|a r1 IH]; intros [|b r2]; simpl; try done.
  rewrite andb_true_iff, cell_eqb_eq, IH. split; [by intros [-> ->]|].
  by intros [= -> ->].
Qed.

Lemma existsb_row_eqb r seen : existsb (row_eqb r) seen = true ↔ r ∈ seen.
Proof.
  rewrite existsb_exists. split.
  - intros (x & Hin & ->%row_eqb_eq). by apply list_elem_of_In.
  - intros H. exists r. split; [by apply list_elem_of_In|by apply row_eqb_eq].
Qed.

(** ** Stopping at the first exception *)

Lemma traverse_Ok {A B} (f : A → result B) l l' :
  traverse f l = Ok l' ↔ Forall2 (λ x y, f x = Ok y) l l'.
Proof.
  revert l'. induction l as [|x l IH]; intros l'; simpl.
  - split; [by intros [= <-]|by intros ->%Forall2_nil_inv_l].
  - split.
    + destruct (f x) as [y|] eqn:E; [|done]. simpl.
      destruct (traverse f l) as [ys|] eqn:E'; [|done]. simpl.
      intros [= <-]. constructor; [done|]. by apply IH.
    + intros (y & ys & Hy & Hys & ->)%Forall2_cons_inv_l.
      rewrite Hy. simpl. apply IH in Hys as ->. done.
Qed.

Lemma traverse_Raise {A B} (f : A → result B) l e :
  traverse f l = Raise e → ∃ x, x ∈ l ∧ f x = Raise e.
Proof.
  induction l as [|x l IH]; simpl; [done|].
  destruct (f x) as [y|e'] eqn:E; simpl.
  - destruct (traverse f l) as [ys|e'] eqn:E'; simpl; [done|].
    intros [= ->]. destruct IH as (x' & ? & ?); [done|].
    exists x'. split; [by right|done].
  - intros [= ->]. exists x. split; [by left|done].
Qed.

Lemma traverse_fails {A B} (f : A → result B) l x e :
  x ∈ l → f x = Raise e → ∃ e', traverse f l = Raise e'.
Proof.
  intros Hx Hf. destruct (traverse f l) as [l'|e'] eqn:E; [|eauto].
  apply traverse_Ok in E.
  apply list_elem_of_lookup in Hx as [i Hi].
  destruct (Forall2_lookup_l _ _ _ _ _ E Hi) as (y & _ & Hy). congruence.
Qed.

Lemma traverse_ext {A B} (f g : A → result B) l :
  (∀ x, x ∈ l → f x = g x) → traverse f l = traverse g l.
Proof.
  induction l as [|x l IH]; intros H; simpl; [done|].
  rewrite H by (by left). rewrite IH; [done|].
  intros y Hy. apply H. by right.
Qed.

(** ** Dropping duplicates *)

Lemma distinct_from_cons seen r rs :
  distinct_from seen (r :: rs) =
  if existsb (row_eqb r) seen then distinct_from seen rs
  else r :: distinct_from (r :: seen) rs.
Proof. unfold distinct_from. simpl. by destruct (existsb _ _). Qed.

Lemma select_sublist {A} mask (l : list A) : select mask l `sublist_of` l.
Proof.
  revert mask. induction l as [|x l IH]; intros [|[] mask]; simpl;
    try apply sublist_nil_l.
  - by apply sublist_skip.
  - by apply sublist_cons.
Qed.

Lemma distinct_from_inv seen rs r :
  r ∈ distinct_from seen rs → r ∈ rs ∧ r ∉ seen.
Proof.
  revert seen. induction rs as [|x rs IH]; intros seen.
  - by intros ?%elem_of_nil.
  - rewrite distinct_from_cons.
    destruct (existsb (row_eqb x) seen) eqn:E.
    + intros [? ?]%IH. split; [by right|done].
    + intros [->|[? Hn]%IH]%elem_of_cons.
      * split; [by left|]. intros Hin%existsb_row_eqb. congruence.
      * split; [by right|]. intros ?. apply Hn. by right.
Qed.


Lemma distinct_from_complete seen rs r :
  r ∈ rs → r ∈ seen ∨ r ∈ distinct_from seen rs.
Proof.
  revert seen. induction rs as [|x rs IH]; intros seen.
  - by intros ?%elem_of_nil.
  - rewrite distinct_from_cons. intros [->|Hin]%elem_of_cons.
    + destruct (existsb (row_eqb x) seen) eqn:E.
      * left. by apply existsb_row_eqb.
      * right. by left.
    + destruct (existsb (row_eqb x) seen) eqn:E; [by apply IH|].
      destruct (IH (x :: seen) Hin) as [[->|?]%elem_of_cons|?].
      * right. by left.
      * by left.
      * right. by right.
Qed.



Lemma duplicated_length seen rs : length (duplicated_from seen rs) = length rs.
Proof.
  revert seen. induction rs as [|x rs IH]; intros seen; simpl; [done|].
  by rewrite IH.
Qed.

(** What boolean indexing keeps, by position: the element at [i] is kept
    when its flag is set, and it lands after the kept elements before it. *)
Lemma select_lookup {A} mask (l : list A) i x :
  length mask = length l → l !! i = Some x → mask !! i = Some true →
  select mask l !! length (select (take i mask) (take i l)) = Some x.
Proof.
  revert mask i. induction l as [|y l IH]; intros [|b mask] i Hl Hi Hm;
    try done.
  destruct i as [|i]; simpl in *.
  - injection Hi as ->. injection Hm as ->. done.
  - injection Hl as Hl. destruct b; simpl; by apply IH.
Qed.

Lemma select_dropped {A} mask (l : list A) x :
  x ∈ select mask l → ∃ i, l !! i = Some x ∧ mask !! i = Some true.
Proof.
  revert mask. induction l as [|y l IH]; intros [|b mask]; simpl;
    try (by intros ?%elem_of_nil).
  destruct b.
  - intros [->|Hin]%elem_of_cons; [by exists O|].
    destruct (IH _ Hin) as (i & ? & ?). by exists (S i).
  - intros Hin. destruct (IH _ Hin) as (i & ? & ?). by exists (S i).
Qed.

(** ** Converting a date column, row by row *)

Lemma traverse_fix_row j rs :
  traverse (fix_row j) rs =
  let* cs := traverse to_datetime_cell (column j rs) in
  Ok (zip_with (λ r c, <[j:=c]> r) rs cs).
Proof.
  induction rs as [|r rs IH]; simpl; [done|]. unfold fix_row at 1.
  destruct (to_datetime_cell _) as [c|]; simpl; [|done].
  rewrite IH. by destruct (traverse to_datetime_cell _).
Qed.

Lemma fix_date_unfold name df :
  fix_date name df =
  match get_loc name (columns df) with
  | None => Raise (KeyError name)
  | Some j =>
      if is_bool_dtype (column j (rows df)) then Raise TypeError
      else let* rs := traverse (fix_row j) (rows df) in Ok (Frame (columns df) rs)
  end.
Proof.
  unfold fix_date, getitem, setitem, to_datetime.
  destruct (get_loc name (columns df)) as [j|] eqn:E; simpl; [|done].
  destruct (is_bool_dtype _); [done|].
  rewrite traverse_fix_row.
  destruct (traverse to_datetime_cell _); simpl; done.
Qed.

Lemma get_loc_Some name cols j :
  get_loc name cols = Some j → cols !! j = Some name.
Proof.
  revert j. induction cols as [|c cs IH]; intros j; simpl; [done|].
  destruct (String.eqb c name) eqn:E.
  - apply String.eqb_eq in E as ->. by intros [= <-].
  - destruct (get_loc name cs) as [k|]; simpl; [|done].
    intros [= <-]. by apply IH.
Qed.

Lemma get_loc_None name cols : get_loc name cols = None → name ∉ cols.
Proof.
  induction cols as [|c cs IH]; simpl; [intros _ ?%elem_of_nil; done|].
  destruct (String.eqb c name) eqn:E; [done|].
  destruct (get_loc name cs); [done|]. intros _ [->|?]%elem_of_cons.
  - by rewrite String.eqb_refl in E.
  - by apply IH.
Qed.

Lemma get_loc_NoDup name cols j :
  NoDup cols → cols !! j = Some name → get_loc name cols = Some j.
Proof.
  revert j. induction cols as [|c cs IH]; intros j Hnd Hj; [done|].
  apply NoDup_cons in Hnd as [Hc Hnd]. destruct j as [|j]; simpl in *.
  - injection Hj as ->. by rewrite String.eqb_refl.
  - destruct (String.eqb c name) eqn:E.
    + apply String.eqb_eq in E as ->. exfalso. apply Hc.
      by eapply list_elem_of_lookup_2.
    + by rewrite (IH j Hnd Hj).
Qed.

(** After the conversion a date cell is a time or missing, and trimming
    leaves it alone. *)
Lemma to_datetime_cell_result c c' :
  to_datetime_cell c = Ok c' → c' = Missing ∨ ∃ d, c' = Timestamp d.
Proof.
  destruct c; simpl; try discriminate.
  - destruct (is_nat_string s); [intros [= <-]; by left|].
    destruct (strptime s); simpl; [|done]. intros [= <-]. eauto.
  - destruct (n =? int64_min); [|done]. intros [= <-]. by left.
  - intros [= <-]. by left.
  - intros [= <-]. eauto.
Qed.

Lemma to_datetime_cell_idemp c c' :
  to_datetime_cell c = Ok c' → to_datetime_cell c' = Ok c'.
Proof. by intros [->|[d ->]]%to_datetime_cell_result. Qed.

Lemma fix_row_Ok j r r' :
  fix_row j r = Ok r' →
  length r' = length r ∧
  ∀ k c, r !! k = Some c →
    if decide (k = j) then ∃ c', to_datetime_cell c = Ok c' ∧ r' !! k = Some c'
    else r' !! k = Some c.
Proof.
  unfold fix_row. destruct (to_datetime_cell _) as [c'|] eqn:E; simpl; [|done].
  intros [= <-]. split; [apply length_insert|].
  intros k c Hk. case_decide as Hkj.
  - subst k. rewrite Hk in E. simpl in E. exists c'. split; [done|].
    apply list_lookup_insert_eq. by eapply lookup_lt_Some.
  - by rewrite list_lookup_insert_ne.
Qed.

(** ** Filling *)

Lemma fills_of_lookup df values k :
  fills_of df values !! k
  = (λ name, fill_value (column k (rows df)) <$> dict_get name values)
      <$> columns df !! k.
Proof. unfold fills_of. by rewrite list_lookup_imap. Qed.

Lemma fill_row_lookup fills r k :
  fill_row fills r !! k
  = (λ c, if isna c then default c (mjoin (fills !! k)) else c) <$> r !! k.
Proof. unfold fill_row. by rewrite list_lookup_imap. Qed.

Lemma fill_row_length fills r : length (fill_row fills r) = length r.
Proof. unfold fill_row. apply length_imap. Qed.

Lemma fill_value_zero series : is_zero (fill_value series 0).
Proof. unfold fill_value, is_zero. destruct (is_float_dtype _); auto. Qed.

Lemma dict_get_fill_values name :
  dict_get name fill_values = if bool_decide (name ∈ fill_keys) then Some 0 else None.
Proof.
  unfold fill_values, fill_keys. cbn [dict_get].
  destruct (String.eqb_spec "Sales" name) as [<-|E1]; [done|].
  destruct (String.eqb_spec "Quantity" name) as [<-|E2]; [done|].
  destruct (String.eqb_spec "Discount" name) as [<-|E3]; [done|].
  destruct (String.eqb_spec "Profit" name) as [<-|E4]; [done|].
  rewrite bool_decide_eq_false_2; [done|].
  rewrite !elem_of_cons, elem_of_nil. intros [?|[?|[?|[?|[]]]]]; congruence.
Qed.

(** ** The script, unfolded *)

Lemma main_unfold w f :
  files w !! input_path = Some f →
  main w =
  match transform (parse_csv f) with
  | Ok df => (Ok tt, World (<[output_path := frame_to_csv df]> (files w))
                           (stdout w ++ [message]))
  | Raise e => (Raise e, w)
  end.
Proof.
  intros Hf. unfold main, seq_prog, read_csv, lift, to_csv, print. rewrite Hf.
  by destruct (transform (parse_csv f)).
Qed.

Lemma main_no_input w :
  files w !! input_path = None → main w = (Raise (FileNotFoundError input_path), w).
Proof. intros Hf. unfold main, seq_prog, read_csv. by rewrite Hf. Qed.

Lemma main_clean_and_save : main = (do df <- read_csv input_path; clean_and_save df).
Proof. reflexivity. Qed.

Lemma clean_and_save_Raise df e w :
  transform df = Raise e → clean_and_save df w = (Raise e, w).
Proof. intros H. unfold clean_and_save, seq_prog, lift. by rewrite H. Qed.

(** ** The model on small inputs *)

Example strptime_examples :
  strptime "03/15/2023" = Ok (Date 2023 3 15)
  ∧ strptime "3/5/2023" = Ok (Date 2023 3 5)
  ∧ strptime "03/15/23" = Raise (ValueError NoMatch)
  ∧ strptime "2023-03-15" = Raise (ValueError NoMatch)
  ∧ strptime "13/01/2023" = Raise (ValueError NoMatch)
  ∧ strptime "03/15/2023 " = Raise (ValueError UnconvertedData)
  ∧ strptime " 03/15/2023" = Raise (ValueError NoMatch)
  ∧ strptime "02/29/2023" = Raise (ValueError DateOutOfRange)
  ∧ strptime "02/29/2024" = Ok (Date 2024 2 29)
  ∧ strptime "09/21/1677" = Raise (ValueError OutOfBoundsDatetime)
  ∧ strptime "09/22/1677" = Ok (Date 1677 9 22)
  ∧ strptime "04/11/2262" = Ok (Date 2262 4 11)
  ∧ strptime "04/12/2262" = Raise (ValueError OutOfBoundsDatetime).
Proof. split_and!; reflexivity. Qed.

Example infer_column_examples :
  infer_column ["3"; "4"] = [Int 3; Int 4]
  ∧ infer_column ["3"; ""] = [Float (Float64 3 0); Missing]
  ∧ infer_column [""; ""] = [Missing; Missing]
  ∧ infer_column ["0.1"; "12.50"; " 7 "]
    = [Float (Float64 1 (-1)); Float (Float64 125 (-1)); Float (Float64 7 0)]
  ∧ infer_column ["True"; "false"] = [Bool true; Bool false]
  ∧ infer_column ["West"; "NA"; " 5"] = [Str "West"; Missing; Str " 5"].
Proof. split_and!; reflexivity. Qed.

Example render_cell_examples :
  render_cell (Int (-17)) = "-17"
  ∧ render_cell (Float (Float64 0 0)) = "0.0"
  ∧ render_cell (Float (Float64 3 0)) = "3.0"
  ∧ render_cell (Float (Float64 125 (-1))) = "12.5"
  ∧ render_cell (Float (Float64 1 16)) = "1e+16"
  ∧ render_cell (Float (Float64 15 (-6))) = "1.5e-05"
  ∧ render_cell Missing = ""
  ∧ render_cell (Timestamp (Date 2023 3 5)) = "2023-03-05".
Proof. split_and!; vm_compute; reflexivity. Qed.

Example strip_examples :
  strip "  West " = "West" ∧ strip "a b" = "a b" ∧ strip "   " = ""
  ∧ strip (nbsp +:+ "West" +:+ nbsp) = "West"
  ∧ strip (em_space +:+ " a" +:+ nbsp +:+ "b " +:+ em_space) = "a" +:+ nbsp +:+ "b"
  ∧ strip (utf8 133 +:+ utf8 12288 +:+ "West" +:+ utf8 8232 +:+ utf8 5760) = "West"
  ∧ strip (utf8 224) = utf8 224
  ∧ strip (utf8 8203 +:+ "West") = utf8 8203 +:+ "West".
Proof. split_and!; vm_compute; reflexivity. Qed.

(** ** The four steps, cell by cell *)

Lemma transform_Ok df df' :
  transform df = Ok df' →
  ∃ j1 j2 rs1 rs2,
    get_loc "Order Date" (columns df) = Some j1
    ∧ get_loc "Ship Date" (columns df) = Some j2
    ∧ traverse (fix_row j1) (rows df) = Ok rs1
    ∧ traverse (fix_row j2) rs1 = Ok rs2
    ∧ df' = fillna (Frame (map strip (columns df))
                          (distinct_from [] (map (map strip_cell) rs2)))
                   fill_values.
Proof.
  unfold transform. rewrite !fix_date_unfold.
  destruct (get_loc "Order Date" (columns df)) as [j1|] eqn:E1; [|done].
  destruct (is_bool_dtype _); [done|].
  destruct (traverse (fix_row j1) (rows df)) as [rs1|] eqn:T1; [|done].
  simpl. rewrite !fix_date_unfold. simpl.
  destruct (get_loc "Ship Date" (columns df)) as [j2|] eqn:E2; [|done].
  destruct (is_bool_dtype _); [done|].
  destruct (traverse (fix_row j2) rs1) as [rs2|] eqn:T2; [|done].
  simpl. intros [= <-]. exists j1, j2, rs1, rs2. done.
Qed.

Lemma isna_strip_cell c : isna (strip_cell c) = isna c.
Proof. by destruct c. Qed.

Lemma strip_cell_date c c' : to_datetime_cell c = Ok c' → strip_cell c' = c'.
Proof. by intros [->|[d ->]]%to_datetime_cell_result. Qed.

Lemma fills_date_column D cols k name :
  cols !! k = Some name → name = "Order Date" ∨ name = "Ship Date" →
  mjoin (fills_of (Frame (map strip cols) D) fill_values !! k) = None.
Proof.
  intros Hk Hn. rewrite fills_of_lookup. simpl.
  rewrite list_lookup_fmap, Hk. simpl.
  by destruct Hn as [-> | ->].
Qed.

Lemma fix_rows_cleaned cols D j1 j2 r r1 r2 :
  get_loc "Order Date" cols = Some j1 → get_loc "Ship Date" cols = Some j2 →
  fix_row j1 r = Ok r1 → fix_row j2 r1 = Ok r2 →
  cleaned_row cols r
    (fill_row (fills_of (Frame (map strip cols) D) fill_values) (map strip_cell r2)).
Proof.
  intros E1 E2 [L1 H1]%fix_row_Ok [L2 H2]%fix_row_Ok.
  pose proof (get_loc_Some _ _ _ E1) as C1.
  pose proof (get_loc_Some _ _ _ E2) as C2.
  assert (j1 ≠ j2) as Hne by (intros ->; congruence).
  split.
  { rewrite fill_row_length, length_map. congruence. }
  intros k c Hk. rewrite fill_row_lookup, list_lookup_fmap.
  specialize (H1 k c Hk). unfold cleaned_cell.
  destruct (decide (k = j1)) as [->|Hk1].
  - destruct H1 as (c1 & Hc1 & Hr1). specialize (H2 j1 c1 Hr1).
    rewrite decide_False in H2 by done. rewrite H2. simpl.
    rewrite (strip_cell_date _ _ Hc1).
    rewrite (fills_date_column D cols j1 "Order Date") by auto. simpl.
    exists c1. split; [by destruct (isna c1)|].
    rewrite decide_True by auto. done.
  - specialize (H2 k c H1). destruct (decide (k = j2)) as [->|Hk2].
    + destruct H2 as (c2 & Hc2 & Hr2). rewrite Hr2. simpl.
      rewrite (strip_cell_date _ _ Hc2).
      rewrite (fills_date_column D cols j2 "Ship Date") by auto. simpl.
      exists c2. split; [by destruct (isna c2)|].
      rewrite decide_True by auto. done.
    + rewrite H2. simpl. rewrite isna_strip_cell.
      eexists. split; [reflexivity|].
      rewrite decide_False by (intros [?|?]; congruence).
      rewrite fills_of_lookup. cbn [columns rows]. rewrite list_lookup_fmap.
      destruct (cols !! k) as [name|]; cbn [fmap option_fmap option_map].
      * rewrite dict_get_fill_values.
        destruct (bool_decide (strip name ∈ fill_keys)); simpl.
        -- destruct (isna c); [apply fill_value_zero|done].
        -- by destruct (isna c).
      * by destruct (isna c).
Qed.

(** Every output row is the cleaned form of an input row, and every input
    row has its cleaned form in the output. *)
Lemma transform_rows df df' :
  transform df = Ok df' →
  columns df' = map strip (columns df)
  ∧ (∀ r', r' ∈ rows df' → ∃ r, r ∈ rows df ∧ cleaned_row (columns df) r r')
  ∧ (∀ r, r ∈ rows df → ∃ r', r' ∈ rows df' ∧ cleaned_row (columns df) r r').
Proof.
  intros (j1 & j2 & rs1 & rs2 & E1 & E2 & T1 & T2 & ->)%transform_Ok.
  apply traverse_Ok in T1. apply traverse_Ok in T2.
  split; [done|]. simpl. split.
  - intros r' (t & -> & Ht)%list_elem_of_fmap.
    apply distinct_from_inv in Ht as [Ht _].
    apply list_elem_of_fmap in Ht as (r2 & -> & Hr2).
    apply list_elem_of_lookup in Hr2 as [i Hi].
    destruct (Forall2_lookup_r _ _ _ _ _ T2 Hi) as (r1 & Hi1 & F2).
    destruct (Forall2_lookup_r _ _ _ _ _ T1 Hi1) as (r & Hi0 & F1).
    exists r. split; [by eapply list_elem_of_lookup_2|].
    by eapply fix_rows_cleaned.
  - intros r [i Hi]%list_elem_of_lookup.
    destruct (Forall2_lookup_l _ _ _ _ _ T1 Hi) as (r1 & Hi1 & F1).
    destruct (Forall2_lookup_l _ _ _ _ _ T2 Hi1) as (r2 & Hi2 & F2).
    eexists. split; [|by eapply fix_rows_cleaned].
    apply list_elem_of_fmap. eexists. split; [reflexivity|].
    destruct (distinct_from_complete [] (map (map strip_cell) rs2) (map strip_cell r2))
      as [?%elem_of_nil|?]; [|done|done].
    apply list_elem_of_fmap. exists r2. split; [done|].
    by eapply list_elem_of_lookup_2.
Qed.

(** ** The end-to-end scenario *)

(** C1. On the two identical rows of the end-to-end scenario the script
    succeeds and writes exactly one row: the two dates in ISO form, Sales
    as the number zero (a float column, so it is written [0.0]), and
    Quantity, Discount and Profit with the texts they had. *)
Theorem C1_end_to_end_scenario :
  fst (main scenario_world) = Ok tt
  ∧ files (snd (main scenario_world)) !! output_path
    = Some (CsvFile scenario_header
              [["2022-01-02"; "2022-01-05"; "0.0"; "3"; "0.1"; "12.5"]])
  ∧ transform (parse_csv scenario_input)
    = Ok (Frame scenario_header
            [[Timestamp (Date 2022 1 2); Timestamp (Date 2022 1 5);
              Float (Float64 0 0); Int 3;
              Float (Float64 1 (-1)); Float (Float64 125 (-1))]])
  ∧ is_zero (Float (Float64 0 0))
  ∧ drop 3 ["2022-01-02"; "2022-01-05"; "0.0"; "3"; "0.1"; "12.5"]
    = drop 3 scenario_record.
Proof.
  split_and!; [vm_compute; reflexivity..| |reflexivity].
  by right.
Qed.

(** ** Dates *)

Lemma nat_string_short s : is_nat_string s = true → (String.length s ≤ 3)%nat.
Proof.
  unfold is_nat_string, nat_strings. cbn [existsb]. intros H.
  repeat (apply orb_true_iff in H as [H|H]);
    first [discriminate H | apply String.eqb_eq in H; subst; simpl; lia].
Qed.

Lemma written_length s mm dd yyyy dt :
  written_mdY s mm dd yyyy dt → String.length s = 10%nat.
Proof.
  intros [(-> & [Hm _]%andb_true_iff & [Hd _]%andb_true_iff
          & [Hy _]%andb_true_iff & _) _].
  apply Nat.eqb_eq in Hm, Hd, Hy.
  rewrite !str_app_length, Hm, Hd, Hy. reflexivity.
Qed.

Lemma to_datetime_cell_written s mm dd yyyy dt :
  written_mdY s mm dd yyyy dt → to_datetime_cell (Str s) = Ok (Timestamp dt).
Proof.
  intros H. simpl.
  destruct (is_nat_string s) eqn:E.
  - apply nat_string_short in E. apply written_length in H. lia.
  - apply strptime_written in H as [-> _]. done.
Qed.

(** C2, as stated, fails: 1 January 1500 is a calendar date written
    MM/DD/YYYY, but a nanosecond timestamp cannot hold it; its conversion
    raises and the script stops without an output file.  (So does the
    conversion of a text that has the shape of the pattern and names no
    calendar date, such as 02/30/2023.) *)
Lemma C2_counterexample :
  calendar_mdY "01/01/1500" "01" "01" "1500" (Date 1500 1 1)
  ∧ to_datetime_cell (Str "01/01/1500") = Raise (ValueError OutOfBoundsDatetime)
  ∧ fst (main old_date_world) = Raise (ValueError OutOfBoundsDatetime)
  ∧ files (snd (main old_date_world)) !! output_path = None
  ∧ to_datetime_cell (Str "02/30/2023") = Raise (ValueError DateOutOfRange)
  ∧ ¬ every_calendar_date_converted.
Proof.
  assert (calendar_mdY "01/01/1500" "01" "01" "1500" (Date 1500 1 1)) as Hc.
  { unfold calendar_mdY. split_and!; reflexivity. }
  split_and!; [exact Hc|vm_compute; reflexivity..|].
  intros H. specialize (H _ _ _ _ _ Hc). vm_compute in H. discriminate H.
Qed.

(** C2, amended. A cell of the column Order Date or Ship Date that is
    written MM/DD/YYYY and names a calendar date from 1677-09-22 to
    2262-04-11 is parsed as that date, and the row's cell in the output is
    that date, written YYYY-MM-DD by [to_csv]. *)
Theorem C2_date_cells_become_iso df df' name j r s mm dd yyyy dt :
  transform df = Ok df' →
  name = "Order Date" ∨ name = "Ship Date" →
  get_loc name (columns df) = Some j →
  r ∈ rows df → r !! j = Some (Str s) →
  written_mdY s mm dd yyyy dt →
  to_datetime_cell (Str s) = Ok (Timestamp dt)
  ∧ ∃ r', r' ∈ rows df' ∧ cleaned_row (columns df) r r'
      ∧ r' !! j = Some (Timestamp dt)
      ∧ map render_cell r' !! j = Some (yyyy +:+ "-" +:+ mm +:+ "-" +:+ dd).
Proof.
  intros Ht Hname Hj Hr Hc Hw.
  pose proof (to_datetime_cell_written _ _ _ _ _ Hw) as Hconv.
  split; [done|].
  apply transform_rows in Ht as (_ & _ & Hall).
  destruct (Hall r Hr) as (r' & Hr' & Hclean). exists r'.
  split_and!; [done..| |].
  - destruct Hclean as [_ Hcells].
    destruct (Hcells j _ Hc) as (c' & Hc' & Hspec).
    unfold cleaned_cell in Hspec.
    rewrite decide_True in Hspec by (destruct Hname as [-> | ->]; auto).
    congruence.
  - destruct Hclean as [_ Hcells].
    destruct (Hcells j _ Hc) as (c' & Hc' & Hspec).
    unfold cleaned_cell in Hspec.
    rewrite decide_True in Hspec by (destruct Hname as [-> | ->]; auto).
    rewrite list_lookup_fmap, Hc'. simpl. f_equal.
    assert (c' = Timestamp dt) as -> by congruence. simpl.
    by apply strptime_written in Hw as [_ ->].
Qed.

Lemma C2_date_cells_become_iso_witness :
  transform march_frame
  = Ok (Frame ["Order Date"; "Ship Date"; "Region"]
          [[Timestamp (Date 2023 3 15); Timestamp (Date 2023 3 17); Str "West"]])
  ∧ written_mdY "03/15/2023" "03" "15" "2023" (Date 2023 3 15)
  ∧ to_datetime_cell (Str "03/15/2023") = Ok (Timestamp (Date 2023 3 15))
  ∧ ∃ r', r' ∈ rows (Frame ["Order Date"; "Ship Date"; "Region"]
            [[Timestamp (Date 2023 3 15); Timestamp (Date 2023 3 17); Str "West"]])
      ∧ cleaned_row (columns march_frame)
          [Str "03/15/2023"; Str "03/17/2023"; Str "West"] r'
      ∧ r' !! O = Some (Timestamp (Date 2023 3 15))
      ∧ map render_cell r' !! O = Some ("2023" +:+ "-" +:+ "03" +:+ "-" +:+ "15").
Proof.
  assert (written_mdY "03/15/2023" "03" "15" "2023" (Date 2023 3 15)) as Hw.
  { unfold written_mdY, calendar_mdY. split_and!; reflexivity. }
  split; [vm_compute; reflexivity|]. split; [exact Hw|].
  apply (C2_date_cells_become_iso march_frame _ "Order Date" O
           [Str "03/15/2023"; Str "03/17/2023"; Str "West"]
           "03/15/2023" "03" "15" "2023" (Date 2023 3 15)).
  - vm_compute; reflexivity.
  - by left.
  - reflexivity.
  - unfold march_frame. simpl. by left.
  - reflexivity.
  - exact Hw.
Defined.

(** ** First occurrences *)







(** ** Filling and trimming, on the output of the script *)

Lemma strip_date_label name :
  name = "Order Date" ∨ name = "Ship Date" → strip name ∉ fill_keys.
Proof.
  intros [-> | ->]; vm_compute; intros H;
    repeat (apply elem_of_cons in H as [H|H]; [discriminate H|]);
    by apply elem_of_nil in H.
Qed.

Lemma is_zero_not_missing c : is_zero c → isna c = false.
Proof. by intros [-> | ->]. Qed.

(** In the output, a missing cell is never in a fill column, and a text
    cell is trimmed. *)
Lemma cleaned_cell_output cols k c c' name :
  cleaned_cell cols k c c' → cols !! k = Some name →
  (isna c' = true → strip name ∉ fill_keys)
  ∧ (∀ s, c' = Str s → strip s = s).
Proof.
  unfold cleaned_cell. intros H Hk. case_decide as Hd.
  - split.
    + intros _. apply strip_date_label.
      destruct Hd as [Hd|Hd]; apply get_loc_Some in Hd; [left|right]; congruence.
    + intros s ->. by apply to_datetime_cell_result in H as [?|[? ?]].
  - rewrite Hk in H. destruct (bool_decide_reflect (strip name ∈ fill_keys)) as [Hin|Hin];
      simpl in H.
    + destruct (isna c) eqn:Ec.
      * split; [by rewrite (is_zero_not_missing _ H)|].
        intros s ->. by destruct H.
      * subst c'. split; [by rewrite isna_strip_cell, Ec|].
        intros s Hs. destruct c; simpl in Hs; try discriminate.
        injection Hs as <-. apply strip_idemp.
    + subst c'. split; [done|].
      intros s Hs. destruct c; simpl in Hs; try discriminate.
      injection Hs as <-. apply strip_idemp.
Qed.

(** C4. After the script no cell of the columns Sales, Quantity,
    Discount, Profit is missing; every input row has its row in the
    output, where each cell that was missing is numeric zero if its
    column is one of those four, and is still missing if it is not. *)
Theorem C4_missing_values_filled df df' :
  transform df = Ok df' →
  (∀ r' k name, r' ∈ rows df' → columns df' !! k = Some name →
     name ∈ fill_keys → r' !! k ≠ Some Missing)
  ∧ (∀ r, r ∈ rows df →
       ∃ r', r' ∈ rows df' ∧ cleaned_row (columns df) r r' ∧
         ∀ k name, r !! k = Some Missing → columns df' !! k = Some name →
           if bool_decide (name ∈ fill_keys)
           then ∃ z, r' !! k = Some z ∧ is_zero z
           else r' !! k = Some Missing).
Proof.
  intros Ht. destruct (transform_rows _ _ Ht) as (Hcols & Hback & Hforth).
  split.
  - intros r' k name Hr' Hk Hin Hmiss.
    destruct (Hback r' Hr') as (r & _ & Hlen & Hcells).
    rewrite Hcols, list_lookup_fmap in Hk.
    destruct (columns df !! k) as [n|] eqn:En; [|done]. injection Hk as <-.
    destruct (r !! k) as [c|] eqn:Ec.
    + destruct (Hcells k c Ec) as (c' & Hc' & Hspec).
      assert (c' = Missing) as -> by congruence.
      eapply cleaned_cell_output in Hspec as [Hn _]; [|done]. by apply Hn.
    + apply lookup_ge_None in Ec. apply lookup_lt_Some in Hmiss. lia.
  - intros r Hr. destruct (Hforth r Hr) as (r' & Hr' & Hlen & Hcells).
    exists r'. split_and!; [done|by split|].
    intros k name Hk Hname.
    destruct (Hcells k _ Hk) as (c' & Hc' & Hspec).
    rewrite Hcols, list_lookup_fmap in Hname.
    destruct (columns df !! k) as [n|] eqn:En; [|done]. injection Hname as <-.
    unfold cleaned_cell in Hspec. case_decide as Hd.
    + rewrite bool_decide_eq_false_2.
      * simpl in Hspec. congruence.
      * apply strip_date_label.
        destruct Hd as [Hd|Hd]; apply get_loc_Some in Hd; [left|right]; congruence.
    + rewrite En in Hspec. simpl in Hspec. rewrite andb_true_r in Hspec.
      destruct (bool_decide (strip n ∈ fill_keys)); [eauto|]. congruence.
Qed.

Lemma C4_missing_values_filled_witness :
  transform gaps_frame
  = Ok (Frame ["Order Date"; "Ship Date"; "Sales"; "Region"]
          [[Timestamp (Date 2022 1 2); Missing; Float (Float64 0 0); Missing]])
  ∧ (∀ r' k name,
       r' ∈ [[Timestamp (Date 2022 1 2); Missing; Float (Float64 0 0); Missing]] →
       ["Order Date"; "Ship Date"; "Sales"; "Region"] !! k = Some name →
       name ∈ fill_keys → r' !! k ≠ Some Missing)
  ∧ (∀ r, r ∈ rows gaps_frame →
       ∃ r', r' ∈ [[Timestamp (Date 2022 1 2); Missing; Float (Float64 0 0); Missing]]
         ∧ cleaned_row (columns gaps_frame) r r' ∧
         ∀ k name, r !! k = Some Missing →
           ["Order Date"; "Ship Date"; "Sales"; "Region"] !! k = Some name →
           if bool_decide (name ∈ fill_keys)
           then ∃ z, r' !! k = Some z ∧ is_zero z
           else r' !! k = Some Missing).
Proof.
  assert (transform gaps_frame
    = Ok (Frame ["Order Date"; "Ship Date"; "Sales"; "Region"]
            [[Timestamp (Date 2022 1 2); Missing; Float (Float64 0 0); Missing]]))
    as E by (vm_compute; reflexivity).
  split; [exact E|]. exact (C4_missing_values_filled _ _ E).
Defined.

(** C5. After the script every column label is trimmed and every text
    cell is trimmed: [strip] leaves it as it is, and it neither begins nor
    ends with a whitespace character of [str.isspace]; the trimming step
    leaves every cell that is not text as it is. *)
Theorem C5_labels_and_text_trimmed df df' :
  transform df = Ok df' →
  (∀ name, name ∈ columns df' → strip name = name ∧ trimmed name)
  ∧ (∀ r' s, r' ∈ rows df' → Str s ∈ r' → strip s = s ∧ trimmed s)
  ∧ (∀ c, (∀ s, c ≠ Str s) → strip_cell c = c).
Proof.
  intros Ht. destruct (transform_rows _ _ Ht) as (Hcols & Hback & _).
  assert (∀ t, strip t = t → strip t = t ∧ trimmed t) as Htrim.
  { intros t Hs. split; [done|]. rewrite <- Hs. apply strip_trimmed. }
  split_and!.
  - intros name. rewrite Hcols. intros (n & -> & _)%list_elem_of_fmap.
    apply Htrim, strip_idemp.
  - intros r' s Hr' [k Hk]%list_elem_of_lookup.
    destruct (Hback r' Hr') as (r & _ & Hlen & Hcells).
    destruct (r !! k) as [c|] eqn:Ec.
    2:{ apply lookup_ge_None in Ec. apply lookup_lt_Some in Hk. lia. }
    destruct (Hcells k c Ec) as (c' & Hc' & Hspec).
    assert (c' = Str s) as -> by congruence.
    unfold cleaned_cell in Hspec. case_decide.
    + by apply to_datetime_cell_result in Hspec as [?|[? ?]].
    + assert (is_zero (Str s) ∨ Str s = strip_cell c) as [[?|?]|Hs].
      { destruct (columns df !! k); [|by right].
        destruct (_ && _); [by left|by right]. }
      * done.
      * done.
      * destruct c; simpl in Hs; try discriminate.
        injection Hs as ->. apply Htrim, strip_idemp.
  - intros c Hc. destruct c; try done. by destruct (Hc s).
Qed.

Lemma C5_labels_and_text_trimmed_witness :
  transform nbsp_frame
  = Ok (Frame ["Order Date"; "Ship Date"; "Region"]
          [[Timestamp (Date 2022 1 2); Timestamp (Date 2022 1 5); Str "West"]])
  ∧ (∀ name, name ∈ ["Order Date"; "Ship Date"; "Region"] →
       strip name = name ∧ trimmed name)
  ∧ (∀ r' s,
       r' ∈ [[Timestamp (Date 2022 1 2); Timestamp (Date 2022 1 5); Str "West"]] →
       Str s ∈ r' → strip s = s ∧ trimmed s)
  ∧ (∀ c, (∀ s, c ≠ Str s) → strip_cell c = c).
Proof.
  assert (transform nbsp_frame
    = Ok (Frame ["Order Date"; "Ship Date"; "Region"]
            [[Timestamp (Date 2022 1 2); Timestamp (Date 2022 1 5); Str "West"]]))
    as E by (vm_compute; reflexivity).
  split; [exact E|]. exact (C5_labels_and_text_trimmed _ _ E).
Defined.

(** ** Columns that are not named by the script *)




(** ** Missing values in duplicate detection *)




(** ** Date cells that cannot be parsed *)

Lemma strptime_Raise s e : strptime s = Raise e → ∃ v, e = ValueError v.
Proof.
  unfold strptime. repeat case_match; intros [= <-]; eauto.
Qed.

Lemma to_datetime_cell_Raise c e :
  to_datetime_cell c = Raise e → ∃ v, e = ValueError v.
Proof.
  destruct c; simpl; try discriminate; try (intros [= <-]; eauto).
  - destruct (is_nat_string s); [done|].
    destruct (strptime s) eqn:E; simpl; [done|]. intros [= <-].
    by eapply strptime_Raise.
  - destruct (n =? int64_min); [done|]. intros [= <-]. eauto.
Qed.

Lemma fix_row_Raise j r e : fix_row j r = Raise e → ∃ v, e = ValueError v.
Proof.
  unfold fix_row. destruct (to_datetime_cell _) eqn:E; simpl; [done|].
  intros [= <-]. by eapply to_datetime_cell_Raise.
Qed.

Lemma fix_date_Raise name df j e :
  get_loc name (columns df) = Some j → fix_date name df = Raise e → parse_failure e.
Proof.
  intros Hj. rewrite fix_date_unfold, Hj.
  destruct (is_bool_dtype _); [intros [= <-]; by left|].
  destruct (traverse (fix_row j) (rows df)) eqn:E; simpl; [done|].
  intros [= <-]. apply traverse_Raise in E as (r & _ & Hr).
  right. by eapply fix_row_Raise.
Qed.

Lemma fix_row_text_fails j r s e0 :
  r !! j = Some (Str s) → is_nat_string s = false → strptime s = Raise e0 →
  fix_row j r = Raise e0.
Proof. intros Hj Hn Hs. unfold fix_row. rewrite Hj. simpl. by rewrite Hn, Hs. Qed.

Lemma fix_date_text_fails name df j r s e0 :
  get_loc name (columns df) = Some j → r ∈ rows df →
  r !! j = Some (Str s) → is_nat_string s = false → strptime s = Raise e0 →
  ∃ e, fix_date name df = Raise e ∧ parse_failure e.
Proof.
  intros Hj Hr Hc Hn Hs.
  destruct (fix_date name df) as [df1|e] eqn:E.
  - exfalso. rewrite fix_date_unfold, Hj in E.
    destruct (is_bool_dtype _); [done|].
    destruct (traverse_fails (fix_row j) (rows df) r e0 Hr)
      as [e' He']; [by eapply fix_row_text_fails|].
    by rewrite He' in E.
  - exists e. split; [done|]. exact (fix_date_Raise _ _ _ _ Hj E).
Qed.

Lemma transform_text_fails df j1 j2 j r s e0 :
  get_loc "Order Date" (columns df) = Some j1 →
  get_loc "Ship Date" (columns df) = Some j2 →
  j = j1 ∨ j = j2 → r ∈ rows df →
  r !! j = Some (Str s) → is_nat_string s = false → strptime s = Raise e0 →
  ∃ e, transform df = Raise e ∧ parse_failure e.
Proof.
  intros E1 E2 Hj Hr Hc Hn Hs. unfold transform.
  destruct (fix_date "Order Date" df) as [df1|e] eqn:F1; simpl.
  2:{ exists e. split; [done|]. exact (fix_date_Raise _ _ _ _ E1 F1). }
  assert (j = j2 ∧ j ≠ j1) as [-> Hne].
  { destruct Hj as [-> | ->].
    - destruct (fix_date_text_fails _ _ _ _ _ _ E1 Hr Hc Hn Hs) as (e & He & _).
      congruence.
    - split; [done|]. intros ->.
      apply get_loc_Some in E1, E2. congruence. }
  rewrite fix_date_unfold, E1 in F1.
  destruct (is_bool_dtype _); [done|].
  destruct (traverse (fix_row j1) (rows df)) as [rs1|] eqn:T1; [|done].
  simpl in F1. injection F1 as <-.
  apply traverse_Ok in T1. apply list_elem_of_lookup in Hr as [i Hi].
  destruct (Forall2_lookup_l _ _ _ _ _ T1 Hi) as (r1 & Hi1 & F).
  apply fix_row_Ok in F as [_ F]. specialize (F j2 _ Hc).
  rewrite decide_False in F by done.
  destruct (fix_date_text_fails "Ship Date" (Frame (columns df) rs1) j2 r1 s e0)
    as (e & He & Hp); try done.
  { by eapply list_elem_of_lookup_2. }
  rewrite He. simpl. eauto.
Qed.

Lemma is_bool_dtype_text j rs r s :
  r ∈ rs → r !! j = Some (Str s) → is_bool_dtype (column j rs) = false.
Proof.
  intros Hr Hc. destruct (is_bool_dtype (column j rs)) eqn:E; [|done].
  assert (forallb (λ c, match c with Bool _ => true | _ => false end)
            (column j rs) = true) as Hall.
  { unfold is_bool_dtype in E. by destruct (column j rs). }
  rewrite forallb_forall in Hall.
  specialize (Hall (Str s)). simpl in Hall. symmetry. apply Hall.
  apply list_elem_of_In, list_elem_of_fmap. exists r. by rewrite Hc.
Qed.

Lemma fix_date_text_fails_value name df j r s e0 :
  get_loc name (columns df) = Some j → r ∈ rows df →
  r !! j = Some (Str s) → is_nat_string s = false → strptime s = Raise e0 →
  ∃ v, fix_date name df = Raise (ValueError v).
Proof.
  intros Hj Hr Hc Hn Hs. rewrite fix_date_unfold, Hj.
  rewrite (is_bool_dtype_text j (rows df) r s) by done.
  destruct (traverse_fails (fix_row j) (rows df) r e0 Hr)
    as [e He]; [by eapply fix_row_text_fails|].
  rewrite He. simpl.
  apply traverse_Raise in He as (x & _ & Hx).
  apply fix_row_Raise in Hx as [v ->]. eauto.
Qed.

(** When the Order Date column is not a boolean column, the exception is
    a [ValueError]. *)
Lemma transform_text_fails_value df j1 j2 j r s e0 :
  get_loc "Order Date" (columns df) = Some j1 →
  get_loc "Ship Date" (columns df) = Some j2 →
  j = j1 ∨ j = j2 → r ∈ rows df →
  r !! j = Some (Str s) → is_nat_string s = false → strptime s = Raise e0 →
  is_bool_dtype (column j1 (rows df)) = false →
  ∃ v, transform df = Raise (ValueError v).
Proof.
  intros E1 E2 Hj Hr Hc Hn Hs Hb. unfold transform.
  destruct (fix_date "Order Date" df) as [df1|e] eqn:F1; simpl.
  2:{ rewrite fix_date_unfold, E1, Hb in F1.
      destruct (traverse (fix_row j1) (rows df)) eqn:T; [done|].
      simpl in F1. injection F1 as <-.
      apply traverse_Raise in T as (x & _ & Hx).
      apply fix_row_Raise in Hx as [v ->]. eauto. }
  assert (j = j2 ∧ j ≠ j1) as [-> Hne].
  { destruct Hj as [-> | ->].
    - destruct (fix_date_text_fails _ _ _ _ _ _ E1 Hr Hc Hn Hs) as (e & He & _).
      congruence.
    - split; [done|]. intros ->.
      apply get_loc_Some in E1, E2. congruence. }
  rewrite fix_date_unfold, E1, Hb in F1.
  destruct (traverse (fix_row j1) (rows df)) as [rs1|] eqn:T1; [|done].
  simpl in F1. injection F1 as <-.
  apply traverse_Ok in T1. apply list_elem_of_lookup in Hr as [i Hi].
  destruct (Forall2_lookup_l _ _ _ _ _ T1 Hi) as (r1 & Hi1 & F).
  apply fix_row_Ok in F as [_ F]. specialize (F j2 _ Hc).
  rewrite decide_False in F by done.
  destruct (fix_date_text_fails_value "Ship Date" (Frame (columns df) rs1) j2 r1 s e0)
    as (v & Hv); try done.
  { by eapply list_elem_of_lookup_2. }
  rewrite Hv. simpl. eauto.
Qed.

(** C6, as stated, fails: an empty Order Date cell does not match the
    pattern, yet it is read as a missing value, converted to a missing
    time, and the output file is written. *)
Lemma C6_counterexample :
  fst (main blank_date_world) = Ok tt
  ∧ files (snd (main blank_date_world)) !! output_path
    = Some (CsvFile scenario_header
              [["2022-01-02"; "2022-01-05"; "10"; "3"; "0.1"; "12.5"];
               [""; "2022-01-07"; "20"; "1"; "0.2"; "4.5"]])
  ∧ ¬ every_unmatched_date_cell_fails.
Proof.
  split_and!; [vm_compute; reflexivity..|].
  intros H.
  destruct (H blank_date_world blank_date_input O
              [Missing; Str "01/07/2022"; Int 20; Int 1;
               Float (Float64 2 (-1)); Float (Float64 45 (-1))] Missing)
    as (e & He).
  - reflexivity.
  - by left.
  - vm_compute. right. by left.
  - reflexivity.
  - by intros (s & dt & [=] & _).
  - apply (f_equal fst) in He. vm_compute in He. discriminate He.
Qed.

(** C6, amended. If, in the table as loaded, a cell of Order Date or Ship
    Date is a text of ASCII characters that is neither empty nor a marker
    of a missing time and that does not match the pattern, then the four
    steps raise in [pd.to_datetime] (a [ValueError], unless the Order Date
    column is a boolean column, which is refused with a [TypeError]), and
    the script, which is [read_csv] followed by [clean_and_save], leaves
    the world as it was: no output file is written and nothing is
    printed. *)
Theorem C6_unparsable_date_text_fails df j1 j2 j r s e0 :
  get_loc "Order Date" (columns df) = Some j1 →
  get_loc "Ship Date" (columns df) = Some j2 →
  j = j1 ∨ j = j2 → r ∈ rows df →
  r !! j = Some (Str s) → string_forallb is_ascii s = true →
  is_nat_string s = false → strptime s = Raise e0 →
  ∃ e, transform df = Raise e ∧ parse_failure e
       ∧ (is_bool_dtype (column j1 (rows df)) = false → ∃ v, e = ValueError v)
       ∧ (∀ w, clean_and_save df w = (Raise e, w))
       ∧ main = (do df <- read_csv input_path; clean_and_save df).
Proof.
  intros E1 E2 Hj Hr Hc _ Hn Hs.
  destruct (transform_text_fails df j1 j2 j r s e0) as (e & He & Hp); try done.
  exists e. split_and!; try done.
  - intros Hb.
    destruct (transform_text_fails_value df j1 j2 j r s e0) as (v & Hv); try done.
    exists v. congruence.
  - intros w. by apply clean_and_save_Raise.
Qed.

Lemma C6_unparsable_date_text_fails_witness :
  get_loc "Order Date" (columns iso_date_frame) = Some 0%nat
  ∧ get_loc "Ship Date" (columns iso_date_frame) = Some 1%nat
  ∧ string_forallb is_ascii "2022-01-05" = true
  ∧ is_nat_string "2022-01-05" = false
  ∧ strptime "2022-01-05" = Raise (ValueError NoMatch)
  ∧ ∃ e, transform iso_date_frame = Raise e ∧ parse_failure e
       ∧ (is_bool_dtype (column 0 (rows iso_date_frame)) = false →
          ∃ v, e = ValueError v)
       ∧ (∀ w, clean_and_save iso_date_frame w = (Raise e, w))
       ∧ main = (do df <- read_csv input_path; clean_and_save df).
Proof.
  split; [reflexivity|]. split; [reflexivity|]. split; [reflexivity|].
  split; [reflexivity|]. split; [reflexivity|].
  apply (C6_unparsable_date_text_fails iso_date_frame 0 1 1
           [Str "01/02/2022"; Str "2022-01-05"; Int 10; Int 3;
            Float (Float64 1 (-1)); Float (Float64 125 (-1))]
           "2022-01-05" (ValueError NoMatch)).
  - reflexivity.
  - reflexivity.
  - by right.
  - by left.
  - reflexivity.
  - reflexivity.
  - reflexivity.
  - reflexivity.
Defined.

(** ** Whitespace around a date *)

Lemma rstrip_digits t :
  string_forallb is_digit t = true → rstrip_with is_space t = t.
Proof.
  induction t as [|c t IH]; simpl; [done|].
  intros [Hc Ht]%andb_true_iff. rewrite (IH Ht).
  destruct t; [|done]. by rewrite (digit_not_space c Hc).
Qed.

(** A text that [strptime] accepts has at least seven characters, begins
    with a digit and ends with one: trimming does not change it. *)
Lemma strptime_shape s dt :
  strptime s = Ok dt →
  (7 ≤ String.length s)%nat ∧ strip s = s
  ∧ ∃ c t, s = String c t ∧ is_digit c = true.
Proof.
  intros (m & d & y & Hin & _)%strptime_Ok.
  apply re_mdY_split in Hin as (-> & (c & t & -> & Hc & _) & _ & [Hly Hy]).
  rewrite str_app_nil_r. split_and!.
  - rewrite !str_app_length, Hly. simpl. lia.
  - destruct (forallb_digit_last y Hy) as (e & Hl & He).
    { by destruct y. }
    change (String c t +:+ "/" +:+ d +:+ "/" +:+ y)
      with (String c (t +:+ "/" +:+ d +:+ "/" +:+ y)).
    apply (strip_plain _ _ e); [by apply digit_plain| |by apply digit_plain].
    destruct y as [|y0 y]; [done|].
    change (String c (t +:+ "/" +:+ d +:+ "/" +:+ String y0 y))
      with (String c t +:+ ("/" +:+ d +:+ "/" +:+ String y0 y)).
    rewrite <- !str_app_assoc. by rewrite string_last_app.
  - simpl. eauto.
Qed.







(** ** A second pass over the output *)


Lemma to_datetime_cell_valid c c' :
  to_datetime_cell c = Ok c' → (∀ d, c ≠ Timestamp d) → date_cell_ok c'.
Proof.
  intros H Hc. destruct c; simpl in H; try discriminate.
  - destruct (is_nat_string s); [injection H as <-; by left|].
    destruct (strptime s) as [d|] eqn:E; simpl in H; [|done].
    injection H as <-. right. exists d. split; [done|]. by eapply strptime_valid.
  - destruct (n =? int64_min); [|done]. injection H as <-. by left.
  - injection H as <-. by left.
  - by destruct (Hc d).
Qed.







Lemma is_bool_dtype_column_false j rs :
  (∀ r c, r ∈ rs → r !! j = Some c → ∀ b, c ≠ Bool b) →
  is_bool_dtype (column j rs) = false.
Proof.
  destruct rs as [|r rs]; [done|]. intros H. simpl.
  destruct (r !! j) as [c|] eqn:Ec; simpl; [|done].
  destruct c; try done. exfalso. eapply (H r); [by left|done..].
Qed.





(** [read_csv] makes no time cell. *)
Lemma try_column_no_timestamp conv fields cells d :
  (∀ f c, conv f = Some c → c ≠ Timestamp d) →
  try_column conv fields = Some cells → Timestamp d ∉ cells.
Proof.
  intros Hconv H%mapM_Some_1 [i Hi]%list_elem_of_lookup.
  destruct (Forall2_lookup_r _ _ _ _ _ H Hi) as (f & _ & Hf).
  destruct (is_na f); [done|]. by eapply Hconv.
Qed.

Lemma infer_column_no_timestamp fields d : Timestamp d ∉ infer_column fields.
Proof.
  unfold infer_column.
  destruct (try_column (λ f, Int <$> parse_int64 f) fields) as [cells|] eqn:E1.
  { assert (Timestamp d ∉ cells) as Hn.
    { eapply try_column_no_timestamp; [|done].
      intros f c (x & _ & ->)%fmap_Some. done. }
    destruct (existsb is_na fields); [|done].
    intros (c & Hc & Hin)%list_elem_of_fmap. destruct c; try done.
    simpl in Hc. injection Hc as <-. done. }
  destruct (try_column (λ f, Float <$> parse_float f) fields) as [cells|] eqn:E2.
  { eapply try_column_no_timestamp; [|done].
    intros f c (x & _ & ->)%fmap_Some. done. }
  destruct (try_column (λ f, Bool <$> parse_bool f) fields) as [cells|] eqn:E3.
  { eapply try_column_no_timestamp; [|done].
    intros f c (x & _ & ->)%fmap_Some. done. }
  intros (f & Hf & _)%list_elem_of_fmap. by destruct (is_na f).
Qed.

Lemma parse_csv_no_timestamp f r d : r ∈ rows (parse_csv f) → Timestamp d ∉ r.
Proof.
  unfold parse_csv. simpl. intros [i Hi]%list_elem_of_lookup.
  rewrite list_lookup_imap in Hi.
  destruct (records f !! i) as [rec|]; [|done]. injection Hi as <-.
  intros (col & Hc & [j Hj]%list_elem_of_lookup)%list_elem_of_fmap.
  rewrite list_lookup_imap in Hj.
  destruct (header f !! j) as [name|]; [|done]. injection Hj as <-.
  destruct (infer_column _ !! i) as [c|] eqn:Ei; simpl in Hc; [|done].
  subst c. eapply infer_column_no_timestamp. by eapply list_elem_of_lookup_2.
Qed.



(** * Further properties of the script *)

(** ** What a run does to the world *)

Lemma get_loc_None_iff name cols : get_loc name cols = None ↔ name ∉ cols.
Proof.
  split; [apply get_loc_None|]. intros Hn.
  destruct (get_loc name cols) as [j|] eqn:E; [|done].
  exfalso. apply Hn. apply get_loc_Some in E. by eapply list_elem_of_lookup_2.
Qed.

(** The exceptions of the four steps: a missing date label, or a failure
    of [pd.to_datetime]. *)
Lemma transform_Raise df e :
  transform df = Raise e →
  (e = KeyError "Order Date" ∧ ("Order Date" ∉ columns df))
  ∨ (e = KeyError "Ship Date" ∧ ("Ship Date" ∉ columns df)
     ∧ ∃ df1, fix_date "Order Date" df = Ok df1)
  ∨ parse_failure e.
Proof.
  unfold transform.
  destruct (fix_date "Order Date" df) as [df1|e1] eqn:F1; simpl.
  - assert (columns df1 = columns df) as Hcols.
    { rewrite fix_date_unfold in F1.
      destruct (get_loc "Order Date" (columns df)); [|done].
      destruct (is_bool_dtype _); [done|].
      destruct (traverse _ _); [|done]. simpl in F1. by injection F1 as <-. }
    destruct (fix_date "Ship Date" df1) as [df2|e2] eqn:F2; simpl; [done|].
    intros [= <-].
    destruct (get_loc "Ship Date" (columns df1)) as [j2|] eqn:E2.
    + right. right. by eapply fix_date_Raise.
    + right. left. rewrite fix_date_unfold, E2 in F2. injection F2 as <-.
      split_and!; [done| |by eauto].
      rewrite <- Hcols. by apply get_loc_None_iff.
  - intros [= <-].
    destruct (get_loc "Order Date" (columns df)) as [j1|] eqn:E1.
    + right. right. by eapply fix_date_Raise.
    + left. rewrite fix_date_unfold, E1 in F1. injection F1 as <-.
      split; [done|]. by apply get_loc_None_iff.
Qed.

(** X1. A run that fails before the table is cleaned changes nothing: when
    the input file is missing, the script raises [FileNotFoundError]; when
    the file is there, with a header and one field per label in every
    record, and no label is exactly [Order Date], the script raises
    [KeyError]; either way the world is as it was, no file written and
    nothing printed. *)
Theorem X1_missing_file_or_label_changes_nothing w :
  (files w !! input_path = None →
   main w = (Raise (FileNotFoundError input_path), w))
  ∧ (∀ f, files w !! input_path = Some f → rectangular f →
       "Order Date" ∉ header f →
       main w = (Raise (KeyError "Order Date"), w)).
Proof.
  split; [apply main_no_input|].
  intros f Hf _ Hn. rewrite (main_unfold w f Hf).
  assert (transform (parse_csv f) = Raise (KeyError "Order Date")) as ->; [|done].
  unfold transform. rewrite fix_date_unfold.
  apply get_loc_None_iff in Hn. simpl. by rewrite Hn.
Qed.

Lemma X1_missing_file_or_label_changes_nothing_witness :
  main (World ∅ []) = (Raise (FileNotFoundError input_path), World ∅ [])
  ∧ main (World {[ input_path := no_order_date_input ]} [])
    = (Raise (KeyError "Order Date"), World {[ input_path := no_order_date_input ]} []).
Proof.
  split.
  - apply (proj1 (X1_missing_file_or_label_changes_nothing (World ∅ []))).
    reflexivity.
  - apply (proj2 (X1_missing_file_or_label_changes_nothing
                    (World {[ input_path := no_order_date_input ]} []))
                 no_order_date_input).
    + reflexivity.
    + split; [discriminate|]. repeat constructor.
    + apply (bool_decide_unpack _). vm_compute. exact I.
Defined.

(** X2. A run that succeeds has read the input file and changed one
    thing in the file system: the output path now holds the cleaned
    table; every other path, the input file among them, is as before; and
    one line, the message, has been printed. *)
Theorem X2_success_writes_only_the_output w :
  fst (main w) = Ok tt →
  ∃ f df',
    files w !! input_path = Some f
    ∧ transform (parse_csv f) = Ok df'
    ∧ files (snd (main w)) !! output_path = Some (frame_to_csv df')
    ∧ (∀ p, p ≠ output_path → files (snd (main w)) !! p = files w !! p)
    ∧ files (snd (main w)) !! input_path = Some f
    ∧ stdout (snd (main w)) = (stdout w ++ [message])%list.
Proof.
  intros Hok. destruct (files w !! input_path) as [f|] eqn:Hf.
  2:{ by rewrite (main_no_input w Hf) in Hok. }
  rewrite (main_unfold w f Hf) in Hok |- *.
  destruct (transform (parse_csv f)) as [df'|] eqn:Ht; [|done].
  exists f, df'. simpl. split_and!; try done.
  - by rewrite lookup_insert_eq.
  - intros p Hp. by rewrite lookup_insert_ne.
  - by rewrite lookup_insert_ne.
Qed.

Lemma X2_success_writes_only_the_output_witness :
  fst (main scenario_world) = Ok tt
  ∧ ∃ f df',
      files scenario_world !! input_path = Some f
      ∧ transform (parse_csv f) = Ok df'
      ∧ files (snd (main scenario_world)) !! output_path = Some (frame_to_csv df')
      ∧ (∀ p, p ≠ output_path →
           files (snd (main scenario_world)) !! p = files scenario_world !! p)
      ∧ files (snd (main scenario_world)) !! input_path = Some f
      ∧ stdout (snd (main scenario_world)) = (stdout scenario_world ++ [message])%list.
Proof.
  assert (fst (main scenario_world) = Ok tt) as E by (vm_compute; reflexivity).
  split; [exact E|]. exact (X2_success_writes_only_the_output _ E).
Defined.

(** X3. The script raises [FileNotFoundError] exactly when the input file
    is absent, and then for the input path. *)
Theorem X3_file_not_found_iff_input_absent w p :
  fst (main w) = Raise (FileNotFoundError p)
  ↔ p = input_path ∧ files w !! input_path = None.
Proof.
  split.
  - destruct (files w !! input_path) as [f|] eqn:Hf.
    + rewrite (main_unfold w f Hf).
      destruct (transform (parse_csv f)) as [df'|e] eqn:Ht; simpl; [done|].
      intros [= ->].
      apply transform_Raise in Ht as [[? _]|[[? _]|[?|[v ?]]]]; done.
    + rewrite (main_no_input w Hf). simpl. by intros [= <-].
  - intros [-> Hf]. by rewrite (main_no_input w Hf).
Qed.


(** X5. A run that raises [KeyError] for [Ship Date] has found the label
    [Order Date] and not the label [Ship Date]; and when the file has a
    header and one field per label in every record, no label is exactly
    [Ship Date], and the Order Date column converts, the script raises
    [KeyError] for [Ship Date] and leaves the world as it was. *)
Theorem X5_key_error_ship_date w f :
  files w !! input_path = Some f →
  (fst (main w) = Raise (KeyError "Ship Date") →
   ("Ship Date" ∉ header f) ∧ "Order Date" ∈ header f)
  ∧ (rectangular f → "Ship Date" ∉ header f →
     ∀ df1, fix_date "Order Date" (parse_csv f) = Ok df1 →
            main w = (Raise (KeyError "Ship Date"), w)).
Proof.
  intros Hf. rewrite (main_unfold w f Hf). split.
  - destruct (transform (parse_csv f)) as [df'|e] eqn:Ht; simpl; [done|].
    intros [= ->].
    apply transform_Raise in Ht as [[? _]|[(_ & ? & df1 & F1)|[?|[v ?]]]]; try done.
    split; [done|]. rewrite fix_date_unfold in F1.
    destruct (get_loc "Order Date" (columns (parse_csv f))) as [j|] eqn:E; [|done].
    apply get_loc_Some in E. by eapply list_elem_of_lookup_2.
  - intros _ Hn df1 F1.
    assert (transform (parse_csv f) = Raise (KeyError "Ship Date")) as ->; [|done].
    unfold transform. rewrite F1. simpl.
    assert (columns df1 = header f) as Hcols.
    { rewrite fix_date_unfold in F1.
      destruct (get_loc "Order Date" (columns (parse_csv f))); [|done].
      destruct (is_bool_dtype _); [done|].
      destruct (traverse _ _); [|done]. simpl in F1. by injection F1 as <-. }
    rewrite fix_date_unfold, Hcols.
    apply get_loc_None_iff in Hn. by rewrite Hn.
Qed.

Lemma X5_key_error_ship_date_witness :
  files (World {[ input_path := no_ship_date_input ]} []) !! input_path
  = Some no_ship_date_input
  ∧ rectangular no_ship_date_input
  ∧ ("Ship Date" ∉ header no_ship_date_input)
  ∧ fix_date "Order Date" (parse_csv no_ship_date_input)
    = Ok (Frame ["Order Date"; "Sales"]
            [[Timestamp (Date 2022 1 2); Int 10]; [Missing; Int 7]])
  ∧ main (World {[ input_path := no_ship_date_input ]} [])
    = (Raise (KeyError "Ship Date"), World {[ input_path := no_ship_date_input ]} []).
Proof.
  assert (rectangular no_ship_date_input) as Hr.
  { split; [discriminate|]. repeat constructor. }
  assert ("Ship Date" ∉ header no_ship_date_input) as Hn.
  { apply (bool_decide_unpack _). vm_compute. exact I. }
  assert (fix_date "Order Date" (parse_csv no_ship_date_input)
          = Ok (Frame ["Order Date"; "Sales"]
                  [[Timestamp (Date 2022 1 2); Int 10]; [Missing; Int 7]])) as Hd.
  { vm_compute. reflexivity. }
  split; [reflexivity|]. split; [exact Hr|]. split; [exact Hn|]. split; [exact Hd|].
  exact (proj2 (X5_key_error_ship_date
                  (World {[ input_path := no_ship_date_input ]} [])
                  no_ship_date_input eq_refl) Hr Hn _ Hd).
Defined.



(** A date label with whitespace around it is not found, though trimming
    would have made it the label that is looked up. *)
Example padded_date_label_is_a_key_error :
  fst (main (World {[ input_path :=
                        CsvFile [" Order Date"; "Ship Date"]
                                [["01/02/2022"; "01/05/2022"]] ]} []))
  = Raise (KeyError "Order Date")
  ∧ strip " Order Date" = "Order Date".
Proof. split; vm_compute; reflexivity. Qed.

(** ** Rows through the four steps *)

Lemma select_Forall2 {A B} (R : A → B → Prop) mask l k :
  Forall2 R l k → Forall2 R (select mask l) (select mask k).
Proof.
  intros H. revert mask. induction H as [|x y l k Hxy _ IH]; intros [|[] mask];
    simpl; try constructor; auto.
Qed.

Lemma select_length_le {A} mask (l : list A) :
  (length (select mask l) ≤ length l)%nat.
Proof. apply sublist_length, select_sublist. Qed.

(** The table just before duplicates are dropped: row by row, the two
    date cells converted and the text cells trimmed. *)
Lemma transform_images df df' :
  transform df = Ok df' →
  ∃ j1 j2 ts,
    get_loc "Order Date" (columns df) = Some j1
    ∧ get_loc "Ship Date" (columns df) = Some j2
    ∧ j1 ≠ j2
    ∧ Forall2 (λ r t, ∃ r1 r2, fix_row j1 r = Ok r1 ∧ fix_row j2 r1 = Ok r2
                               ∧ t = map strip_cell r2) (rows df) ts
    ∧ columns df' = map strip (columns df)
    ∧ rows df'
      = map (fill_row (fills_of (Frame (map strip (columns df)) (distinct_from [] ts))
                                fill_values))
            (distinct_from [] ts).
Proof.
  intros (j1 & j2 & rs1 & rs2 & E1 & E2 & T1 & T2 & ->)%transform_Ok.
  exists j1, j2, (map (map strip_cell) rs2). split_and!; try done.
  - intros ->. apply get_loc_Some in E1, E2. congruence.
  - apply traverse_Ok in T1. apply traverse_Ok in T2.
    apply Forall2_fmap_r.
    clear E1 E2. revert rs2 T2.
    induction T1 as [|r r1 rs rs1' Hr _ IH]; intros rs2 T2.
    + apply Forall2_nil_inv_l in T2 as ->. constructor.
    + apply Forall2_cons_inv_l in T2 as (r2 & rs2' & Hr2 & T2 & ->).
      constructor; [by exists r1, r2|]. by apply IH.
Qed.

(** The cells of the row just before duplicates are dropped. *)
Lemma image_cells j1 j2 r r1 r2 :
  j1 ≠ j2 → fix_row j1 r = Ok r1 → fix_row j2 r1 = Ok r2 →
  length (map strip_cell r2) = length r
  ∧ ∀ k c, r !! k = Some c →
      ∃ c', map strip_cell r2 !! k = Some c'
        ∧ if decide (k = j1 ∨ k = j2) then to_datetime_cell c = Ok c'
          else c' = strip_cell c.
Proof.
  intros Hne [L1 H1]%fix_row_Ok [L2 H2]%fix_row_Ok. split.
  { rewrite length_map. congruence. }
  intros k c Hk. rewrite list_lookup_fmap. specialize (H1 k c Hk).
  destruct (decide (k = j1)) as [->|Hk1].
  - destruct H1 as (c1 & Hc1 & Hr1). specialize (H2 j1 c1 Hr1).
    rewrite decide_False in H2 by done. rewrite H2. simpl.
    rewrite (strip_cell_date _ _ Hc1). exists c1. split; [done|].
    by rewrite decide_True by auto.
  - specialize (H2 k c H1). destruct (decide (k = j2)) as [->|Hk2].
    + destruct H2 as (c2 & Hc2 & Hr2). rewrite Hr2. simpl.
      rewrite (strip_cell_date _ _ Hc2). exists c2. split; [done|].
      by rewrite decide_True by auto.
    + rewrite H2. simpl. eexists. split; [done|].
      rewrite decide_False; [done|]. intros [?|?]; done.
Qed.

(** X7. The script keeps the shape of the table: the labels are the input
    labels, trimmed, in the same order; no row is added; the table comes
    out empty only if it went in empty; and rows of [n] cells come out as
    rows of [n] cells. *)
Theorem X7_shape_is_kept df df' :
  transform df = Ok df' →
  columns df' = map strip (columns df)
  ∧ length (columns df') = length (columns df)
  ∧ (length (rows df') ≤ length (rows df))%nat
  ∧ (rows df' = [] ↔ rows df = [])
  ∧ ∀ n, Forall (λ r, length r = n) (rows df) → Forall (λ r, length r = n) (rows df').
Proof.
  intros Ht. destruct (transform_rows _ _ Ht) as (Hcols & Hback & Hforth).
  destruct (transform_images _ _ Ht) as (j1 & j2 & ts & _ & _ & _ & HF & _ & Hrows).
  split_and!.
  - done.
  - by rewrite Hcols, length_map.
  - rewrite Hrows, length_map. apply Forall2_length in HF. rewrite HF.
    apply select_length_le.
  - split.
    + intros Hnil. destruct (rows df) as [|r rs] eqn:Er; [done|].
      destruct (Hforth r) as (r' & Hr' & _); [by left|].
      rewrite Hnil in Hr'. by apply elem_of_nil in Hr'.
    + intros Hnil. destruct (rows df') as [|r' rs'] eqn:Er; [done|].
      destruct (Hback r') as (r & Hr & _); [by left|].
      rewrite Hnil in Hr. by apply elem_of_nil in Hr.
  - intros n Hn. apply Forall_forall. intros r' Hr'.
    destruct (Hback r' Hr') as (r & Hr & Hlen & _).
    rewrite Forall_forall in Hn. rewrite Hlen. by apply Hn.
Qed.

Lemma X7_shape_is_kept_witness :
  transform padded_frame
  = Ok (Frame ["Order Date"; "Ship Date"; "Region"]
          [[Timestamp (Date 2022 1 2); Timestamp (Date 2022 1 5); Str "West"]])
  ∧ ["Order Date"; "Ship Date"; "Region"] = map strip (columns padded_frame)
  ∧ length ["Order Date"; "Ship Date"; "Region"] = length (columns padded_frame)
  ∧ (length [[Timestamp (Date 2022 1 2); Timestamp (Date 2022 1 5); Str "West"]]
     ≤ length (rows padded_frame))%nat
  ∧ ([[Timestamp (Date 2022 1 2); Timestamp (Date 2022 1 5); Str "West"]] = []
     ↔ rows padded_frame = [])
  ∧ ∀ n, Forall (λ r, length r = n) (rows padded_frame) →
         Forall (λ r, length r = n)
                [[Timestamp (Date 2022 1 2); Timestamp (Date 2022 1 5); Str "West"]].
Proof.
  assert (transform padded_frame
    = Ok (Frame ["Order Date"; "Ship Date"; "Region"]
            [[Timestamp (Date 2022 1 2); Timestamp (Date 2022 1 5); Str "West"]]))
    as E by (vm_compute; reflexivity).
  split; [exact E|]. exact (X7_shape_is_kept _ _ E).
Defined.

(** X8. The rows of the output are in the order of the input: they are
    the cleaned forms, one for one and in order, of a subsequence of the
    input rows. *)
Theorem X8_order_of_rows_is_kept df df' :
  transform df = Ok df' →
  ∃ kept, kept `sublist_of` rows df
          ∧ Forall2 (cleaned_row (columns df)) kept (rows df').
Proof.
  intros Ht.
  destruct (transform_images _ _ Ht) as (j1 & j2 & ts & E1 & E2 & _ & HF & _ & Hrows).
  exists (select (map negb (duplicated ts)) (rows df)).
  split; [apply select_sublist|].
  rewrite Hrows. apply Forall2_fmap_r.
  change (distinct_from [] ts) with (select (map negb (duplicated ts)) ts) at 2.
  apply select_Forall2.
  eapply Forall2_impl; [exact HF|].
  intros r t (r1 & r2 & F1 & F2 & ->). simpl. by eapply fix_rows_cleaned.
Qed.

Lemma X8_order_of_rows_is_kept_witness :
  transform three_rows_frame
  = Ok (Frame ["Order Date"; "Ship Date"; "Region"]
          [[Timestamp (Date 2022 1 2); Timestamp (Date 2022 1 5); Str "West"];
           [Timestamp (Date 2022 1 3); Timestamp (Date 2022 1 6); Str "East"]])
  ∧ ∃ kept, kept `sublist_of` rows three_rows_frame
      ∧ Forall2 (cleaned_row (columns three_rows_frame)) kept
          [[Timestamp (Date 2022 1 2); Timestamp (Date 2022 1 5); Str "West"];
           [Timestamp (Date 2022 1 3); Timestamp (Date 2022 1 6); Str "East"]].
Proof.
  assert (transform three_rows_frame
    = Ok (Frame ["Order Date"; "Ship Date"; "Region"]
            [[Timestamp (Date 2022 1 2); Timestamp (Date 2022 1 5); Str "West"];
             [Timestamp (Date 2022 1 3); Timestamp (Date 2022 1 6); Str "East"]]))
    as E by (vm_compute; reflexivity).
  split; [exact E|]. exact (X8_order_of_rows_is_kept _ _ E).
Defined.

(** ** Rows that the script merges *)

Lemma distinct_from_length_le seen rs :
  (length (distinct_from seen rs) ≤ length rs)%nat.
Proof. apply select_length_le. Qed.

Lemma distinct_from_length_seen seen rs r :
  r ∈ rs → r ∈ seen → (length (distinct_from seen rs) < length rs)%nat.
Proof.
  revert seen. induction rs as [|x rs IH]; intros seen Hin Hs.
  - by apply elem_of_nil in Hin.
  - rewrite distinct_from_cons. destruct (existsb (row_eqb x) seen) eqn:E.
    + simpl. pose proof (distinct_from_length_le seen rs). lia.
    + apply elem_of_cons in Hin as [->|Hin].
      * apply existsb_row_eqb in Hs. congruence.
      * simpl. assert (r ∈ x :: seen) as Hs' by by right.
        specialize (IH (x :: seen) Hin Hs'). lia.
Qed.

(** A row that occurs twice costs the table a row. *)
Lemma distinct_from_length_dup seen rs i j r :
  (i < j)%nat → rs !! i = Some r → rs !! j = Some r →
  (length (distinct_from seen rs) < length rs)%nat.
Proof.
  revert seen i j. induction rs as [|x rs IH]; intros seen i j Hij Hi Hj; [done|].
  rewrite distinct_from_cons.
  destruct j as [|j]; [lia|]. simpl in Hj.
  destruct i as [|i]; simpl in Hi.
  - injection Hi as ->. destruct (existsb (row_eqb r) seen) eqn:E; simpl.
    + pose proof (distinct_from_length_le seen rs). lia.
    + assert (length (distinct_from (r :: seen) rs) < length rs)%nat.
      { eapply distinct_from_length_seen; [by eapply list_elem_of_lookup_2|by left]. }
      lia.
  - assert (i < j)%nat as Hij' by lia.
    destruct (existsb (row_eqb x) seen); simpl.
    + specialize (IH seen i j Hij' Hi Hj). lia.
    + specialize (IH (x :: seen) i j Hij' Hi Hj). lia.
Qed.

Lemma is_nat_string_trimmed s : is_nat_string s = true → strip s = s.
Proof.
  unfold is_nat_string. intros [E|E]%orb_true_iff.
  - by apply String.eqb_eq in E as ->.
  - apply existsb_exists in E as (x & Hx & ->%String.eqb_eq).
    simpl in Hx. repeat (destruct Hx as [<-|Hx]; [vm_compute; reflexivity|]).
    done.
Qed.

(** What [to_datetime] accepts has no whitespace around it. *)
Lemma to_datetime_cell_trimmed c c' : to_datetime_cell c = Ok c' → strip_cell c = c.
Proof.
  destruct c as [s| | | | |]; try done. simpl.
  destruct (is_nat_string s) eqn:E.
  - intros _. f_equal. by apply is_nat_string_trimmed.
  - destruct (strptime s) as [d|] eqn:E'; [|done]. intros _. f_equal.
    by apply strptime_shape in E' as (_ & ? & _).
Qed.

(** Two rows whose cells agree once the dates are converted and the texts
    trimmed come out as one row. *)
Lemma rows_merged df df' i j ra rb :
  transform df = Ok df' → (i < j)%nat →
  rows df !! i = Some ra → rows df !! j = Some rb →
  length ra = length rb →
  (∀ k ca cb, ra !! k = Some ca → rb !! k = Some cb →
     if decide (get_loc "Order Date" (columns df) = Some k
                ∨ get_loc "Ship Date" (columns df) = Some k)
     then ∀ x y, to_datetime_cell ca = Ok x → to_datetime_cell cb = Ok y → x = y
     else strip_cell ca = strip_cell cb) →
  (length (rows df') < length (rows df))%nat
  ∧ ∃ r', r' ∈ rows df' ∧ cleaned_row (columns df) ra r'
          ∧ cleaned_row (columns df) rb r'.
Proof.
  intros Ht Hij Hi Hj Hlen Hcells.
  destruct (transform_images _ _ Ht)
    as (j1 & j2 & ts & E1 & E2 & Hne & HF & _ & Hrows).
  destruct (Forall2_lookup_l _ _ _ _ _ HF Hi) as (ta & Hta & a1 & a2 & Fa1 & Fa2 & ->).
  destruct (Forall2_lookup_l _ _ _ _ _ HF Hj) as (tb & Htb & b1 & b2 & Fb1 & Fb2 & ->).
  destruct (image_cells _ _ _ _ _ Hne Fa1 Fa2) as [La Ha].
  destruct (image_cells _ _ _ _ _ Hne Fb1 Fb2) as [Lb Hb].
  assert (map strip_cell a2 = map strip_cell b2) as Heq.
  { apply list_eq. intros k.
    destruct (ra !! k) as [ca|] eqn:Eka.
    - destruct (lookup_lt_is_Some_2 rb k) as [cb Ekb].
      { rewrite <- Hlen. by eapply lookup_lt_Some. }
      destruct (Ha k ca Eka) as (xa & Hxa & Ca).
      destruct (Hb k cb Ekb) as (xb & Hxb & Cb).
      rewrite Hxa, Hxb. f_equal. specialize (Hcells k ca cb Eka Ekb).
      destruct (decide (k = j1 ∨ k = j2)) as [Hd|Hd].
      + rewrite decide_True in Hcells by (destruct Hd as [-> | ->]; auto).
        by apply Hcells.
      + rewrite decide_False in Hcells; [congruence|].
        intros [H|H]; apply Hd; [left|right]; congruence.
    - apply lookup_ge_None_1 in Eka.
      rewrite !lookup_ge_None_2; [done| |]; lia. }
  split.
  - rewrite Hrows, length_map. apply Forall2_length in HF. rewrite HF.
    eapply distinct_from_length_dup; [exact Hij|exact Hta|]. by rewrite Heq.
  - eexists. split.
    + rewrite Hrows. apply list_elem_of_fmap. eexists. split; [reflexivity|].
      destruct (distinct_from_complete [] ts (map strip_cell a2))
        as [?%elem_of_nil|?]; [by eapply list_elem_of_lookup_2|done|done].
    + split; [by eapply fix_rows_cleaned|].
      rewrite Heq. by eapply fix_rows_cleaned.
Qed.

(** X9. Two rows that differ only by whitespace around their texts are
    merged: the table loses a row, and one row of the output is the cleaned
    form of both. *)
Theorem X9_rows_equal_after_trimming_are_merged df df' i j ra rb :
  transform df = Ok df' → (i < j)%nat →
  rows df !! i = Some ra → rows df !! j = Some rb →
  map strip_cell ra = map strip_cell rb →
  (length (rows df') < length (rows df))%nat
  ∧ ∃ r', r' ∈ rows df' ∧ cleaned_row (columns df) ra r'
          ∧ cleaned_row (columns df) rb r'.
Proof.
  intros Ht Hij Hi Hj Heq. eapply rows_merged; try done.
  - by rewrite <- (length_map strip_cell ra), Heq, length_map.
  - intros k ca cb Ha Hb.
    assert (strip_cell ca = strip_cell cb) as Hs.
    { apply (f_equal (.!! k)) in Heq.
      rewrite !list_lookup_fmap, Ha, Hb in Heq. by injection Heq. }
    case_decide; [|done]. intros x y Hx Hy.
    pose proof (to_datetime_cell_trimmed _ _ Hx) as Hx'.
    pose proof (to_datetime_cell_trimmed _ _ Hy) as Hy'.
    congruence.
Qed.

Lemma X9_rows_equal_after_trimming_are_merged_witness :
  transform three_rows_frame
  = Ok (Frame ["Order Date"; "Ship Date"; "Region"]
          [[Timestamp (Date 2022 1 2); Timestamp (Date 2022 1 5); Str "West"];
           [Timestamp (Date 2022 1 3); Timestamp (Date 2022 1 6); Str "East"]])
  ∧ (length [[Timestamp (Date 2022 1 2); Timestamp (Date 2022 1 5); Str "West"];
             [Timestamp (Date 2022 1 3); Timestamp (Date 2022 1 6); Str "East"]]
     < length (rows three_rows_frame))%nat
  ∧ ∃ r', r' ∈ [[Timestamp (Date 2022 1 2); Timestamp (Date 2022 1 5); Str "West"];
                [Timestamp (Date 2022 1 3); Timestamp (Date 2022 1 6); Str "East"]]
      ∧ cleaned_row (columns three_rows_frame)
          [Str "01/02/2022"; Str "01/05/2022"; Str "West"] r'
      ∧ cleaned_row (columns three_rows_frame)
          [Str "01/02/2022"; Str "01/05/2022"; Str " West "] r'.
Proof.
  assert (transform three_rows_frame
    = Ok (Frame ["Order Date"; "Ship Date"; "Region"]
            [[Timestamp (Date 2022 1 2); Timestamp (Date 2022 1 5); Str "West"];
             [Timestamp (Date 2022 1 3); Timestamp (Date 2022 1 6); Str "East"]]))
    as E by (vm_compute; reflexivity).
  split; [exact E|].
  apply (X9_rows_equal_after_trimming_are_merged three_rows_frame _ 0 1 _ _ E);
    [lia|reflexivity|reflexivity|vm_compute; reflexivity].
Defined.

(** X10. Two rows that differ only in how a date cell spells the same
    date (or the same missing time) are merged. *)
Theorem X10_same_date_spelled_twice_is_merged df df' i j k ra ca cb :
  transform df = Ok df' → (i < j)%nat →
  get_loc "Order Date" (columns df) = Some k
  ∨ get_loc "Ship Date" (columns df) = Some k →
  rows df !! i = Some ra → ra !! k = Some ca →
  rows df !! j = Some (<[k := cb]> ra) →
  to_datetime_cell ca = to_datetime_cell cb →
  (length (rows df') < length (rows df))%nat
  ∧ ∃ r', r' ∈ rows df' ∧ cleaned_row (columns df) ra r'
          ∧ cleaned_row (columns df) (<[k := cb]> ra) r'.
Proof.
  intros Ht Hij Hk Hi Hca Hj Hconv. eapply rows_merged; try done.
  - by rewrite length_insert.
  - intros k' xa xb Ha Hb. destruct (decide (k' = k)) as [->|Hk'].
    + rewrite decide_True by done.
      rewrite list_lookup_insert_eq in Hb by (by eapply lookup_lt_Some).
      intros x y Hx Hy. congruence.
    + rewrite list_lookup_insert_ne in Hb by done.
      assert (xa = xb) as -> by congruence.
      case_decide; [congruence|done].
Qed.

Lemma X10_same_date_spelled_twice_is_merged_witness :
  transform respelled_frame
  = Ok (Frame ["Order Date"; "Ship Date"; "Region"]
          [[Timestamp (Date 2022 1 2); Timestamp (Date 2022 1 5); Str "West"]])
  ∧ (length [[Timestamp (Date 2022 1 2); Timestamp (Date 2022 1 5); Str "West"]]
     < length (rows respelled_frame))%nat
  ∧ ∃ r', r' ∈ [[Timestamp (Date 2022 1 2); Timestamp (Date 2022 1 5); Str "West"]]
      ∧ cleaned_row (columns respelled_frame)
          [Str "1/2/2022"; Str "01/05/2022"; Str "West"] r'
      ∧ cleaned_row (columns respelled_frame)
          (<[0%nat := Str "01/02/2022"]>
             [Str "1/2/2022"; Str "01/05/2022"; Str "West"]) r'.
Proof.
  assert (transform respelled_frame
    = Ok (Frame ["Order Date"; "Ship Date"; "Region"]
            [[Timestamp (Date 2022 1 2); Timestamp (Date 2022 1 5); Str "West"]]))
    as E by (vm_compute; reflexivity).
  split; [exact E|].
  apply (X10_same_date_spelled_twice_is_merged respelled_frame _ 0 1 0
           [Str "1/2/2022"; Str "01/05/2022"; Str "West"]
           (Str "1/2/2022") (Str "01/02/2022") E);
    [lia|left; reflexivity|reflexivity|reflexivity|reflexivity
    |vm_compute; reflexivity].
Defined.

(** ** The fill columns *)

Lemma fill_column_not_date cols k name :
  cols !! k = Some name → strip name ∈ fill_keys →
  ¬ (get_loc "Order Date" cols = Some k ∨ get_loc "Ship Date" cols = Some k).
Proof.
  intros Hk Hs [H|H]; apply get_loc_Some in H;
    (eapply strip_date_label; [|exact Hs]); [left|right]; congruence.
Qed.

Lemma cleaned_cell_fill_column cols k name c c' :
  cols !! k = Some name → strip name ∈ fill_keys →
  cleaned_cell cols k c c' ↔ if isna c then is_zero c' else c' = strip_cell c.
Proof.
  intros Hk Hs. unfold cleaned_cell.
  rewrite decide_False by by eapply fill_column_not_date.
  rewrite Hk, bool_decide_eq_true_2 by done. done.
Qed.

(** X11. In a column that is filled, only the missing cells change: a
    value that is present stays (trimmed when it is text), also a text that
    trimming leaves empty; and every cell of the column in the output is a
    zero standing for a missing cell, or the input cell. *)
Theorem X11_present_values_are_not_filled df df' k name :
  transform df = Ok df' →
  columns df !! k = Some name → strip name ∈ fill_keys →
  (∀ r c, r ∈ rows df → r !! k = Some c → c ≠ Missing →
     ∃ r', r' ∈ rows df' ∧ cleaned_row (columns df) r r'
           ∧ r' !! k = Some (strip_cell c))
  ∧ (∀ r' c', r' ∈ rows df' → r' !! k = Some c' →
     ∃ r c, r ∈ rows df ∧ cleaned_row (columns df) r r' ∧ r !! k = Some c
            ∧ if isna c then is_zero c' else c' = strip_cell c).
Proof.
  intros Ht Hk Hs. destruct (transform_rows _ _ Ht) as (_ & Hback & Hforth).
  split.
  - intros r c Hr Hc Hne. destruct (Hforth r Hr) as (r' & Hr' & Hclean).
    exists r'. split; [done|]. split; [done|].
    destruct Hclean as [_ Hcells]. destruct (Hcells k c Hc) as (c' & -> & Hcc).
    apply (cleaned_cell_fill_column _ _ _ _ _ Hk Hs) in Hcc.
    destruct c; try done; by rewrite Hcc.
  - intros r' c' Hr' Hc'. destruct (Hback r' Hr') as (r & Hr & Hclean).
    destruct (lookup_lt_is_Some_2 r k) as [c Hc].
    { destruct Hclean as [<- _]. by eapply lookup_lt_Some. }
    exists r, c. split_and!; try done.
    destruct Hclean as [_ Hcells]. destruct (Hcells k c Hc) as (c'' & Hc'' & Hcc).
    assert (c'' = c') as -> by congruence.
    by apply (cleaned_cell_fill_column _ _ _ _ _ Hk Hs) in Hcc.
Qed.

Lemma X11_present_values_are_not_filled_witness :
  transform blank_sales_frame
  = Ok (Frame ["Order Date"; "Ship Date"; "Sales"]
          [[Timestamp (Date 2022 1 2); Timestamp (Date 2022 1 5); Str ""];
           [Timestamp (Date 2022 1 3); Timestamp (Date 2022 1 6); Int 0];
           [Timestamp (Date 2022 1 4); Timestamp (Date 2022 1 7); Str "12,5"]])
  ∧ (∀ r c, r ∈ rows blank_sales_frame → r !! 2%nat = Some c → c ≠ Missing →
       ∃ r', r' ∈ [[Timestamp (Date 2022 1 2); Timestamp (Date 2022 1 5); Str ""];
                   [Timestamp (Date 2022 1 3); Timestamp (Date 2022 1 6); Int 0];
                   [Timestamp (Date 2022 1 4); Timestamp (Date 2022 1 7); Str "12,5"]]
             ∧ cleaned_row (columns blank_sales_frame) r r'
             ∧ r' !! 2%nat = Some (strip_cell c))
  ∧ (∀ r' c',
       r' ∈ [[Timestamp (Date 2022 1 2); Timestamp (Date 2022 1 5); Str ""];
             [Timestamp (Date 2022 1 3); Timestamp (Date 2022 1 6); Int 0];
             [Timestamp (Date 2022 1 4); Timestamp (Date 2022 1 7); Str "12,5"]] →
       r' !! 2%nat = Some c' →
       ∃ r c, r ∈ rows blank_sales_frame ∧ cleaned_row (columns blank_sales_frame) r r'
              ∧ r !! 2%nat = Some c
              ∧ if isna c then is_zero c' else c' = strip_cell c).
Proof.
  assert (transform blank_sales_frame
    = Ok (Frame ["Order Date"; "Ship Date"; "Sales"]
            [[Timestamp (Date 2022 1 2); Timestamp (Date 2022 1 5); Str ""];
             [Timestamp (Date 2022 1 3); Timestamp (Date 2022 1 6); Int 0];
             [Timestamp (Date 2022 1 4); Timestamp (Date 2022 1 7); Str "12,5"]]))
    as E by (vm_compute; reflexivity).
  split; [exact E|].
  apply (X11_present_values_are_not_filled blank_sales_frame _ 2 " Sales" E);
    [reflexivity|].
  change (strip " Sales") with "Sales". by left.
Defined.

(** A field of blanks in a fill column is not a missing value: it is
    written as an empty field, not as a zero. *)
Example blank_field_in_a_fill_column :
  ∃ w', main (World {[ input_path :=
                         CsvFile ["Order Date"; "Ship Date"; "Sales"]
                                 [["01/02/2022"; "01/05/2022"; "  "];
                                  ["01/03/2022"; "01/06/2022"; ""];
                                  ["01/04/2022"; "01/07/2022"; "12,5"]] ]} [])
        = (Ok tt, w')
  ∧ files w' !! output_path
    = Some (CsvFile ["Order Date"; "Ship Date"; "Sales"]
                    [["2022-01-02"; "2022-01-05"; ""];
                     ["2022-01-03"; "2022-01-06"; "0"];
                     ["2022-01-04"; "2022-01-07"; "12,5"]]).
Proof. eexists. split; [vm_compute; reflexivity|]. vm_compute. reflexivity. Qed.



(** ** The date fields of the written file *)

Lemma isoformat_length d : String.length (isoformat d) = 10%nat.
Proof. reflexivity. Qed.

(** X13. After a run that succeeds, every field of the two date columns
    of the written file is empty or a date in the form YYYY-MM-DD, ten
    characters long, of a day that exists and that a nanosecond timestamp
    can hold. *)
Theorem X13_date_fields_of_the_output w f o j rec fld :
  files w !! input_path = Some f → fst (main w) = Ok tt →
  files (snd (main w)) !! output_path = Some o →
  get_loc "Order Date" (header f) = Some j
  ∨ get_loc "Ship Date" (header f) = Some j →
  rec ∈ records o → rec !! j = Some fld →
  fld = ""
  ∨ ∃ d, fld = isoformat d ∧ date_ok d = true ∧ in_ns_bounds d = true
         ∧ String.length fld = 10%nat.
Proof.
  intros Hf Hmain Hout Hj Hrec Hfld.
  rewrite (main_unfold _ _ Hf) in Hmain, Hout.
  destruct (transform (parse_csv f)) as [df'|e] eqn:Ht; [|done].
  cbn [fst snd files] in Hout. rewrite lookup_insert_eq in Hout.
  injection Hout as <-. cbn [records frame_to_csv] in Hrec.
  apply list_elem_of_fmap in Hrec as (r' & -> & Hr').
  rewrite list_lookup_fmap in Hfld.
  destruct (r' !! j) as [c'|] eqn:Ec'; [|done]. injection Hfld as <-.
  destruct (transform_rows _ _ Ht) as (_ & Hback & _).
  destruct (Hback r' Hr') as (r & Hr & Hlen & Hcells).
  destruct (lookup_lt_is_Some_2 r j) as [c Hc].
  { rewrite <- Hlen. by eapply lookup_lt_Some. }
  destruct (Hcells j c Hc) as (c'' & Hc'' & Hcc).
  assert (c'' = c') as -> by congruence.
  unfold cleaned_cell in Hcc. rewrite decide_True in Hcc by done.
  apply to_datetime_cell_valid in Hcc as [->|(d & -> & Hok & Hns)].
  - by left.
  - right. exists d. by split_and!.
  - intros d ->. eapply parse_csv_no_timestamp; [exact Hr|].
    by eapply list_elem_of_lookup_2.
Qed.

Lemma X13_date_fields_of_the_output_witness :
  files scenario_world !! input_path = Some scenario_input
  ∧ fst (main scenario_world) = Ok tt
  ∧ ∀ o rec fld,
      files (snd (main scenario_world)) !! output_path = Some o →
      rec ∈ records o → rec !! 0%nat = Some fld →
      fld = ""
      ∨ ∃ d, fld = isoformat d ∧ date_ok d = true ∧ in_ns_bounds d = true
             ∧ String.length fld = 10%nat.
Proof.
  assert (files scenario_world !! input_path = Some scenario_input) as Hf
    by (vm_compute; reflexivity).
  assert (fst (main scenario_world) = Ok tt) as Hm by (vm_compute; reflexivity).
  split; [exact Hf|]. split; [exact Hm|].
  intros o rec fld Ho.
  apply (X13_date_fields_of_the_output scenario_world scenario_input o 0 rec fld
           Hf Hm Ho).
  left. vm_compute. reflexivity.
Defined.

(** X14. The written form tells the date cells apart: two date cells of
    the cleaned table that are written as the same text are the same
    cell. *)
Theorem X14_date_cells_are_written_apart c1 c2 :
  date_cell_ok c1 → date_cell_ok c2 →
  render_cell c1 = render_cell c2 → c1 = c2.
Proof.
  intros [->|(d1 & -> & H1 & _)] [->|(d2 & -> & H2 & _)]; simpl; try done.
  unfold isoformat. intros H.
  apply str_app_inj_length in H as [Hy H]; [|reflexivity].
  apply (str_app_inj_length "-" _ "-" _) in H as [_ H]; [|reflexivity].
  apply str_app_inj_length in H as [Hm H]; [|reflexivity].
  apply (str_app_inj_length "-" _ "-" _) in H as [_ Hd]; [|reflexivity].
  destruct (date_ok_bounds _ H1) as (Y1 & M1 & D1).
  destruct (date_ok_bounds _ H2) as (Y2 & M2 & D2).
  destruct (pad4_written (year d1)) as [_ V1]; [lia|].
  destruct (pad4_written (year d2)) as [_ V2]; [lia|].
  destruct (pad2_written (month d1)) as [_ V3]; [lia|].
  destruct (pad2_written (month d2)) as [_ V4]; [lia|].
  destruct (pad2_written (day d1)) as [_ V5]; [lia|].
  destruct (pad2_written (day d2)) as [_ V6]; [lia|].
  rewrite Hy in V1. rewrite Hm in V3. rewrite Hd in V5.
  destruct d1, d2; simpl in *. f_equal. congruence.
Qed.

Lemma X14_date_cells_are_written_apart_witness :
  date_cell_ok (Timestamp (Date 2022 1 2))
  ∧ date_cell_ok (Timestamp (Date 2022 1 2))
  ∧ (render_cell (Timestamp (Date 2022 1 2)) = render_cell (Timestamp (Date 2022 1 2)) →
     Timestamp (Date 2022 1 2) = Timestamp (Date 2022 1 2)).
Proof.
  assert (date_cell_ok (Timestamp (Date 2022 1 2))) as H.
  { right. exists (Date 2022 1 2). split; [reflexivity|]. split; reflexivity. }
  split; [exact H|]. split; [exact H|].
  exact (X14_date_cells_are_written_apart _ _ H H).
Defined.

(** ** Integers written and read back *)

Lemma digits_acc_app acc a b :
  digits_acc acc (a +:+ b) = digits_acc acc a ≫= λ v, digits_acc v b.
Proof.
  revert acc. induction a as [|c a IH]; intros acc; simpl; [done|].
  destruct (is_digit c); [apply IH|done].
Qed.

Lemma pretty_N_char_digit n :
  (n < 10)%N →
  is_digit (pretty_N_char n) = true ∧ digit_val (pretty_N_char n) = Z.of_N n.
Proof.
  intros Hn.
  assert (n = 0 ∨ n = 1 ∨ n = 2 ∨ n = 3 ∨ n = 4 ∨ n = 5 ∨ n = 6 ∨ n = 7
          ∨ n = 8 ∨ n = 9)%N as H by lia.
  repeat (destruct H as [->|H]; [by vm_compute|]). subst. by vm_compute.
Qed.

(** The digits that [pretty] puts in front of the text it is given. *)
Lemma pretty_N_go_digits x s :
  ∃ ds p, pretty_N_go x s = ds +:+ s
          ∧ string_forallb is_digit ds = true
          ∧ ((0 < x)%N → ds ≠ "")
          ∧ ∀ acc, digits_acc acc ds = Some (acc * p + Z.of_N x).
Proof.
  revert s. induction (N.lt_wf_0 x) as [x _ IH]; intros s.
  destruct (decide (x = 0%N)) as [->|Hx].
  - exists "", 1. rewrite pretty_N_go_0. split_and!; try done.
    intros acc. simpl. f_equal. lia.
  - assert (0 < x)%N as Hpos by lia.
    rewrite pretty_N_go_step by done.
    destruct (IH (x `div` 10)%N (N.div_lt x 10 Hpos eq_refl)
                 (String (pretty_N_char (x `mod` 10)) s))
      as (ds & p & -> & Hds & _ & Hacc).
    destruct (pretty_N_char_digit (x `mod` 10)) as [Hd Hv].
    { by apply N.mod_lt. }
    exists (ds +:+ String (pretty_N_char (x `mod` 10)) ""), (10 * p).
    split_and!.
    + by rewrite str_app_assoc.
    + rewrite forallb_str_app, Hds. simpl. by rewrite Hd.
    + intros _. by destruct ds.
    + intros acc. rewrite digits_acc_app, Hacc. simpl. rewrite Hd, Hv. f_equal.
      rewrite (N.div_mod x 10) at 3 by done.
      rewrite N2Z.inj_add, N2Z.inj_mul. simpl Z.of_N. lia.
Qed.

Lemma pretty_N_digits (n : N) :
  string_forallb is_digit (pretty n) = true
  ∧ pretty n ≠ ""
  ∧ digits_value (pretty n) = Some (Z.of_N n).
Proof.
  unfold pretty, pretty_N. case_decide as Hn; [by subst|].
  destruct (pretty_N_go_digits n "") as (ds & p & -> & Hds & Hne & Hacc).
  rewrite str_app_nil_r.
  assert (ds ≠ "") as Hne' by (apply Hne; lia).
  split_and!; try done.
  unfold digits_value. destruct ds; [done|]. rewrite Hacc. f_equal; lia.
Qed.

Lemma digit_not_isspace c : is_digit c = true → isspace_ascii c = false.
Proof.
  unfold is_digit, isspace_ascii. intros H.
  apply andb_true_iff in H as [H1 H2].
  apply N.leb_le in H1. apply N.leb_le in H2.
  apply orb_false_iff. split; [apply andb_false_iff|apply N.eqb_neq].
  - right. apply N.leb_gt. lia.
  - lia.
Qed.

Lemma digit_not_sign c :
  is_digit c = true → is_char "-" c = false ∧ is_char "+" c = false.
Proof.
  unfold is_digit, is_char. intros H.
  apply andb_true_iff in H as [H1 H2].
  apply N.leb_le in H1. apply N.leb_le in H2.
  split; apply N.eqb_neq; simpl; lia.
Qed.

Lemma rstrip_digits_with p t :
  (∀ c, is_digit c = true → p c = false) →
  string_forallb is_digit t = true → rstrip_with p t = t.
Proof.
  intros Hp. induction t as [|c t IH]; simpl; [done|].
  intros [Hc Ht]%andb_true_iff. rewrite (IH Ht).
  destruct t; [|done]. by rewrite (Hp c Hc).
Qed.

(** [read_csv] reads the integer that [to_csv] wrote. *)
Lemma parse_int64_pretty (z : Z) :
  int64_min ≤ z ≤ int64_max → parse_int64 (pretty z) = Some z.
Proof.
  intros Hz. unfold pretty, pretty_Z.
  destruct z as [|q|q]; [done| |].
  - unfold pretty, pretty_positive.
    destruct (pretty_N_digits (N.pos q)) as (Hds & Hne & Hv).
    destruct (pretty (N.pos q)) as [|c r] eqn:E; [done|].
    pose proof Hds as Hds'. simpl in Hds'.
    apply andb_true_iff in Hds' as [Hc _].
    unfold parse_int64, strip_with.
    rewrite lstrip_fixed by (simpl; by apply digit_not_isspace).
    rewrite (rstrip_digits_with _ _ digit_not_isspace Hds).
    cbn [take_sign]. destruct (digit_not_sign c Hc) as [-> ->].
    rewrite Hv. cbn [mbind option_bind apply_sign]. simpl Z.of_N.
    destruct Hz as [?%Z.leb_le ?%Z.leb_le]. by rewrite andb_true_intro.
  - unfold pretty, pretty_positive.
    destruct (pretty_N_digits (N.pos q)) as (Hds & Hne & Hv).
    unfold parse_int64, strip_with.
    rewrite lstrip_fixed by done.
    rewrite rstrip_app.
    2:{ rewrite (rstrip_digits_with _ _ digit_not_isspace Hds). done. }
    rewrite (rstrip_digits_with _ _ digit_not_isspace Hds).
    cbn [String.append take_sign]. change (is_char "-" "-") with true. cbn iota.
    rewrite Hv. cbn [mbind option_bind apply_sign]. simpl Z.of_N.
    change (- Z.pos q) with (Z.neg q).
    destruct Hz as [?%Z.leb_le ?%Z.leb_le]. by rewrite andb_true_intro.
Qed.

(** None of the texts taken for a missing value reads as an integer. *)
Lemma is_na_not_integer f : is_na f = true → parse_int64 f = None.
Proof.
  unfold is_na. intros (x & Hx & ->%String.eqb_eq)%existsb_exists.
  simpl in Hx. repeat (destruct Hx as [<-|Hx]; [vm_compute; reflexivity|]).
  done.
Qed.

(** X15. A column of integers comes back as it was when it is written
    with [to_csv] and read with [read_csv]: no integer is written as a
    text that reads as a missing value, as a float or as another integer. *)
Theorem X15_integer_column_round_trip ns :
  Forall (λ n, int64_min ≤ n ≤ int64_max) ns →
  infer_column (map (λ n, render_cell (Int n)) ns) = map Int ns.
Proof.
  intros Hns. unfold infer_column. cbn [render_cell].
  assert (∀ n, n ∈ ns → is_na (pretty n) = false) as Hna.
  { intros n Hn. rewrite Forall_forall in Hns.
    destruct (is_na (pretty n)) eqn:E; [|done].
    apply is_na_not_integer in E. rewrite parse_int64_pretty in E by auto. done. }
  assert (try_column (λ f, Int <$> parse_int64 f) (map (λ n : Z, pretty n) ns)
          = Some (map Int ns)) as ->.
  { unfold try_column. apply mapM_Some. apply Forall2_fmap.
    apply Forall_Forall2_diag. apply Forall_forall. intros n Hn.
    rewrite (Hna n Hn). rewrite Forall_forall in Hns.
    by rewrite parse_int64_pretty by auto. }
  destruct (existsb is_na (map (λ n : Z, pretty n) ns)) eqn:E; [|done].
  apply existsb_exists in E as (x & Hx & Ex).
  apply in_map_iff in Hx as (n & <- & Hn%list_elem_of_In).
  by rewrite (Hna n Hn) in Ex.
Qed.

Lemma X15_integer_column_round_trip_witness :
  Forall (λ n, int64_min ≤ n ≤ int64_max) [5; -12; 0; int64_min; int64_max]
  ∧ infer_column (map (λ n, render_cell (Int n)) [5; -12; 0; int64_min; int64_max])
    = map Int [5; -12; 0; int64_min; int64_max].
Proof.
  assert (Forall (λ n, int64_min ≤ n ≤ int64_max) [5; -12; 0; int64_min; int64_max])
    as H.
  { repeat constructor; unfold int64_min, int64_max; lia. }
  split; [exact H|]. exact (X15_integer_column_round_trip _ H).
Defined.

(** ** What [strip] removes *)

Lemma ascii_of_N_of_ascii c n : N_of_ascii c = n → c = ascii_of_N n.
Proof. intros <-. by rewrite ascii_N_embedding. Qed.

(** X16. [strip] removes the whitespace characters of [str.isspace] at
    both ends and nothing else: the result of trimming [s] is the one text
    [t] with [s = pre t post], where [pre] and [post] are made of whitespace
    characters and [t] neither begins nor ends with one; and a whitespace
    character is the UTF-8 encoding of one of the code points U+0009 to
    U+000D, U+001C to U+0020, U+0085, U+00A0, U+1680, U+2000 to U+200A,
    U+2028, U+2029, U+202F, U+205F and U+3000. *)
Theorem X16_strip_is_the_text_between_the_blanks s t :
  (strip s = t ↔
   ∃ pre post, s = pre +:+ t +:+ post ∧ spaces pre ∧ spaces post ∧ trimmed t)
  ∧ ∀ w, space_char w = true ↔ ∃ cp, cp ∈ py_whitespace ∧ w = utf8 cp.
Proof.
  split; [apply strip_spec|]. intros w. split.
  - intros [Hne Hl]%space_char_len.
    destruct w as [|a [|b [|c [|d w]]]]; [done| | | |].
    + simpl in Hl. destruct (is_space a) eqn:Ea; [|done].
      unfold is_space in Ea. cbv zeta in Ea.
      assert (∃ n, N_of_ascii a = n ∧ n ∈ py_whitespace ∧ (n < 128)%N)
        as (n & Hn & Hin & Hlt).
      { exists (N_of_ascii a). split; [done|].
        bool_to_N; (split; [|lia]).
        - assert (N_of_ascii a = 9 ∨ N_of_ascii a = 10 ∨ N_of_ascii a = 11
                  ∨ N_of_ascii a = 12 ∨ N_of_ascii a = 13)%N as H' by lia.
          destruct H' as [->|[->|[->|[->| ->]]]];
            apply (bool_decide_unpack _); vm_compute; exact I.
        - assert (N_of_ascii a = 28 ∨ N_of_ascii a = 29 ∨ N_of_ascii a = 30
                  ∨ N_of_ascii a = 31 ∨ N_of_ascii a = 32)%N as H' by lia.
          destruct H' as [->|[->|[->|[->| ->]]]];
            apply (bool_decide_unpack _); vm_compute; exact I. }
      exists n. split; [done|]. unfold utf8.
      apply N.ltb_lt in Hlt. rewrite Hlt. f_equal. by apply ascii_of_N_of_ascii.
    + simpl in Hl. destruct (is_space a); [done|].
      destruct (is_space2 a b) eqn:E2; [|done].
      unfold is_space2 in E2. cbv zeta in E2. bool_to_N.
      * exists 133%N. split; [apply (bool_decide_unpack _); vm_compute; exact I|].
        rewrite (ascii_of_N_of_ascii a 194), (ascii_of_N_of_ascii b 133) by done.
        reflexivity.
      * exists 160%N. split; [apply (bool_decide_unpack _); vm_compute; exact I|].
        rewrite (ascii_of_N_of_ascii a 194), (ascii_of_N_of_ascii b 160) by done.
        reflexivity.
    + simpl in Hl. destruct (is_space a); [done|].
      destruct (is_space2 a b); [done|].
      destruct (is_space3 a b c) eqn:E3; [|done].
      unfold is_space3 in E3. cbv zeta in E3. bool_to_N.
      * exists 5760%N. split; [apply (bool_decide_unpack _); vm_compute; exact I|].
        rewrite (ascii_of_N_of_ascii a 225), (ascii_of_N_of_ascii b 154),
          (ascii_of_N_of_ascii c 128) by done.
        reflexivity.
      * assert (∃ k, (k ≤ 10)%N ∧ N_of_ascii c = (128 + k)%N) as (k & Hk & Hc).
        { exists (N_of_ascii c - 128)%N. lia. }
        exists (8192 + k)%N.
        rewrite (ascii_of_N_of_ascii a 226), (ascii_of_N_of_ascii b 128),
          (ascii_of_N_of_ascii c (128 + k)) by done.
        assert (k = 0 ∨ k = 1 ∨ k = 2 ∨ k = 3 ∨ k = 4 ∨ k = 5 ∨ k = 6 ∨ k = 7
                ∨ k = 8 ∨ k = 9 ∨ k = 10)%N as H' by lia.
        repeat (destruct H' as [->|H'];
                [split; [apply (bool_decide_unpack _); vm_compute; exact I
                        |reflexivity]|]).
        subst k.
        split; [apply (bool_decide_unpack _); vm_compute; exact I|reflexivity].
      * exists 8232%N. split; [apply (bool_decide_unpack _); vm_compute; exact I|].
        rewrite (ascii_of_N_of_ascii a 226), (ascii_of_N_of_ascii b 128),
          (ascii_of_N_of_ascii c 168) by done.
        reflexivity.
      * exists 8233%N. split; [apply (bool_decide_unpack _); vm_compute; exact I|].
        rewrite (ascii_of_N_of_ascii a 226), (ascii_of_N_of_ascii b 128),
          (ascii_of_N_of_ascii c 169) by done.
        reflexivity.
      * exists 8239%N. split; [apply (bool_decide_unpack _); vm_compute; exact I|].
        rewrite (ascii_of_N_of_ascii a 226), (ascii_of_N_of_ascii b 128),
          (ascii_of_N_of_ascii c 175) by done.
        reflexivity.
      * exists 8287%N. split; [apply (bool_decide_unpack _); vm_compute; exact I|].
        rewrite (ascii_of_N_of_ascii a 226), (ascii_of_N_of_ascii b 129),
          (ascii_of_N_of_ascii c 159) by done.
        reflexivity.
      * exists 12288%N. split; [apply (bool_decide_unpack _); vm_compute; exact I|].
        rewrite (ascii_of_N_of_ascii a 227), (ascii_of_N_of_ascii b 128),
          (ascii_of_N_of_ascii c 128) by done.
        reflexivity.
    + pose proof (space_len_le (String a (String b (String c (String d w))))) as H.
      exfalso. simpl in Hl.
      destruct (is_space a); [done|]. destruct (is_space2 a b); [done|].
      destruct (is_space3 a b c); done.
  - intros (cp & Hin & ->). unfold py_whitespace in Hin.
    repeat (apply elem_of_cons in Hin as [->|Hin]; [vm_compute; reflexivity|]).
    by apply elem_of_nil in Hin.
Qed.

(** ** What [read_csv] makes of the fields *)

Lemma try_column_cells conv fields cells :
  try_column conv fields = Some cells →
  length cells = length fields
  ∧ ∀ i f, fields !! i = Some f →
      ∃ c, cells !! i = Some c
           ∧ if is_na f then c = Missing else conv f = Some c.
Proof.
  unfold try_column. intros H%mapM_Some.
  split; [symmetry; by eapply Forall2_length|].
  intros i f Hi. destruct (Forall2_lookup_l _ _ _ _ _ H Hi) as (c & Hc & Hfc).
  exists c. split; [done|]. destruct (is_na f); congruence.
Qed.

Lemma infer_column_cells fields :
  length (infer_column fields) = length fields
  ∧ ∀ i f, fields !! i = Some f →
      ∃ c, infer_column fields !! i = Some c ∧ read_as f c.
Proof.
  unfold infer_column.
  destruct (try_column (λ f, Int <$> parse_int64 f) fields) as [cells|] eqn:E1.
  { apply try_column_cells in E1 as [L H]. destruct (existsb is_na fields).
    - split; [by rewrite length_map|]. intros i f Hi.
      destruct (H i f Hi) as (c & Hc & Hr).
      exists (upcast_int c). rewrite list_lookup_fmap, Hc. split; [done|].
      unfold read_as. destruct (is_na f); [by subst|].
      apply fmap_Some in Hr as (n & Hn & ->). simpl. right. eauto.
    - split; [done|]. intros i f Hi. destruct (H i f Hi) as (c & Hc & Hr).
      exists c. split; [done|]. unfold read_as. destruct (is_na f); [done|].
      by apply fmap_Some in Hr as (n & Hn & ->). }
  destruct (try_column (λ f, Float <$> parse_float f) fields) as [cells|] eqn:E2.
  { apply try_column_cells in E2 as [L H]. split; [done|]. intros i f Hi.
    destruct (H i f Hi) as (c & Hc & Hr).
    exists c. split; [done|]. unfold read_as. destruct (is_na f); [done|].
    apply fmap_Some in Hr as (x & Hx & ->). by left. }
  destruct (try_column (λ f, Bool <$> parse_bool f) fields) as [cells|] eqn:E3.
  { apply try_column_cells in E3 as [L H]. split; [done|]. intros i f Hi.
    destruct (H i f Hi) as (c & Hc & Hr).
    exists c. split; [done|]. unfold read_as. destruct (is_na f); [done|].
    by apply fmap_Some in Hr as (b & Hb & ->). }
  split; [by rewrite length_map|]. intros i f Hi.
  rewrite list_lookup_fmap, Hi. simpl. eexists. split; [done|].
  unfold read_as. by destruct (is_na f).
Qed.

Lemma parse_csv_length f : length (rows (parse_csv f)) = length (records f).
Proof. unfold parse_csv. cbn [rows]. by rewrite length_imap. Qed.

Lemma parse_csv_cells f i rec :
  records f !! i = Some rec →
  ∃ r, rows (parse_csv f) !! i = Some r ∧ length r = length (header f)
       ∧ ∀ j, (j < length (header f))%nat →
           ∃ c, r !! j = Some c ∧ read_as (default "" (rec !! j)) c.
Proof.
  intros Hi. unfold parse_csv. cbn [rows].
  rewrite list_lookup_imap, Hi. simpl. eexists. split; [done|].
  split; [by rewrite length_map, length_imap|].
  intros j Hj. rewrite list_lookup_fmap, list_lookup_imap.
  destruct (lookup_lt_is_Some_2 (header f) j Hj) as [name ->]. simpl.
  destruct (infer_column_cells (column_fields j (records f))) as [L H].
  destruct (H i (default "" (rec !! j))) as (c & Hc & Hr).
  { unfold column_fields. by rewrite list_lookup_fmap, Hi. }
  exists c. by rewrite Hc.
Qed.

(** ** The written file as an input *)

(** The ten characters of a written date. *)
Lemma isoformat_chars d :
  ∃ a1 a2 a3 a4 b1 b2 e1 e2,
    isoformat d
    = String a1 (String a2 (String a3 (String a4 (String "-"
        (String b1 (String b2 (String "-" (String e1 (String e2 "")))))))))
    ∧ is_digit a1 = true ∧ is_digit a2 = true ∧ is_digit a3 = true
    ∧ is_digit a4 = true ∧ is_digit b1 = true ∧ is_digit b2 = true
    ∧ is_digit e1 = true ∧ is_digit e2 = true.
Proof.
  do 8 eexists. split; [reflexivity|]. by rewrite !digit_char_is_digit.
Qed.

Lemma is_nat_string_isoformat d : is_nat_string (isoformat d) = false.
Proof.
  destruct (is_nat_string (isoformat d)) eqn:E; [|done].
  unfold is_nat_string in E. apply orb_true_iff in E as [E|E].
  - by apply String.eqb_eq in E.
  - apply existsb_exists in E as (x & Hx & Heq%String.eqb_eq).
    apply (f_equal String.length) in Heq. rewrite isoformat_length in Heq.
    simpl in Hx. repeat (destruct Hx as [<-|Hx]; [simpl in Heq; discriminate|]).
    done.
Qed.

Lemma is_na_isoformat d : is_na (isoformat d) = false.
Proof.
  destruct (is_na (isoformat d)) eqn:E; [|done].
  unfold is_na in E.
  apply existsb_exists in E as (x & Hx & Heq%String.eqb_eq).
  apply (f_equal String.length) in Heq. rewrite isoformat_length in Heq.
  simpl in Hx. repeat (destruct Hx as [<-|Hx]; [simpl in Heq; discriminate|]).
  done.
Qed.

(** A written date does not match the pattern of the input dates. *)
Lemma strptime_isoformat d : ∃ e, strptime (isoformat d) = Raise e.
Proof.
  destruct (strptime (isoformat d)) as [dt|e] eqn:E; [exfalso|by eauto].
  apply strptime_Ok in E as (m & dd & y & Hin & _).
  apply re_mdY_split in Hin as (Hs & (c & t & -> & _ & _ & Hm) & _).
  destruct (isoformat_chars d)
    as (a1 & a2 & a3 & a4 & b1 & b2 & e1 & e2 & Hiso & H1 & H2 & H3 & H4 & _).
  rewrite Hiso in Hs. simpl in Hs. injection Hs as -> Hs.
  destruct t as [|c2 t]; simpl in Hs; injection Hs as -> Hs; [done|].
  destruct t as [|c3 t]; simpl in Hs; injection Hs as -> Hs; [done|].
  destruct t as [|c4 t]; simpl in Hs; injection Hs as -> Hs; [done|].
  destruct t as [|c5 t]; simpl in Hs; [done|]. injection Hs as <- Hs.
  simpl in Hm. rewrite H1, H2, H3, H4 in Hm. done.
Qed.

Lemma rstrip_none p s :
  string_forallb (λ c, negb (p c)) s = true → rstrip_with p s = s.
Proof.
  induction s as [|c s IH]; simpl; [done|].
  intros [Hc Hs]%andb_true_iff. rewrite (IH Hs).
  destruct s; [|done]. by apply negb_true_iff in Hc as ->.
Qed.

Lemma upper_length s : String.length (upper s) = String.length s.
Proof. induction s as [|c s IH]; simpl; [done|]. by rewrite IH. Qed.

(** A written date is read back as the text it is: it is no number, no
    boolean and no missing value. *)
Lemma read_as_isoformat d c : read_as (isoformat d) c → c = Str (isoformat d).
Proof.
  unfold read_as. rewrite is_na_isoformat.
  destruct (isoformat_chars d)
    as (a1 & a2 & a3 & a4 & b1 & b2 & e1 & e2 & Hiso
        & H1 & H2 & H3 & H4 & H5 & H6 & H7 & H8).
  assert (strip_with isspace_ascii (isoformat d) = isoformat d) as Hstrip.
  { unfold strip_with. rewrite Hiso.
    rewrite lstrip_fixed by (simpl; by apply digit_not_isspace).
    apply rstrip_none. simpl.
    rewrite !digit_not_isspace by done. reflexivity. }
  assert (parse_int64 (isoformat d) = None) as Hint.
  { unfold parse_int64. rewrite Hstrip, Hiso. cbn [take_sign].
    destruct (digit_not_sign a1 H1) as [-> ->].
    cbn [digits_value digits_acc]. rewrite H1, H2, H3, H4. reflexivity. }
  assert (parse_float (isoformat d) = None) as Hfloat.
  { unfold parse_float. rewrite Hstrip, Hiso. cbn [take_sign].
    destruct (digit_not_sign a1 H1) as [-> ->].
    cbn [span_digits]. rewrite H1, H2, H3, H4.
    change (is_digit "-") with false. cbn iota beta.
    change (is_char "." "-") with false. cbn iota.
    destruct (digits_value _); reflexivity. }
  assert (parse_bool (isoformat d) = None) as Hbool.
  { unfold parse_bool.
    assert (∀ t, String.length t ≠ 10%nat → String.eqb (upper (isoformat d)) t = false)
      as Hne.
    { intros t Ht. destruct (String.eqb _ t) eqn:E; [|done].
      apply String.eqb_eq in E. apply (f_equal String.length) in E.
      rewrite upper_length, isoformat_length in E. congruence. }
    rewrite !Hne by (simpl; lia). done. }
  destruct c as [s|n|x|b| |d']; try done.
  - by intros ->.
  - intros H. congruence.
  - intros [H|(n & H & _)]; congruence.
  - intros H. congruence.
Qed.

Lemma read_as_empty c : read_as "" c → c = Missing.
Proof. done. Qed.

(** A row of the cleaned table has a date cell, missing or valid, in each
    of the two date columns. *)
Lemma output_date_cell f df' j r' :
  transform (parse_csv f) = Ok df' →
  get_loc "Order Date" (header f) = Some j
  ∨ get_loc "Ship Date" (header f) = Some j →
  r' ∈ rows df' → ∃ c', r' !! j = Some c' ∧ date_cell_ok c'.
Proof.
  intros Ht Hj Hr'.
  destruct (transform_rows _ _ Ht) as (_ & Hback & _).
  destruct (Hback r' Hr') as (r & Hr & Hlen & Hcells).
  pose proof Hr as Hr0.
  apply list_elem_of_lookup in Hr as [i Hi].
  destruct (lookup_lt_is_Some_2 (records f) i) as [rec Hrec].
  { rewrite <- parse_csv_length. by eapply lookup_lt_Some. }
  destruct (parse_csv_cells f i rec Hrec) as (r0 & Hr0' & Lr & _).
  assert (r0 = r) as -> by congruence.
  destruct (lookup_lt_is_Some_2 r j) as [c Hc].
  { rewrite Lr. destruct Hj as [Hj|Hj]; apply get_loc_Some in Hj;
      by eapply lookup_lt_Some. }
  destruct (Hcells j c Hc) as (c' & Hc' & Hcc).
  exists c'. split; [done|].
  unfold cleaned_cell in Hcc. rewrite decide_True in Hcc by done.
  apply (to_datetime_cell_valid _ _ Hcc).
  intros d ->. eapply parse_csv_no_timestamp; [exact Hr0|].
  by eapply list_elem_of_lookup_2.
Qed.

(** X18. The script does not take its own output as input: when the
    written file has a date in one of the two date columns and its labels
    are distinct, a run that reads this file raises [ValueError] at the
    conversion of the dates, which are now in the form YYYY-MM-DD. *)
Theorem X18_own_output_is_refused w f o w2 j rec fld :
  files w !! input_path = Some f → fst (main w) = Ok tt →
  files (snd (main w)) !! output_path = Some o →
  NoDup (header o) →
  files w2 !! input_path = Some o →
  get_loc "Order Date" (header f) = Some j
  ∨ get_loc "Ship Date" (header f) = Some j →
  rec ∈ records o → rec !! j = Some fld → fld ≠ "" →
  ∃ v, main w2 = (Raise (ValueError v), w2).
Proof.
  intros Hf Hmain Hout Hnd Hf2 Hj Hrec Hfld Hne.
  rewrite (main_unfold _ _ Hf) in Hmain, Hout.
  destruct (transform (parse_csv f)) as [df'|e] eqn:Ht; [|done].
  cbn [fst snd files] in Hout. rewrite lookup_insert_eq in Hout.
  injection Hout as <-.
  destruct (transform_images _ _ Ht) as (j1 & j2 & ts & E1 & E2 & _ & _ & Hcols & _).
  cbn [columns parse_csv] in E1, E2, Hcols.
  cbn [header records frame_to_csv] in *.
  (* the two labels are where they were *)
  assert (get_loc "Order Date" (columns df') = Some j1) as G1.
  { apply get_loc_NoDup; [done|]. rewrite Hcols, list_lookup_fmap.
    by rewrite (get_loc_Some _ _ _ E1). }
  assert (get_loc "Ship Date" (columns df') = Some j2) as G2.
  { apply get_loc_NoDup; [done|]. rewrite Hcols, list_lookup_fmap.
    by rewrite (get_loc_Some _ _ _ E2). }
  assert (j = j1 ∨ j = j2) as Hj12.
  { destruct Hj as [Hj|Hj]; [left|right]; congruence. }
  (* what the date columns of the file read back hold *)
  assert (∀ jj r2, jj = j1 ∨ jj = j2 →
            r2 ∈ rows (parse_csv (frame_to_csv df')) →
            ∃ c, r2 !! jj = Some c ∧ (c = Missing ∨ ∃ d, c = Str (isoformat d)))
    as Hread.
  { intros jj r2 Hjj Hr2. apply list_elem_of_lookup in Hr2 as [i Hi].
    destruct (lookup_lt_is_Some_2 (map (map render_cell) (rows df')) i)
      as [rec2 Hrec2].
    { change (map (map render_cell) (rows df')) with (records (frame_to_csv df')).
      rewrite <- parse_csv_length. by eapply lookup_lt_Some. }
    destruct (parse_csv_cells (frame_to_csv df') i rec2 Hrec2)
      as (r0 & Hr0 & Lr & Hcells).
    assert (r0 = r2) as -> by congruence.
    rewrite list_lookup_fmap in Hrec2.
    destruct (rows df' !! i) as [r'|] eqn:Er'; [|done]. injection Hrec2 as <-.
    destruct (output_date_cell f df' jj r' Ht) as (c' & Hc' & Hok).
    { destruct Hjj as [-> | ->]; auto. }
    { by eapply list_elem_of_lookup_2. }
    destruct (Hcells jj) as (c & Hc & Hras).
    { cbn [header frame_to_csv].
      destruct Hjj as [-> | ->];
        [apply get_loc_Some in G1|apply get_loc_Some in G2];
        by eapply lookup_lt_Some. }
    exists c. split; [done|].
    rewrite list_lookup_fmap, Hc' in Hras. simpl in Hras.
    destruct Hok as [->|(d & -> & _)]; simpl in Hras.
    - left. by apply read_as_empty.
    - right. exists d. by apply read_as_isoformat. }
  (* the date that is met *)
  apply list_elem_of_lookup in Hrec as [i Hi].
  destruct (parse_csv_cells (frame_to_csv df') i rec Hi) as (r2 & Hr2 & _ & _).
  assert (r2 ∈ rows (parse_csv (frame_to_csv df'))) as Hin
    by by eapply list_elem_of_lookup_2.
  assert (∃ d, r2 !! j = Some (Str (isoformat d))) as [d Hcell].
  { cbn [records frame_to_csv] in Hi. rewrite list_lookup_fmap in Hi.
    destruct (rows df' !! i) as [r'|] eqn:Er'; [|done]. injection Hi as <-.
    destruct (output_date_cell f df' j r' Ht Hj) as (c' & Hc' & Hok).
    { by eapply list_elem_of_lookup_2. }
    rewrite list_lookup_fmap, Hc' in Hfld. injection Hfld as <-.
    destruct Hok as [->|(d & -> & _)]; [done|].
    exists d.
    destruct (parse_csv_cells (frame_to_csv df') i (map render_cell r'))
      as (r0 & Hr0 & _ & Hcells).
    { cbn [records frame_to_csv]. by rewrite list_lookup_fmap, Er'. }
    assert (r0 = r2) as -> by congruence.
    destruct (Hcells j) as (c & Hc & Hras).
    { cbn [header frame_to_csv].
      destruct Hj12 as [-> | ->];
        [apply get_loc_Some in G1|apply get_loc_Some in G2];
        by eapply lookup_lt_Some. }
    rewrite list_lookup_fmap, Hc' in Hras. simpl in Hras.
    apply read_as_isoformat in Hras as ->. done. }
  destruct (strptime_isoformat d) as [e0 He0].
  destruct (transform_text_fails_value (parse_csv (frame_to_csv df'))
              j1 j2 j r2 (isoformat d) e0) as (v & Hv); try done.
  { apply is_nat_string_isoformat. }
  { apply is_bool_dtype_column_false. intros r c Hr Hc b ->.
    destruct (Hread j1 r (or_introl eq_refl) Hr) as (c & Hc2 & [->|(d' & ->)]);
      congruence. }
  exists v. by rewrite (main_unfold _ _ Hf2), Hv.
Qed.

Lemma X18_own_output_is_refused_witness :
  files scenario_world !! input_path = Some scenario_input
  ∧ fst (main scenario_world) = Ok tt
  ∧ ∀ o rec fld,
      files (snd (main scenario_world)) !! output_path = Some o →
      NoDup (header o) →
      rec ∈ records o → rec !! 0%nat = Some fld → fld ≠ "" →
      ∃ v, main (World {[ input_path := o ]} [])
           = (Raise (ValueError v), World {[ input_path := o ]} []).
Proof.
  assert (files scenario_world !! input_path = Some scenario_input) as Hf
    by (vm_compute; reflexivity).
  assert (fst (main scenario_world) = Ok tt) as Hm by (vm_compute; reflexivity).
  split; [exact Hf|]. split; [exact Hm|].
  intros o rec fld Ho Hnd.
  apply (X18_own_output_is_refused scenario_world scenario_input o
           (World {[ input_path := o ]} []) 0 rec fld Hf Hm Ho Hnd).
  - cbn [files]. apply lookup_singleton_eq.
  - left. vm_compute. reflexivity.
Defined.

(** The output of the scenario, read as an input. *)
Example scenario_output_is_refused :
  ∃ o, files (snd (main scenario_world)) !! output_path = Some o
       ∧ fst (main (World {[ input_path := o ]} [])) = Raise (ValueError NoMatch).
Proof. eexists. split; [vm_compute; reflexivity|]. vm_compute. reflexivity. Qed.

(** ** Which zero is filled in *)

Lemma floatish_strip_cell c :
  match strip_cell c with Float _ | Missing => true | _ => false end
  = match c with Float _ | Missing => true | _ => false end.
Proof. by destruct c. Qed.

(** Converting the dates, trimming and dropping duplicates leave a column
    that is filled with the dtype it had. *)
Lemma is_float_dtype_images df j1 j2 ts k :
  j1 ≠ j2 → k ≠ j1 → k ≠ j2 →
  Forall2 (λ r t, ∃ r1 r2, fix_row j1 r = Ok r1 ∧ fix_row j2 r1 = Ok r2
                           ∧ t = map strip_cell r2) (rows df) ts →
  is_float_dtype (column k (distinct_from [] ts))
  = is_float_dtype (column k (rows df)).
Proof.
  intros Hne Hk1 Hk2 HF.
  assert (∀ r r1 r2, fix_row j1 r = Ok r1 → fix_row j2 r1 = Ok r2 →
            map strip_cell r2 !! k = strip_cell <$> (r !! k)) as Hcell.
  { intros r r1 r2 F1 F2. destruct (image_cells _ _ _ _ _ Hne F1 F2) as [L H].
    destruct (r !! k) as [c|] eqn:Ec.
    - destruct (H k c Ec) as (c' & -> & Hc').
      rewrite decide_False in Hc' by (intros [?|?]; done). by subst.
    - apply lookup_ge_None_1 in Ec. apply lookup_ge_None_2. lia. }
  unfold is_float_dtype, column. apply eq_true_iff_eq.
  rewrite !forallb_forall. split.
  - intros H x (r & <- & Hr%list_elem_of_In)%in_map_iff.
    apply list_elem_of_lookup in Hr as [i Hi].
    destruct (Forall2_lookup_l _ _ _ _ _ HF Hi) as (t & Ht & r1 & r2 & F1 & F2 & ->).
    destruct (distinct_from_complete [] ts (map strip_cell r2))
      as [?%elem_of_nil|Hin]; [by eapply list_elem_of_lookup_2|done|].
    specialize (H (default Missing (map strip_cell r2 !! k))).
    rewrite (Hcell _ _ _ F1 F2) in H.
    destruct (r !! k) as [c|] eqn:Ec; [|done]. simpl in *.
    rewrite <- floatish_strip_cell. apply H.
    apply in_map_iff. exists (map strip_cell r2). split; [|by apply list_elem_of_In].
    by rewrite (Hcell _ _ _ F1 F2), Ec.
  - intros H x (t & <- & [Ht _]%list_elem_of_In%distinct_from_inv)%in_map_iff.
    apply list_elem_of_lookup in Ht as [i Hi].
    destruct (Forall2_lookup_r _ _ _ _ _ HF Hi) as (r & Hr & r1 & r2 & F1 & F2 & ->).
    rewrite (Hcell _ _ _ F1 F2).
    specialize (H (default Missing (r !! k))).
    destruct (r !! k) as [c|] eqn:Ec; [|done]. simpl in *.
    rewrite floatish_strip_cell. apply H.
    apply in_map_iff. exists r. split; [by rewrite Ec|].
    apply list_elem_of_In. by eapply list_elem_of_lookup_2.
Qed.

(** X19. The zero that replaces a missing value follows the type of the
    column: in a column of floats (every cell a float or missing, as
    [read_csv] makes a numeric column that has a missing value) it is the
    float zero, written [0.0]; in any other column it is the integer zero,
    written [0]. *)
Theorem X19_zero_follows_the_column_type df df' k name r :
  transform df = Ok df' →
  columns df !! k = Some name → strip name ∈ fill_keys →
  r ∈ rows df → r !! k = Some Missing →
  ∃ r', r' ∈ rows df' ∧ cleaned_row (columns df) r r'
    ∧ r' !! k = Some (if is_float_dtype (column k (rows df))
                      then Float (Float64 0 0) else Int 0)
    ∧ map render_cell r' !! k
      = Some (if is_float_dtype (column k (rows df)) then "0.0" else "0").
Proof.
  intros Ht Hk Hkey Hr Hc.
  destruct (transform_images _ _ Ht)
    as (j1 & j2 & ts & E1 & E2 & Hne & HF & _ & Hrows).
  pose proof (fill_column_not_date _ _ _ Hk Hkey) as Hnd.
  assert (k ≠ j1) as Hk1 by (intros ->; auto).
  assert (k ≠ j2) as Hk2 by (intros ->; auto).
  apply list_elem_of_lookup in Hr as [i Hi].
  destruct (Forall2_lookup_l _ _ _ _ _ HF Hi) as (t & Hti & r1 & r2 & F1 & F2 & ->).
  eexists. split_and!.
  - rewrite Hrows. apply list_elem_of_fmap. eexists. split; [reflexivity|].
    destruct (distinct_from_complete [] ts (map strip_cell r2))
      as [?%elem_of_nil|?]; [by eapply list_elem_of_lookup_2|done|done].
  - by eapply fix_rows_cleaned.
  - rewrite fill_row_lookup.
    destruct (image_cells _ _ _ _ _ Hne F1 F2) as [_ Hcells].
    destruct (Hcells k Missing Hc) as (c' & -> & Hc').
    rewrite decide_False in Hc' by (intros [?|?]; done). subst c'. simpl.
    rewrite fills_of_lookup. cbn [columns rows].
    rewrite list_lookup_fmap, Hk. cbn [fmap option_fmap option_map].
    rewrite dict_get_fill_values, bool_decide_eq_true_2 by done. simpl.
    unfold fill_value.
    rewrite (is_float_dtype_images df j1 j2 ts k Hne Hk1 Hk2 HF).
    by destruct (is_float_dtype _).
  - rewrite list_lookup_fmap, fill_row_lookup.
    destruct (image_cells _ _ _ _ _ Hne F1 F2) as [_ Hcells].
    destruct (Hcells k Missing Hc) as (c' & -> & Hc').
    rewrite decide_False in Hc' by (intros [?|?]; done). subst c'. simpl.
    rewrite fills_of_lookup. cbn [columns rows].
    rewrite list_lookup_fmap, Hk. cbn [fmap option_fmap option_map].
    rewrite dict_get_fill_values, bool_decide_eq_true_2 by done. simpl.
    unfold fill_value.
    rewrite (is_float_dtype_images df j1 j2 ts k Hne Hk1 Hk2 HF).
    by destruct (is_float_dtype _).
Qed.

Lemma X19_zero_follows_the_column_type_witness :
  transform blank_sales_frame
  = Ok (Frame ["Order Date"; "Ship Date"; "Sales"]
          [[Timestamp (Date 2022 1 2); Timestamp (Date 2022 1 5); Str ""];
           [Timestamp (Date 2022 1 3); Timestamp (Date 2022 1 6); Int 0];
           [Timestamp (Date 2022 1 4); Timestamp (Date 2022 1 7); Str "12,5"]])
  ∧ ∃ r', r' ∈ [[Timestamp (Date 2022 1 2); Timestamp (Date 2022 1 5); Str ""];
                [Timestamp (Date 2022 1 3); Timestamp (Date 2022 1 6); Int 0];
                [Timestamp (Date 2022 1 4); Timestamp (Date 2022 1 7); Str "12,5"]]
      ∧ cleaned_row (columns blank_sales_frame)
          [Str "01/03/2022"; Str "01/06/2022"; Missing] r'
      ∧ r' !! 2%nat
        = Some (if is_float_dtype (column 2 (rows blank_sales_frame))
                then Float (Float64 0 0) else Int 0)
      ∧ map render_cell r' !! 2%nat
        = Some (if is_float_dtype (column 2 (rows blank_sales_frame))
                then "0.0" else "0").
Proof.
  assert (transform blank_sales_frame
    = Ok (Frame ["Order Date"; "Ship Date"; "Sales"]
            [[Timestamp (Date 2022 1 2); Timestamp (Date 2022 1 5); Str ""];
             [Timestamp (Date 2022 1 3); Timestamp (Date 2022 1 6); Int 0];
             [Timestamp (Date 2022 1 4); Timestamp (Date 2022 1 7); Str "12,5"]]))
    as E by (vm_compute; reflexivity).
  split; [exact E|].
  apply (X19_zero_follows_the_column_type blank_sales_frame _ 2 " Sales"
           [Str "01/03/2022"; Str "01/06/2022"; Missing] E).
  - reflexivity.
  - change (strip " Sales") with "Sales". by left.
  - right. by left.
  - reflexivity.
Defined.

(** A numeric column with an empty field is a column of floats, so the
    empty field is written [0.0]; next to a text the zero is written [0]. *)
Example zero_written_by_column_type :
  ∃ w', main (World {[ input_path :=
                         CsvFile ["Order Date"; "Ship Date"; "Sales"; "Profit"]
                                 [["01/02/2022"; "01/05/2022"; "10"; "n/a"];
                                  ["01/03/2022"; "01/06/2022"; ""; "3"];
                                  ["01/04/2022"; "01/07/2022"; "7"; "unknown"]] ]} [])
        = (Ok tt, w')
  ∧ files w' !! output_path
    = Some (CsvFile ["Order Date"; "Ship Date"; "Sales"; "Profit"]
                    [["2022-01-02"; "2022-01-05"; "10.0"; "0"];
                     ["2022-01-03"; "2022-01-06"; "0.0"; "3"];
                     ["2022-01-04"; "2022-01-07"; "7.0"; "unknown"]]).
Proof. eexists. split; [vm_compute; reflexivity|]. vm_compute. reflexivity. Qed.

(** ** What the date pattern accepts *)





(** ** Which exception is raised *)



